(** * Robonomics integration for Home Assistant: setup validation and the
      periodic telemetry/configuration publication job.

    Shallow embedding of [custom_components/robonomics/config_flow.py]
    ([_validate_input] and its helpers) and of
    [custom_components/robonomics/get_states.py] (the job
    [get_and_send_data] with everything it calls), followed by the
    properties of the specification that concern them. *)

From Stdlib Require Import String Ascii List Bool Arith ZArith Lia.
From stdpp Require Import base strings list gmap.
Import ListNotations.
Local Open Scope string_scope.
Local Open Scope list_scope.

(** ** Python runtime notions shared by both modules *)

Module Py.

(** Outcome of evaluating a Python expression or statement: a value, or a
    raised exception of class [E]. *)
Inductive result (E A : Type) : Type :=
| Ok (a : A)
| Raise (e : E).
Arguments Ok {E A} a.
Arguments Raise {E A} e.

Definition is_ok {E A} (r : result E A) : bool :=
  match r with Ok _ => true | Raise _ => false end.

(** A [dict] with [str] keys, in insertion order. *)
Definition dict (V : Type) : Type := list (string * V).

(** [d.get(k)] *)
Fixpoint dict_get {V} (k : string) (d : dict V) : option V :=
  match d with
  | [] => None
  | (k', v) :: d' => if String.eqb k k' then Some v else dict_get k d'
  end.

(** [d[k] = v]: an existing key keeps its position, a new key goes last. *)
Fixpoint dict_set {V} (k : string) (v : V) (d : dict V) : dict V :=
  match d with
  | [] => [(k, v)]
  | (k', v') :: d' =>
      if String.eqb k k' then (k, v) :: d' else (k', v') :: dict_set k v d'
  end.

(** [del d[k]] for a key that is present (used for [os.remove]). *)
Fixpoint dict_del {V} (k : string) (d : dict V) : dict V :=
  match d with
  | [] => []
  | (k', v') :: d' =>
      if String.eqb k k' then d' else (k', v') :: dict_del k d'
  end.

Definition dict_keys {V} (d : dict V) : list string := map fst d.

(** [pat in s] on strings: [pat] occurs in [s] as a substring. *)
Fixpoint str_contains (pat s : string) : bool :=
  String.prefix pat s ||
  match s with
  | EmptyString => false
  | String _ s' => str_contains pat s'
  end.

(** [s[:n]] *)
Definition str_take (n : nat) (s : string) : string := String.substring 0 n s.

(** [s.split(".")[0]]: the characters before the first dot. *)
Fixpoint before_dot (s : string) : string :=
  match s with
  | EmptyString => EmptyString
  | String c s' =>
      if Ascii.eqb c "."%char then EmptyString else String c (before_dot s')
  end.

End Py.
Import Py.

(** ** [config_flow.py]: validation of the credentials given at setup *)

Module ConfigFlow.

(** Exceptions that can leave [_validate_input]: the four classes of
    [exceptions.py], and whatever the ledger libraries raise. *)
Inductive exn : Type :=
| InvalidSubAdminSeed
| InvalidSubOwnerAddress
| NoSubscription
| ControllerNotInDevices
| LibraryError (what : string).

(** Calls to the collaborators, in the order they are made. *)
Inductive call : Type :=
| CallAccount (seed : option string) (ed25519 : bool)
| CallIsValidSs58 (address : string) (ss58_format : Z)
| CallGetLedger (address : string)
| CallIsInSub (address : string).

(** The collaborators ([robonomicsinterface], [substrateinterface]).
    A [Raise what] is an exception of the library. *)
Record Ledger : Type := {
  (* [Account(seed)], [Account(seed, crypto_type=ED25519)], [Account()] *)
  Account : option string -> bool -> result string unit;
  is_valid_ss58_address : string -> Z -> result string bool;
  (* [RWS(account).get_ledger(address)]; [None] is Python's [None] *)
  get_ledger : string -> result string (option string);
  (* [RWS(account).is_in_sub(address)] for the account of the seed *)
  is_in_sub : string -> string -> result string bool
}.

(** The user input: both keys are [vol.Required] in
    [STEP_USER_DATA_SCHEMA]. *)
Record UserInput : Type := {
  CONF_ADMIN_SEED : string;
  CONF_SUB_OWNER_ADDRESS : string
}.

(** A computation: the calls it made and its outcome. *)
Definition M (A : Type) : Type := list call * result exn A.

Definition ret {A} (a : A) : M A := ([], Ok a).
Definition raise {A} (e : exn) : M A := ([], Raise e).
Definition bind {A B} (m : M A) (f : A -> M B) : M B :=
  match m with
  | (t, Ok a) => let '(t', r) := f a in (t ++ t', r)
  | (t, Raise e) => (t, Raise e)
  end.

(** One call to a collaborator; a library exception propagates. *)
Definition invoke {A} (c : call) (r : result string A) : M A :=
  ([c], match r with Ok a => Ok a | Raise what => Raise (LibraryError what) end).

Notation "'let*' x ':=' m 'in' k" := (bind m (fun x => k))
  (at level 10, x name, m at level 100, k at level 200, only parsing).

Section Validation.
Variable L : Ledger.

Definition _has_sub_owner_subscription (sub_owner_address : string) : M bool :=
  let* _ := invoke (CallAccount None false) (Account L None false) in
  let* res := invoke (CallGetLedger sub_owner_address) (get_ledger L sub_owner_address) in
  match res with
  | None => ret false
  | Some _ => ret true
  end.

Definition _is_sub_admin_in_subscription
    (sub_admin_seed sub_owner_address : string) : M bool :=
  let* _ := invoke (CallAccount (Some sub_admin_seed) true)
              (Account L (Some sub_admin_seed) true) in
  let* res := invoke (CallIsInSub sub_owner_address)
                (is_in_sub L sub_admin_seed sub_owner_address) in
  ret res.

(** Returns the caught exception, or [None] when the function falls off
    its end. *)
Definition _is_valid_sub_admin_seed (sub_admin_seed : string) : M (option exn) :=
  match invoke (CallAccount (Some sub_admin_seed) false)
               (Account L (Some sub_admin_seed) false) with
  | (t, Ok _) => (t, Ok None)
  | (t, Raise e) => (t, Ok (Some e))
  end.

Definition _is_valid_sub_owner_address (sub_owner_address : string) : M bool :=
  invoke (CallIsValidSs58 sub_owner_address 32)
         (is_valid_ss58_address L sub_owner_address 32).

(** Truth value of an [Optional[Exception]]: an exception object is
    true, [None] is false. *)
Definition truthy (e : option exn) : bool :=
  match e with Some _ => true | None => false end.

Definition _validate_input (data : UserInput) : M (dict string) :=
  let* e := _is_valid_sub_admin_seed (CONF_ADMIN_SEED data) in
  if truthy e then raise InvalidSubAdminSeed else
  let* ok_addr := _is_valid_sub_owner_address (CONF_SUB_OWNER_ADDRESS data) in
  if negb ok_addr then raise InvalidSubOwnerAddress else
  let* has_sub := _has_sub_owner_subscription (CONF_SUB_OWNER_ADDRESS data) in
  if negb has_sub then raise NoSubscription else
  let* in_sub := _is_sub_admin_in_subscription
              (CONF_ADMIN_SEED data) (CONF_SUB_OWNER_ADDRESS data) in
  if negb in_sub then raise ControllerNotInDevices else
  ret [("title", "Robonomics")].

(** The four checks of [_validate_input], as outcomes of the
    collaborators. *)
Definition seed_accepted (data : UserInput) : Prop :=
  Account L (Some (CONF_ADMIN_SEED data)) false = Ok tt.
Definition address_accepted (data : UserInput) : Prop :=
  is_valid_ss58_address L (CONF_SUB_OWNER_ADDRESS data) 32 = Ok true.
Definition subscription_found (data : UserInput) : Prop :=
  Account L None false = Ok tt /\
  exists ledger, get_ledger L (CONF_SUB_OWNER_ADDRESS data) = Ok (Some ledger).
Definition controller_in_devices (data : UserInput) : Prop :=
  Account L (Some (CONF_ADMIN_SEED data)) true = Ok tt /\
  is_in_sub L (CONF_ADMIN_SEED data) (CONF_SUB_OWNER_ADDRESS data) = Ok true.

(** The seed check is a call that constructs the account of the seed. *)
Definition seed_check (data : UserInput) : call :=
  CallAccount (Some (CONF_ADMIN_SEED data)) false.

End Validation.

(** A ledger on which every check passes, and one that rejects the seed. *)
Definition ledger_ok : Ledger := {|
  Account := fun _ _ => Ok tt;
  is_valid_ss58_address := fun _ _ => Ok true;
  get_ledger := fun _ => Ok (Some "ledger");
  is_in_sub := fun _ _ => Ok true
|}.

Definition ledger_bad_seed : Ledger := {|
  Account := fun seed _ =>
    match seed with Some _ => Raise "Invalid seed" | None => Ok tt end;
  is_valid_ss58_address := fun _ _ => Ok true;
  get_ledger := fun _ => Ok (Some "ledger");
  is_in_sub := fun _ _ => Ok true
|}.

Definition sample_input : UserInput := {|
  CONF_ADMIN_SEED := "0xseed";
  CONF_SUB_OWNER_ADDRESS := "4Address"
|}.

(** *** The steps of [ConfigFlow] *)

Inductive form_schema : Type :=
| STEP_WARN_DATA_SCHEMA
| STEP_USER_DATA_SCHEMA.

(** What a step hands back to the flow manager: the result of
    [async_show_form] ([errors] is [None] when the argument is not given)
    or of [async_create_entry]. *)
Inductive FlowResult : Type :=
| ShowForm (step_id : string) (data_schema : form_schema) (errors : option (dict string))
| CreateEntry (title : string) (data : UserInput).

(** Exceptions that can leave a step. *)
Inductive flow_exn : Type :=
| AbortFlow (reason : string)
| FlowKeyError (key : string).

(** What a step does on the way: calls to the ledger libraries and lines
    of the logger. *)
Inductive flow_event : Type :=
| LedgerCall (c : call)
| LogException (msg : string) (e : exn).

Definition F (A : Type) : Type := list flow_event * result flow_exn A.

Section Steps.
Variable L : Ledger.

(** The second step.  (It also resets the attribute [updated_config],
    which [ConfigFlow] never reads.) *)
Definition async_step_conf (user_input : option UserInput) : F FlowResult :=
  match user_input with
  | None => ([], Ok (ShowForm "conf" STEP_USER_DATA_SCHEMA None))
  | Some data =>
      let '(calls, r) := _validate_input L data in
      match r with
      | Raise InvalidSubAdminSeed =>
          (map LedgerCall calls,
           Ok (ShowForm "conf" STEP_USER_DATA_SCHEMA
                 (Some [("base", "invalid_sub_admin_seed")])))
      | Raise InvalidSubOwnerAddress =>
          (map LedgerCall calls,
           Ok (ShowForm "conf" STEP_USER_DATA_SCHEMA
                 (Some [("base", "invalid_sub_owner_address")])))
      | Raise NoSubscription =>
          (map LedgerCall calls,
           Ok (ShowForm "conf" STEP_USER_DATA_SCHEMA
                 (Some [("base", "has_no_subscription")])))
      | Raise ControllerNotInDevices =>
          (map LedgerCall calls,
           Ok (ShowForm "conf" STEP_USER_DATA_SCHEMA
                 (Some [("base", "is_not_in_devices")])))
      | Raise (LibraryError what) =>
          (map LedgerCall calls ++ [LogException "Unexpected exception" (LibraryError what)],
           Ok (ShowForm "conf" STEP_USER_DATA_SCHEMA (Some [("base", "unknown")])))
      | Ok info =>
          match dict_get "title" info with
          | Some title => (map LedgerCall calls, Ok (CreateEntry title data))
          | None => (map LedgerCall calls, Raise (FlowKeyError "title"))
          end
      end
  end.

(** [[x for x in user_input if not user_input[x]]] *)
Definition unacknowledged (user_input : dict bool) : list string :=
  List.filter
    (fun x => negb (match dict_get x user_input with Some b => b | None => false end))
    (dict_keys user_input).

(** The first step; [configured] says whether an entry with the unique id
    ["robonomics"] exists, in which case [_abort_if_unique_id_configured]
    raises. *)
Definition async_step_user (configured : bool) (user_input : option (dict bool))
    : F FlowResult :=
  if configured then ([], Raise (AbortFlow "already_configured")) else
  match user_input with
  | None => ([], Ok (ShowForm "user" STEP_WARN_DATA_SCHEMA None))
  | Some warnings =>
      match unacknowledged warnings with
      | _ :: _ =>
          ([], Ok (ShowForm "user" STEP_WARN_DATA_SCHEMA (Some [("base", "warnings")])))
      | [] => async_step_conf None
      end
  end.

End Steps.

(** A ledger without a subscription for the owner, and one whose node
    cannot be reached. *)
Definition ledger_no_subscription : Ledger := {|
  Account := fun _ _ => Ok tt;
  is_valid_ss58_address := fun _ _ => Ok true;
  get_ledger := fun _ => Ok None;
  is_in_sub := fun _ _ => Ok true
|}.

Definition ledger_offline : Ledger := {|
  Account := fun _ _ => Ok tt;
  is_valid_ss58_address := fun _ _ => Ok true;
  get_ledger := fun _ => Raise "ConnectionRefusedError";
  is_in_sub := fun _ _ => Ok true
|}.

Definition ledger_bad_address : Ledger := {|
  Account := fun _ _ => Ok tt;
  is_valid_ss58_address := fun _ _ => Ok false;
  get_ledger := fun _ => Ok (Some "ledger");
  is_in_sub := fun _ _ => Ok true
|}.

Definition ledger_not_in_devices : Ledger := {|
  Account := fun _ _ => Ok tt;
  is_valid_ss58_address := fun _ _ => Ok true;
  get_ledger := fun _ => Ok (Some "ledger");
  is_in_sub := fun _ _ => Ok false
|}.

End ConfigFlow.

(** ** [config_flow.py]: the options flow *)

Module OptionsFlow.

(** Values of the configuration entry: [str], [int] and [bool]. *)
Inductive conf_value : Type :=
| VStr (s : string)
| VInt (n : Z)
| VBool (b : bool).

(** The keys of [const.py] that [OptionsFlowHandler] reads. *)
Record Keys : Type := {
  CONF_SENDING_TIMEOUT : string;
  CONF_PINATA_PUB : string;
  CONF_PINATA_SECRET : string;
  CONF_IPFS_GATEWAY : string;
  CONF_IPFS_GATEWAY_PORT : string;
  CONF_IPFS_GATEWAY_AUTH : string
}.

(** One entry of a [vol.Schema]: [vol.Required(key, default=...): type] or
    [vol.Optional(key, default=...): type]. *)
Inductive vol_marker : Type := Required | Optional.

Inductive vol_type : Type := Tstr | Tint | Tbool.

Record vol_field : Type := {
  marker : vol_marker;
  key : string;
  default : option conf_value;
  validator : vol_type
}.

Inductive exn : Type :=
| KeyError (key : string).

(** The handler: the data of the entry it manages and its working copy. *)
Record Handler : Type := {
  config_entry_data : dict conf_value;
  updated_config : dict conf_value
}.

(** [__init__]: the working copy is [config_entry.data.copy()]. *)
Definition init (data : dict conf_value) : Handler :=
  {| config_entry_data := data; updated_config := data |}.

Inductive OptionsResult : Type :=
| ShowForm (step_id : string) (data_schema : list vol_field) (last_step : bool)
| CreateEntry (title : string) (data : dict conf_value).

(** [k in d] *)
Definition dict_mem {V} (k : string) (d : dict V) : bool :=
  match dict_get k d with Some _ => true | None => false end.

(** [d[k]] *)
Definition getitem (k : string) (d : dict conf_value) : result exn conf_value :=
  match dict_get k d with
  | Some v => Ok v
  | None => Raise (KeyError k)
  end.

(** [d.update(other)] *)
Definition dict_update {V} (d other : dict V) : dict V :=
  fold_left (fun acc kv => dict_set (fst kv) (snd kv) acc) other d.

Definition rbind {A B} (r : result exn A) (f : A -> result exn B) : result exn B :=
  match r with
  | Ok a => f a
  | Raise e => Raise e
  end.

Notation "'let+' x ':=' r 'in' k" := (rbind r (fun x => k))
  (at level 10, x name, r at level 100, k at level 200, only parsing).

Section Options.
Variable K : Keys.

(** The schema of the form, built from the stored data. *)
Definition options_schema (data : dict conf_value) : result exn (list vol_field) :=
  if dict_mem (CONF_PINATA_PUB K) data then
    let+ pinata_pub := getitem (CONF_PINATA_PUB K) data in
    let+ pinata_secret := getitem (CONF_PINATA_SECRET K) data in
    if dict_mem (CONF_IPFS_GATEWAY K) data then
      let+ custom_ipfs_gateway := getitem (CONF_IPFS_GATEWAY K) data in
      let+ custom_ipfs_port := getitem (CONF_IPFS_GATEWAY_PORT K) data in
      let+ custom_ipfs_gateway_auth := getitem (CONF_IPFS_GATEWAY_AUTH K) data in
      let+ timeout := getitem (CONF_SENDING_TIMEOUT K) data in
      Ok [ {| marker := Required; key := CONF_SENDING_TIMEOUT K;
              default := Some timeout; validator := Tint |};
           {| marker := Optional; key := CONF_PINATA_PUB K;
              default := Some pinata_pub; validator := Tstr |};
           {| marker := Optional; key := CONF_PINATA_SECRET K;
              default := Some pinata_secret; validator := Tstr |};
           {| marker := Optional; key := CONF_IPFS_GATEWAY K;
              default := Some custom_ipfs_gateway; validator := Tstr |};
           {| marker := Required; key := CONF_IPFS_GATEWAY_PORT K;
              default := Some custom_ipfs_port; validator := Tint |};
           {| marker := Required; key := CONF_IPFS_GATEWAY_AUTH K;
              default := Some custom_ipfs_gateway_auth; validator := Tbool |} ]
    else
      let+ timeout := getitem (CONF_SENDING_TIMEOUT K) data in
      Ok [ {| marker := Required; key := CONF_SENDING_TIMEOUT K;
              default := Some timeout; validator := Tint |};
           {| marker := Optional; key := CONF_PINATA_PUB K;
              default := Some pinata_pub; validator := Tstr |};
           {| marker := Optional; key := CONF_PINATA_SECRET K;
              default := Some pinata_secret; validator := Tstr |};
           {| marker := Optional; key := CONF_IPFS_GATEWAY K;
              default := None; validator := Tstr |};
           {| marker := Required; key := CONF_IPFS_GATEWAY_PORT K;
              default := Some (VInt 443); validator := Tint |};
           {| marker := Required; key := CONF_IPFS_GATEWAY_AUTH K;
              default := Some (VBool false); validator := Tbool |} ]
  else
    if dict_mem (CONF_IPFS_GATEWAY K) data then
      let+ custom_ipfs_gateway := getitem (CONF_IPFS_GATEWAY K) data in
      let+ custom_ipfs_port := getitem (CONF_IPFS_GATEWAY_PORT K) data in
      let+ custom_ipfs_gateway_auth := getitem (CONF_IPFS_GATEWAY_AUTH K) data in
      let+ timeout := getitem (CONF_SENDING_TIMEOUT K) data in
      Ok [ {| marker := Required; key := CONF_SENDING_TIMEOUT K;
              default := Some timeout; validator := Tint |};
           {| marker := Optional; key := CONF_PINATA_PUB K;
              default := None; validator := Tstr |};
           {| marker := Optional; key := CONF_PINATA_SECRET K;
              default := None; validator := Tstr |};
           {| marker := Optional; key := CONF_IPFS_GATEWAY K;
              default := Some custom_ipfs_gateway; validator := Tstr |};
           {| marker := Required; key := CONF_IPFS_GATEWAY_PORT K;
              default := Some custom_ipfs_port; validator := Tint |};
           {| marker := Required; key := CONF_IPFS_GATEWAY_AUTH K;
              default := Some custom_ipfs_gateway_auth; validator := Tbool |} ]
    else
      let+ timeout := getitem (CONF_SENDING_TIMEOUT K) data in
      Ok [ {| marker := Required; key := CONF_SENDING_TIMEOUT K;
              default := Some timeout; validator := Tint |};
           {| marker := Optional; key := CONF_PINATA_PUB K;
              default := None; validator := Tstr |};
           {| marker := Optional; key := CONF_PINATA_SECRET K;
              default := None; validator := Tstr |};
           {| marker := Optional; key := CONF_IPFS_GATEWAY K;
              default := None; validator := Tstr |};
           {| marker := Required; key := CONF_IPFS_GATEWAY_PORT K;
              default := Some (VInt 443); validator := Tint |};
           {| marker := Required; key := CONF_IPFS_GATEWAY_AUTH K;
              default := Some (VBool false); validator := Tbool |} ].

(** [async_step_init]: with an input the working copy is updated and
    becomes the data of the entry; without one the form is shown. *)
Definition async_step_init (h : Handler) (user_input : option (dict conf_value))
    : result exn OptionsResult * Handler :=
  match user_input with
  | Some input =>
      let updated := dict_update (updated_config h) input in
      (Ok (CreateEntry "" input),
       {| config_entry_data := updated; updated_config := updated |})
  | None =>
      match options_schema (config_entry_data h) with
      | Ok schema => (Ok (ShowForm "init" schema false), h)
      | Raise e => (Raise e, h)
      end
  end.

(** The six fields of the form, whatever their defaults. *)
Definition form_layout : list (vol_marker * string * vol_type) :=
  [ (Required, CONF_SENDING_TIMEOUT K, Tint);
    (Optional, CONF_PINATA_PUB K, Tstr);
    (Optional, CONF_PINATA_SECRET K, Tstr);
    (Optional, CONF_IPFS_GATEWAY K, Tstr);
    (Required, CONF_IPFS_GATEWAY_PORT K, Tint);
    (Required, CONF_IPFS_GATEWAY_AUTH K, Tbool) ].

Definition layout_of (f : vol_field) : vol_marker * string * vol_type :=
  (marker f, key f, validator f).

(** The default the form shows for [k], if it shows one. *)
Definition shown_default (schema : list vol_field) (k : string) : option conf_value :=
  match List.find (fun f => String.eqb (key f) k) schema with
  | Some f => default f
  | None => None
  end.

End Options.

(** Keys as an installation has them, and stored data with and without a
    custom gateway. *)
Definition keys0 : Keys := {|
  CONF_SENDING_TIMEOUT := "sending_timeout";
  CONF_PINATA_PUB := "pinata_pub";
  CONF_PINATA_SECRET := "pinata_secret";
  CONF_IPFS_GATEWAY := "ipfs_gateway";
  CONF_IPFS_GATEWAY_PORT := "ipfs_gateway_port";
  CONF_IPFS_GATEWAY_AUTH := "ipfs_gateway_auth"
|}.

Definition data_plain : dict conf_value :=
  [ ("admin_seed", VStr "0xseed"); ("sending_timeout", VInt 10);
    ("ipfs_gateway_port", VInt 5001); ("ipfs_gateway_auth", VBool true) ].

Definition data_gateway : dict conf_value :=
  [ ("sending_timeout", VInt 10); ("ipfs_gateway", VStr "https://ipfs.example");
    ("ipfs_gateway_port", VInt 8443); ("ipfs_gateway_auth", VBool true);
    ("pinata_pub", VStr "pub"); ("pinata_secret", VStr "secret") ].

Definition data_half_pinata : dict conf_value :=
  [ ("sending_timeout", VInt 10); ("pinata_pub", VStr "pub") ].

End OptionsFlow.

(** ** [get_states.py]: the periodic publication job *)

Module GetStates.

(** *** Exceptions, values and the data the job reads *)

(** The exceptions the job can meet; all of them are subclasses of
    [Exception]. *)
Inductive exn : Type :=
| UnboundLocalError (name : string)
| KeyError (key : string)
| AttributeError (attr : string)
| TypeError (what : string)
| OSError (path : string)
| CollaboratorError (what : string).

(** A Python object as far as [str()] sees it. *)
Inductive pyobj : Type :=
| PyNone
| PyStr (s : string)
| PyObject (text : string)      (* any other object, [text] is its [str()] *)
| PyUnprintable.                (* an object whose [__str__] raises *)

Definition py_str (o : pyobj) : result exn string :=
  match o with
  | PyNone => Ok "None"
  | PyStr s => Ok s
  | PyObject text => Ok text
  | PyUnprintable => Raise (TypeError "__str__")
  end.

(** [str(x)] for an [Optional[str]]. *)
Definition str_optional (o : option string) : string :=
  match o with Some s => s | None => "None" end.

(** A recorded [State]; [last_changed] is kept in its [str()] form. *)
Record State : Type := {
  state : string;
  last_changed : string;
  attributes : dict pyobj
}.

(** Entries of the entity registry (a dict keyed by [entity_id]) and of
    the device registry. *)
Record RegistryEntry : Type := {
  entity_id : string;
  device_id : option string
}.

Record DeviceEntry : Type := {
  name : option string;
  name_by_user : option string
}.

(** The configuration document
    [{"services": ..., "dashboard": ..., "twin_id": ...}]; JSON values
    inside it are identified by their canonical text. *)
Record ConfigDoc : Type := {
  services : gmap string string;
  dashboard : string;
  cfg_twin_id : string
}.

#[export] Instance ConfigDoc_eq_dec : EqDecision ConfigDoc.
Proof. solve_decision. Defined.

(** What [json.load] can give back for the cached document. *)
Inductive loaded : Type :=
| LoadedConfig (c : ConfigDoc)  (* a dict with exactly the three keys *)
| LoadedEmpty                   (* [{}] *)
| LoadedOther (text : string).  (* any other JSON value *)

(** [current_config != new_config] *)
Definition config_differs (current_config : loaded) (new_config : ConfigDoc) : bool :=
  match current_config with
  | LoadedConfig c => negb (bool_decide (c = new_config))
  | LoadedEmpty | LoadedOther _ => true
  end.

(** The snapshot returned by [_get_states]. *)
Inductive field : Type :=
| FStr (s : string)
| FHistory (h : list (dict string)).

Inductive top : Type :=
| Device (device_name : string) (entities : dict (dict field))
| Twin (id : string).

(** Files of the two directories the job works in. *)
Inductive node : Type :=
| File (content : string)
| Directory.

Inductive folder : Type := DATA_PATH | DATA_CONFIG_PATH.

Record Keypair : Type := {
  private_key : string;
  public_key : string
}.

(** What is logged and which collaborator is called, in order. *)
Inductive event : Type :=
| LogDebug (msg : string)
| LogError (msg : string) (e : exn)
| OsRemove (where_ : folder) (file : string)
| CallAccount (seed : string)
| CallEncrypt (plaintext : string)
| CallWriteData (where_ : folder) (config : bool) (data : string)
| CallAddConfig (filename : string)
| CallAddTelemetry (filename : string)
| CallSetConfigTopic (ipfs_hash twin : string)
| CallSendDatalog (ipfs_hash : string).

(** The mutable part: both directories, the cached content address
    [hass.data[DOMAIN][IPFS_HASH_CONFIG]] ([None]: key absent) and the
    events so far, oldest first. *)
Record World : Type := {
  data_files : dict node;
  config_files : dict node;
  ipfs_hash_config : option string;
  trace : list event
}.

(** What the job reads from Home Assistant during one cycle. *)
Record Hass : Type := {
  admin_seed : option string;          (* [hass.data[DOMAIN][CONF_ADMIN_SEED]] *)
  twin_id : option string;             (* [hass.data[DOMAIN][TWIN_ID]] *)
  entity_registry : list RegistryEntry;
  device_registry : dict DeviceEntry;
  states : dict State;                 (* [hass.states] *)
  now : Z;                             (* [datetime.now()], in seconds *)
  (* [history.state_changes_during_period(hass, start, end, entity_id,
      include_start_time_state=True, no_attributes=True)] *)
  state_changes_during_period :
    Z -> Z -> string -> result string (dict (list State));
  (* [json.loads(json.dumps(await async_get_all_descriptions(hass)))] *)
  async_get_all_descriptions : result string (gmap string string);
  (* [hass.data[LOVELACE_DOMAIN]["dashboards"].get(None).async_load(False)] *)
  async_load_dashboard : result string string
}.

(** The collaborators outside [get_states.py]; they may answer
    differently as the world changes. *)
Record Collaborators : Type := {
  Account : World -> string -> result string Keypair;
  encrypt_message : World -> string -> Keypair -> string -> result string string;
  staging_suffix : World -> bool -> result string string;
  add_config_to_ipfs : World -> string -> result string string;
  add_telemetry_to_ipfs : World -> string -> result string string;
  set_config_topic : World -> string -> string -> result string unit;
  send_datalog_states : World -> string -> result string unit;
  json_dump : ConfigDoc -> result string string;
  json_load : string -> result string loaded;
  str_config : ConfigDoc -> string;
  json_dumps : dict top -> result string string
}.

Definition is_Some_b {A} (o : option A) : bool :=
  match o with Some _ => true | None => false end.

(** *** Computations: state and exceptions over the world *)

Definition M (A : Type) : Type := World -> result exn A * World.

Definition ret {A} (a : A) : M A := fun w => (Ok a, w).

Definition raise {A} (e : exn) : M A := fun w => (Raise e, w).

Definition bind {A B} (m : M A) (f : A -> M B) : M B :=
  fun w =>
    match m w with
    | (Ok a, w') => f a w'
    | (Raise e, w') => (Raise e, w')
    end.

Notation "'let*' x ':=' m 'in' k" := (bind m (fun x => k))
  (at level 10, x name, m at level 100, k at level 200, only parsing).

(** [try: body except Exception as e: handler]: what [body] did before it
    raised stays done. *)
Definition try_except {A} (body : M A) (handler : exn -> M A) : M A :=
  fun w =>
    match body w with
    | (Ok a, w') => (Ok a, w')
    | (Raise e, w') => handler e w'
    end.

Definition set_trace (t : list event) (w : World) : World :=
  {| data_files := data_files w; config_files := config_files w;
     ipfs_hash_config := ipfs_hash_config w; trace := t |}.

Definition set_ipfs_hash_config (h : option string) (w : World) : World :=
  {| data_files := data_files w; config_files := config_files w;
     ipfs_hash_config := h; trace := trace w |}.

Definition files_of (where_ : folder) (w : World) : dict node :=
  match where_ with
  | DATA_PATH => data_files w
  | DATA_CONFIG_PATH => config_files w
  end.

Definition set_files (where_ : folder) (d : dict node) (w : World) : World :=
  match where_ with
  | DATA_PATH =>
      {| data_files := d; config_files := config_files w;
         ipfs_hash_config := ipfs_hash_config w; trace := trace w |}
  | DATA_CONFIG_PATH =>
      {| data_files := data_files w; config_files := d;
         ipfs_hash_config := ipfs_hash_config w; trace := trace w |}
  end.

Definition emit (ev : event) : M unit :=
  fun w => (Ok tt, set_trace (trace w ++ [ev]) w).

Definition log_debug (msg : string) : M unit := emit (LogDebug msg).

Definition log_error (msg : string) (e : exn) : M unit := emit (LogError msg e).

(** The outcome of a collaborator, as an exception of the job. *)
Definition lift {A} (r : result string A) : M A :=
  match r with
  | Ok a => ret a
  | Raise what => raise (CollaboratorError what)
  end.

Definition ask {A} (f : World -> result string A) : M A :=
  fun w => lift (f w) w.

Definition lift_r {A} (r : result exn A) : M A :=
  match r with
  | Ok a => ret a
  | Raise e => raise e
  end.

(** Reading a local variable that may not have been assigned. *)
Definition bound {A} (name : string) (v : option A) : M A :=
  match v with
  | Some a => ret a
  | None => raise (UnboundLocalError name)
  end.

(** [hass.data[DOMAIN][key]] *)
Definition item {A} (key : string) (v : option A) : M A :=
  match v with
  | Some a => ret a
  | None => raise (KeyError key)
  end.

(** [os.listdir(path)] *)
Definition os_listdir (where_ : folder) : M (list string) :=
  fun w => (Ok (dict_keys (files_of where_ w)), w).

(** [open(path).read()] *)
Definition read_file (where_ : folder) (file : string) : M string :=
  fun w =>
    match dict_get file (files_of where_ w) with
    | Some (File content) => (Ok content, w)
    | Some Directory | None => (Raise (OSError file), w)
    end.

(** [open(path, "w")] creates or truncates the file; [f.write(content)]
    fills it. *)
Definition open_w (where_ : folder) (file : string) : M unit :=
  fun w =>
    match dict_get file (files_of where_ w) with
    | Some Directory => (Raise (OSError file), w)
    | Some (File _) | None =>
        (Ok tt, set_files where_ (dict_set file (File "") (files_of where_ w)) w)
    end.

Definition f_write (where_ : folder) (file content : string) : M unit :=
  fun w => (Ok tt, set_files where_ (dict_set file (File content) (files_of where_ w)) w).

(** [os.remove(path)] *)
Definition os_remove (where_ : folder) (file : string) : M unit :=
  let* _ := emit (OsRemove where_ file) in
  fun w =>
    match dict_get file (files_of where_ w) with
    | Some (File _) =>
        (Ok tt, set_files where_ (dict_del file (files_of where_ w)) w)
    | Some Directory | None => (Raise (OSError file), w)
    end.

(** *** [_clear_files] *)

Fixpoint clear_loop (files : list string) : M unit :=
  match files with
  | [] => ret tt
  | datafile :: rest =>
      let* _ := (if String.eqb (str_take 4 datafile) "data"
                 then os_remove DATA_PATH datafile
                 else ret tt) in
      clear_loop rest
  end.

Definition _clear_files : M unit :=
  let* files := os_listdir DATA_PATH in
  clear_loop files.

(** *** [_state_changes_during_period] and [_get_state_history] *)

Definition _state_changes_during_period
    (hass : Hass) (start end_ : Z) (entity_id : string) : result exn (list State) :=
  match state_changes_during_period hass start end_ entity_id with
  | Ok d => Ok (match dict_get entity_id d with Some l => l | None => [] end)
  | Raise what => Raise (CollaboratorError what)
  end.

(** The [for state in states] loop with its [append]. *)
Fixpoint history_loop (states : list State) (list_states : list (dict string))
    : list (dict string) :=
  match states with
  | [] => list_states
  | st :: rest =>
      history_loop rest
        (list_states ++ [[("state", state st); ("date", last_changed st)]])
  end.

Definition _get_state_history (hass : Hass) (entity_id : string)
    : result exn (list (dict string)) :=
  let start := (now hass - 24 * 3600)%Z in
  let end_ := now hass in
  match _state_changes_during_period hass start end_ entity_id with
  | Raise e => Raise e
  | Ok states =>
      let states := skipn 1 states in
      Ok (history_loop states [])
  end.

(** *** [write_data_to_file] *)

Definition marker (config : bool) : string :=
  if config then "config_encrypted" else "data".

Section Job.
Variable C : Collaborators.
Variable hass : Hass.

(** Modelled from the spec: [write_data_to_file] of [ipfs.py], which is not
    among the sources.  Section 4.4: it writes the blob to the directory
    under a filename that embeds a type marker (telemetry or
    configuration) and a disambiguating suffix, and returns the path.  The
    markers are the ones [get_states.py] looks for. *)
Definition write_data_to_file (data : string) (where_ : folder) (config : bool)
    : M string :=
  let* _ := emit (CallWriteData where_ config data) in
  let* suffix := ask (fun w => staging_suffix C w config) in
  let filename := String.append (marker config) suffix in
  let* _ := open_w where_ filename in
  let* _ := f_write where_ filename data in
  ret filename.

(** *** [_get_dashboard_and_services] *)

(** The loop that fills [services_list]; it gives back the dict as it is
    when the loop ends or raises. *)
Fixpoint services_loop (descriptions : option (gmap string string))
    (entities : list RegistryEntry) (services_list : gmap string string)
    : gmap string string * option exn :=
  match entities with
  | [] => (services_list, None)
  | entity_data :: rest =>
      let platform := before_dot (entity_id entity_data) in
      if bool_decide (services_list !! platform = None) then
        match descriptions with
        | None => (services_list, Some (UnboundLocalError "descriptions"))
        | Some d =>
            match d !! platform with
            | Some description =>
                services_loop descriptions rest (<[platform := description]> services_list)
            | None => services_loop descriptions rest services_list
            end
        end
      else services_loop descriptions rest services_list
  end.

(** The loop that looks for the cached blob: the last name of the listing
    that contains the marker, if there is one. *)
Fixpoint find_encrypted (list_files : list string)
    (encrypted_config_filename : option string) : option string :=
  match list_files with
  | [] => encrypted_config_filename
  | name_file :: rest =>
      find_encrypted rest
        (if str_contains "config_encrypted" name_file
         then Some name_file
         else encrypted_config_filename)
  end.

(** The first [try]: [descriptions] stays unbound when it fails. *)
Definition get_descriptions : M (option (gmap string string)) :=
  try_except
    (let* d := lift (async_get_all_descriptions hass) in ret (Some d))
    (fun e =>
       let* _ := log_error "Exception in getting descriptions" e in
       ret None).

(** The second [try]: [services_list] is always bound afterwards,
    [config_dashboard] only when nothing was raised. *)
Definition get_services_and_dashboard (descriptions : option (gmap string string))
    : M (gmap string string * option string) :=
  let '(services_list, err) :=
    services_loop descriptions (entity_registry hass) ∅ in
  match err with
  | Some e =>
      let* _ := log_error "Exception in get services and dashboard" e in
      ret (services_list, None)
  | None =>
      try_except
        (let* config_dashboard := lift (async_load_dashboard hass) in
         ret (services_list, Some config_dashboard))
        (fun e =>
           let* _ := log_error "Exception in get services and dashboard" e in
           ret (services_list, None))
  end.

(** The third [try]: the cached plaintext document, [{}] when it cannot be
    read or parsed. *)
Definition load_current_config : M loaded :=
  try_except
    (let* text := read_file DATA_CONFIG_PATH "config" in
     lift (json_load C text))
    (fun e =>
       let* _ := log_error "Exception in json load config" e in
       ret LoadedEmpty).

(** [IPFS_HASH_CONFIG not in hass.data[DOMAIN]] *)
Definition hash_missing : M bool :=
  fun w => (Ok (negb (is_Some_b (ipfs_hash_config w))), w).

(** The branch that encrypts the new document. *)
Definition encrypt_new_config (new_config : ConfigDoc) : M string :=
  let* _ := log_debug "Config was changed" in
  let* _ := open_w DATA_CONFIG_PATH "config" in
  let* text := lift (json_dump C new_config) in
  let* _ := f_write DATA_CONFIG_PATH "config" text in
  let* seed := item "CONF_ADMIN_SEED" (admin_seed hass) in
  let* _ := emit (CallAccount seed) in
  let* sender_kp := ask (fun w => Account C w seed) in
  let* _ := emit (CallEncrypt (str_config C new_config)) in
  ask (fun w => encrypt_message C w (str_config C new_config) sender_kp
                  (public_key sender_kp)).

(** The branch that reads the cached blob back. *)
Definition read_cached_blob : M string :=
  let* list_files := os_listdir DATA_CONFIG_PATH in
  let encrypted_config_filename := find_encrypted list_files None in
  let* file := bound "encrypted_config_filename" encrypted_config_filename in
  read_file DATA_CONFIG_PATH file.

(** Staging, upload and pointer write of the configuration blob. *)
Definition publish_config (encrypted_data : string) : M unit :=
  let* filename := write_data_to_file encrypted_data DATA_CONFIG_PATH true in
  let* _ := log_debug "Filename" in
  let* _ := emit (CallAddConfig filename) in
  let* ipfs_hash := ask (fun w => add_config_to_ipfs C w filename) in
  let* _ := (fun w => (Ok tt, set_ipfs_hash_config (Some ipfs_hash) w)) in
  let* _ := log_debug "New config IPFS hash" in
  let* h := (fun w => item "IPFS_HASH_CONFIG" (ipfs_hash_config w) w) in
  let* twin := item "TWIN_ID" (twin_id hass) in
  let* _ := emit (CallSetConfigTopic h twin) in
  ask (fun w => set_config_topic C w h twin).

(** The body of the last [try]. *)
Definition change_config (services_list : gmap string string)
    (config_dashboard : option string) (current_config : loaded) : M unit :=
  let* dashboard := bound "config_dashboard" config_dashboard in
  let* twin := item "TWIN_ID" (twin_id hass) in
  let new_config :=
    {| services := services_list; dashboard := dashboard; cfg_twin_id := twin |} in
  let* no_hash := hash_missing in
  if config_differs current_config new_config || no_hash then
    let* encrypted_data :=
      (if config_differs current_config new_config
       then encrypt_new_config new_config
       else read_cached_blob) in
    publish_config encrypted_data
  else ret tt.

Definition _get_dashboard_and_services : M unit :=
  let* _ := log_debug "Start getting info about dashboard and services" in
  let* descriptions := get_descriptions in
  let* sd := get_services_and_dashboard descriptions in
  let* current_config := load_current_config in
  try_except
    (change_config (fst sd) (snd sd) current_config)
    (fun e => log_error "Exception in change config" e).

(** *** [_get_states] *)

(** [try: units = str(entity_state.attributes.get("unit_of_measurement"))]
    [except: units = "None"] *)
Definition units_of (entity_state : State) : string :=
  let attribute :=
    match dict_get "unit_of_measurement" (attributes entity_state) with
    | Some o => o
    | None => PyNone
    end in
  match py_str attribute with
  | Ok units => units
  | Raise _ => "None"
  end.

(** [str(device.name_by_user) if device.name_by_user != None else str(device.name)] *)
Definition device_name_of (device : DeviceEntry) : string :=
  match name_by_user device with
  | Some n => n
  | None => str_optional (name device)
  end.

(** Filing [entity_info] under its device. *)
Definition file_entity (devices_data : dict top) (device : string)
    (entity : string) (entity_info : dict field) : result exn (dict top) :=
  match dict_get device devices_data with
  | None =>
      match dict_get device (device_registry hass) with
      | None => Raise (AttributeError "name_by_user")
      | Some d =>
          Ok (dict_set device
                (Device (device_name_of d) [(entity, entity_info)]) devices_data)
      end
  | Some (Device n entities) =>
      Ok (dict_set device (Device n (dict_set entity entity_info entities)) devices_data)
  | Some (Twin _) => Raise (TypeError "string indices must be integers")
  end.

(** One turn of the loop over the entity registry; the registry is keyed
    by [entity_id], so the key [entity] is [entity_data.entity_id]. *)
Definition states_step (devices_data : dict top) (entity_data : RegistryEntry)
    : result exn (dict top) :=
  let entity := entity_id entity_data in
  match device_id entity_data with
  | None => Ok devices_data
  | Some device =>
      match dict_get entity (states hass) with
      | None => Ok devices_data
      | Some entity_state =>
          let units := units_of entity_state in
          match _get_state_history hass (entity_id entity_data) with
          | Raise e => Raise e
          | Ok history =>
              let entity_info :=
                [("units", FStr units);
                 ("state", FStr (state entity_state));
                 ("history", FHistory history)] in
              file_entity devices_data device (entity_id entity_data) entity_info
          end
      end
  end.

Fixpoint states_loop (entities : list RegistryEntry) (devices_data : dict top)
    : result exn (dict top) :=
  match entities with
  | [] => Ok devices_data
  | entity_data :: rest =>
      match states_step devices_data entity_data with
      | Raise e => Raise e
      | Ok devices_data' => states_loop rest devices_data'
      end
  end.

Definition _get_states : M (dict top) :=
  let* _ := _get_dashboard_and_services in
  let* devices_data := lift_r (states_loop (entity_registry hass) []) in
  let* twin := item "TWIN_ID" (twin_id hass) in
  ret (dict_set "twin_id" (Twin twin) devices_data).

(** *** [get_and_send_data] *)

(** The first [try]: [sender_kp] stays unbound when it fails. *)
Definition create_keypair_body : M (option Keypair) :=
  let* _ := _clear_files in
  let* seed := item "CONF_ADMIN_SEED" (admin_seed hass) in
  let* _ := emit (CallAccount seed) in
  let* sender_kp := ask (fun w => Account C w seed) in
  ret (Some sender_kp).

Definition create_keypair_handler (e : exn) : M (option Keypair) :=
  let* _ := log_error "Exception in create keypair during get and senf data" e in
  ret None.

Definition create_keypair : M (option Keypair) :=
  try_except create_keypair_body create_keypair_handler.

(** The body of the second [try], up to the upload of the telemetry. *)
Definition upload_telemetry (sender_kp : option Keypair) : M string :=
  let* data := _get_states in
  let* data := lift (json_dumps C data) in
  let* _ := log_debug "Got states to send datalog" in
  let* kp := bound "sender_kp" sender_kp in
  let* _ := emit (CallEncrypt data) in
  let* encrypted_data :=
    ask (fun w => encrypt_message C w data kp (public_key kp)) in
  let* filename := write_data_to_file encrypted_data DATA_PATH false in
  let* _ := emit (CallAddTelemetry filename) in
  ask (fun w => add_telemetry_to_ipfs C w filename).

(** The whole body: the upload, then the pointer on the ledger. *)
Definition send_data (sender_kp : option Keypair) : M unit :=
  let* ipfs_hash := upload_telemetry sender_kp in
  let* _ := emit (CallSendDatalog ipfs_hash) in
  ask (fun w => send_datalog_states C w ipfs_hash).

Definition send_data_handler (e : exn) : M unit :=
  log_error "Exception in get_and_send_data" e.

Definition get_and_send_data : M unit :=
  let* sender_kp := create_keypair in
  try_except (send_data sender_kp) send_data_handler.

End Job.

(** *** Notions the properties are stated with *)

(** The candidate document of a cycle, when the first two [try] blocks and
    the lookup of the twin identifier all succeed. *)
Definition candidate (hass : Hass) : option ConfigDoc :=
  match async_get_all_descriptions hass with
  | Raise _ => None
  | Ok d =>
      match services_loop (Some d) (entity_registry hass) ∅ with
      | (_, Some _) => None
      | (services_list, None) =>
          match async_load_dashboard hass, twin_id hass with
          | Ok config_dashboard, Some twin =>
              Some {| services := services_list;
                      dashboard := config_dashboard;
                      cfg_twin_id := twin |}
          | _, _ => None
          end
      end
  end.

(** The last-known plaintext document is absent, or does not parse. *)
Definition config_absent (w : World) : Prop :=
  dict_get "config" (config_files w) = None.

Definition config_corrupt (C : Collaborators) (w : World) : Prop :=
  exists text what,
    dict_get "config" (config_files w) = Some (File text) /\
    json_load C text = Raise what.

(** The last-known plaintext document parses to [doc]. *)
Definition config_on_disk (C : Collaborators) (w : World) (doc : loaded) : Prop :=
  exists text,
    dict_get "config" (config_files w) = Some (File text) /\
    json_load C text = Ok doc.

(** No file of the configuration directory carries the marker of the
    cached blob. *)
Definition no_cached_blob (w : World) : Prop :=
  forall file, In file (dict_keys (config_files w)) ->
               str_contains "config_encrypted" file = false.

(** Collaborators that answer every call. *)
Record reliable (C : Collaborators) : Prop := {
  reliable_account : forall w seed, is_ok (Account C w seed) = true;
  reliable_encrypt : forall w m kp pk, is_ok (encrypt_message C w m kp pk) = true;
  reliable_suffix : forall w config, is_ok (staging_suffix C w config) = true;
  reliable_add_config : forall w f, is_ok (add_config_to_ipfs C w f) = true;
  reliable_set_topic : forall w h t, is_ok (set_config_topic C w h t) = true
}.

(** Nothing of the configuration directory is a subdirectory. *)
Definition only_files (w : World) : Prop :=
  forall file, dict_get file (config_files w) <> Some Directory.

(** Counting events of one kind. *)
Definition is_pointer_call (ev : event) : bool :=
  match ev with CallSetConfigTopic _ _ => true | _ => false end.

Definition is_encryption (ev : event) : bool :=
  match ev with CallEncrypt _ => true | _ => false end.

Definition is_upload (ev : event) : bool :=
  match ev with CallAddConfig _ => true | _ => false end.

Definition is_datalog_call (ev : event) : bool :=
  match ev with CallSendDatalog _ => true | _ => false end.

Definition count (p : event -> bool) (t : list event) : nat :=
  length (List.filter p t).

(** The events of a computation: what it appended to the trace. *)
Definition events_since (w w' : World) : list event :=
  skipn (length (trace w)) (trace w').

(** [entity] is a key of the entity mapping of some device of the snapshot. *)
Definition appears (entity : string) (snapshot : dict top) : Prop :=
  exists device n entities info,
    dict_get device snapshot = Some (Device n entities) /\
    dict_get entity entities = Some info.

(** One stored record of the history of an entity. *)
Definition history_record (st : State) : dict string :=
  [("state", state st); ("date", last_changed st)].

(** The record [_get_states] files for an entity whose current state is
    [st] and whose stored history is [history]. *)
Definition entity_info_of (st : State) (history : list (dict string)) : dict field :=
  [("units", FStr (units_of st));
   ("state", FStr (state st));
   ("history", FHistory history)].

(** Every record of [devices_data] was filed for an entity of [seen] that
    has this device and a current state; no value is a twin identifier. *)
Definition recorded_from (hass : Hass) (seen : list RegistryEntry)
    (devices_data : dict top) : Prop :=
  (forall k t, dict_get k devices_data <> Some (Twin t)) /\
  forall device n entities x info,
    dict_get device devices_data = Some (Device n entities) ->
    dict_get x entities = Some info ->
    exists e st history,
      In e seen /\ entity_id e = x /\ device_id e = Some device /\
      dict_get x (states hass) = Some st /\
      _get_state_history hass x = Ok history /\
      info = entity_info_of st history.

(** Every entity of [seen] with a device and a current state has a record
    under its device. *)
Definition records_all (hass : Hass) (seen : list RegistryEntry)
    (devices_data : dict top) : Prop :=
  forall e device st,
    In e seen -> device_id e = Some device ->
    dict_get (entity_id e) (states hass) = Some st ->
    exists n entities info,
      dict_get device devices_data = Some (Device n entities) /\
      dict_get (entity_id e) entities = Some info.

(** A computation that never raises. *)
Definition returns {A} (m : M A) : Prop :=
  forall w, exists a w', m w = (Ok a, w').

(** The world once [_get_dashboard_and_services] has logged its start. *)
Definition started (w : World) : World :=
  set_trace (trace w ++ [LogDebug "Start getting info about dashboard and services"]) w.

(** The handler of the last [try] of [_get_dashboard_and_services]. *)
Definition change_config_handler (e : exn) : M unit :=
  log_error "Exception in change config" e.

(** The world after one and after two consecutive cycles of the detector. *)
Definition after_cycle (C : Collaborators) (hass : Hass) (w : World) : World :=
  snd (_get_dashboard_and_services C hass w).

Definition after_two_cycles (C : Collaborators) (hass : Hass) (w : World) : World :=
  after_cycle C hass (after_cycle C hass w).

(** What the third [try] leaves in [current_config], and what it logs. *)
Definition current_config_of (C : Collaborators) (w : World) : loaded :=
  match dict_get "config" (config_files w) with
  | Some (File text) =>
      match json_load C text with
      | Ok doc => doc
      | Raise _ => LoadedEmpty
      end
  | Some Directory | None => LoadedEmpty
  end.

Definition load_log (C : Collaborators) (w : World) : list event :=
  match dict_get "config" (config_files w) with
  | Some (File text) =>
      match json_load C text with
      | Ok _ => []
      | Raise what =>
          [LogError "Exception in json load config" (CollaboratorError what)]
      end
  | Some Directory | None =>
      [LogError "Exception in json load config" (OSError "config")]
  end.

(** The events of a cycle that encrypts and publishes the configuration. *)
Definition publication_events (C : Collaborators) (cfg : ConfigDoc)
    (seed blob suffix h : string) : list event :=
  [LogDebug "Config was changed"; CallAccount seed; CallEncrypt (str_config C cfg);
   CallWriteData DATA_CONFIG_PATH true blob; LogDebug "Filename";
   CallAddConfig (String.append "config_encrypted" suffix);
   LogDebug "New config IPFS hash"; CallSetConfigTopic h (cfg_twin_id cfg)].

(** A computation that only appends to the trace, and never a pointer call
    for the telemetry. *)
Definition quiet {A} (m : M A) : Prop :=
  forall w, exists evs,
    trace (snd (m w)) = trace w ++ evs /\ count is_datalog_call evs = 0.

(** The telemetry marker of [_clear_files]. *)
Definition is_telemetry (file : string) : bool :=
  String.eqb (str_take 4 file) "data".

Definition kept (entry : string * node) : bool := negb (is_telemetry (fst entry)).

(** Events of the telemetry publication: staging, upload and pointer. *)
Definition is_telemetry_event (ev : event) : bool :=
  match ev with
  | CallWriteData DATA_PATH _ _ | CallAddTelemetry _ | CallSendDatalog _ => true
  | _ => false
  end.

(** Lines of the logger, as opposed to calls. *)
Definition is_log (ev : event) : bool :=
  match ev with
  | LogDebug _ | LogError _ _ => true
  | _ => false
  end.

(** A computation that only appends to the trace, and no event of the
    kind [p]. *)
Definition silent {A} (p : event -> bool) (m : M A) : Prop :=
  forall w, exists evs,
    trace (snd (m w)) = trace w ++ evs /\ count p evs = 0.

(** A computation that leaves the staging directory alone and, in the
    configuration directory, removes no name and changes no file other
    than the plaintext document and files that carry the marker of the
    blob. *)
Definition keeps_files {A} (m : M A) : Prop :=
  forall w,
    data_files (snd (m w)) = data_files w /\
    (forall f, In f (dict_keys (config_files w)) ->
               In f (dict_keys (config_files (snd (m w))))) /\
    (forall f, f <> "config" -> str_contains "config_encrypted" f = false ->
               dict_get f (config_files (snd (m w))) = dict_get f (config_files w)).

(** Every bucket of [devices_data] is named after its entry of the device
    registry, was opened for an entity of [seen] and is not empty. *)
Definition named_from (hass : Hass) (seen : list RegistryEntry)
    (devices_data : dict top) : Prop :=
  forall device n entities,
    dict_get device devices_data = Some (Device n entities) ->
    (exists d, dict_get device (device_registry hass) = Some d /\
               n = device_name_of d) /\
    (exists e, In e seen /\ device_id e = Some device) /\
    entities <> [].

(** The world [w] once the directory [where_] holds [files] and the events
    [evs] have been appended to the trace. *)
Definition advanced (w : World) (where_ : folder) (files : dict node)
    (evs : list event) : World :=
  set_trace (trace w ++ evs) (set_files where_ files w).

End GetStates.

(** ** Concrete inputs *)

Module Samples.
Import GetStates.

Definition v0 : State := {| state := "v0"; last_changed := "t0"; attributes := [] |}.
Definition v1 : State := {| state := "v1"; last_changed := "t1"; attributes := [] |}.
Definition v2 : State := {| state := "v2"; last_changed := "t2"; attributes := [] |}.

(** Three entities on two devices, one of them without a current state,
    and a fourth entity without a device. *)
Definition hass0 : Hass := {|
  admin_seed := Some "seed";
  twin_id := Some "7";
  entity_registry :=
    [ {| entity_id := "sensor.temp"; device_id := Some "dev1" |};
      {| entity_id := "light.lamp"; device_id := Some "dev2" |};
      {| entity_id := "sensor.gone"; device_id := Some "dev1" |};
      {| entity_id := "sun.sun"; device_id := None |} ];
  device_registry :=
    [ ("dev1", {| name := Some "Thermometer"; name_by_user := None |});
      ("dev2", {| name := Some "Lamp"; name_by_user := Some "My lamp" |}) ];
  states :=
    [ ("sensor.temp",
       {| state := "v2"; last_changed := "t2";
          attributes := [("unit_of_measurement", PyStr "C")] |});
      ("light.lamp", {| state := "on"; last_changed := "t1"; attributes := [] |});
      ("sun.sun", {| state := "above"; last_changed := "t0"; attributes := [] |}) ];
  now := 100000;
  state_changes_during_period := fun _ _ entity =>
    if String.eqb entity "sensor.temp"
    then Ok [("sensor.temp", [v0; v1; v2])]
    else Ok [];
  async_get_all_descriptions := Ok {[ "light" := "{turn_on}" ]};
  async_load_dashboard := Ok "{views}"
|}.

(** The same installation once the controller seed is gone from
    [hass.data]. *)
Definition hass_no_seed : Hass := {|
  admin_seed := None;
  twin_id := twin_id hass0;
  entity_registry := entity_registry hass0;
  device_registry := device_registry hass0;
  states := states hass0;
  now := now hass0;
  state_changes_during_period := state_changes_during_period hass0;
  async_get_all_descriptions := async_get_all_descriptions hass0;
  async_load_dashboard := async_load_dashboard hass0
|}.

(** An installation whose only device has the identifier ["twin_id"]. *)
Definition hass_reserved : Hass := {|
  admin_seed := admin_seed hass0;
  twin_id := twin_id hass0;
  entity_registry := [ {| entity_id := "light.lamp"; device_id := Some "twin_id" |} ];
  device_registry := [ ("twin_id", {| name := Some "Lamp"; name_by_user := None |}) ];
  states := states hass0;
  now := now hass0;
  state_changes_during_period := state_changes_during_period hass0;
  async_get_all_descriptions := async_get_all_descriptions hass0;
  async_load_dashboard := async_load_dashboard hass0
|}.

(** The same installation after the thermometer was removed from the device
    registry while its entities stayed. *)
Definition hass_unknown_device : Hass := {|
  admin_seed := admin_seed hass0;
  twin_id := twin_id hass0;
  entity_registry := entity_registry hass0;
  device_registry := [ ("dev2", {| name := Some "Lamp"; name_by_user := Some "My lamp" |}) ];
  states := states hass0;
  now := now hass0;
  state_changes_during_period := state_changes_during_period hass0;
  async_get_all_descriptions := async_get_all_descriptions hass0;
  async_load_dashboard := async_load_dashboard hass0
|}.

(** The same installation with no Lovelace configuration to load. *)
Definition hass_no_dashboard : Hass := {|
  admin_seed := admin_seed hass0;
  twin_id := twin_id hass0;
  entity_registry := entity_registry hass0;
  device_registry := device_registry hass0;
  states := states hass0;
  now := now hass0;
  state_changes_during_period := state_changes_during_period hass0;
  async_get_all_descriptions := async_get_all_descriptions hass0;
  async_load_dashboard := Raise "ConfigNotFound"
|}.

(** The content address of an older document is in memory, the document on
    disk is that older one. *)
Definition world_outdated : World := {|
  data_files := [];
  config_files :=
    [("config", File "doc:{old}"); ("config_encrypted-0", File "enc:str:{old}")];
  ipfs_hash_config := Some "Qm:config_encrypted-0";
  trace := []
|}.

Definition config0 : ConfigDoc := {|
  services := {[ "light" := "{turn_on}" ]};
  dashboard := "{views}";
  cfg_twin_id := "7"
|}.

Definition collaborators0 : Collaborators := {|
  Account := fun _ seed => Ok {| private_key := seed; public_key := "pub" |};
  encrypt_message := fun _ m _ _ => Ok (String.append "enc:" m);
  staging_suffix := fun _ _ => Ok "-1";
  add_config_to_ipfs := fun _ f => Ok (String.append "Qm:" f);
  add_telemetry_to_ipfs := fun _ f => Ok (String.append "Qm:" f);
  set_config_topic := fun _ _ _ => Ok tt;
  send_datalog_states := fun _ _ => Ok tt;
  json_dump := fun c => Ok (String.append "doc:" (dashboard c));
  json_load := fun text =>
    if String.eqb text "doc:{views}" then Ok (LoadedConfig config0)
    else Raise "JSONDecodeError";
  str_config := fun c => String.append "str:" (dashboard c);
  json_dumps := fun _ => Ok "snapshot"
|}.

(** Collaborators as [collaborators0], except that no account can be made
    of the seed. *)
Definition collaborators_no_account : Collaborators := {|
  Account := fun _ _ => Raise "Invalid seed";
  encrypt_message := encrypt_message collaborators0;
  staging_suffix := staging_suffix collaborators0;
  add_config_to_ipfs := add_config_to_ipfs collaborators0;
  add_telemetry_to_ipfs := add_telemetry_to_ipfs collaborators0;
  set_config_topic := set_config_topic collaborators0;
  send_datalog_states := send_datalog_states collaborators0;
  json_dump := json_dump collaborators0;
  json_load := json_load collaborators0;
  str_config := str_config collaborators0;
  json_dumps := json_dumps collaborators0
|}.

(** A first start: empty directories, no content address. *)
Definition world_fresh : World := {|
  data_files := [];
  config_files := [];
  ipfs_hash_config := None;
  trace := []
|}.

(** The document on disk is the candidate and the content address is
    known. *)
Definition world_settled : World := {|
  data_files := [("data-0", File "enc:old")];
  config_files :=
    [("config", File "doc:{views}"); ("config_encrypted-0", File "enc:str:{views}")];
  ipfs_hash_config := Some "Qm:config_encrypted-0";
  trace := []
|}.

(** After a restart: the document on disk is the candidate, the content
    address is forgotten, and the cached blob is there or not. *)
Definition world_restarted : World := {|
  data_files := [];
  config_files :=
    [("config", File "doc:{views}"); ("config_encrypted-0", File "enc:str:{views}")];
  ipfs_hash_config := None;
  trace := []
|}.

Definition world_no_blob : World := {|
  data_files := [];
  config_files := [("config", File "doc:{views}")];
  ipfs_hash_config := None;
  trace := []
|}.

Definition world_corrupt : World := {|
  data_files := [];
  config_files := [("config", File "{broken")];
  ipfs_hash_config := None;
  trace := []
|}.

(** A staging directory with a subdirectory that carries the prefix. *)
Definition world_blocked : World := {|
  data_files :=
    [("notes", File "n"); ("data_1", File "a"); ("data_dir", Directory);
     ("data_2", File "b")];
  config_files := [];
  ipfs_hash_config := None;
  trace := []
|}.

(** The staging directory of the cleanup example. *)
Definition world_staging : World := {|
  data_files :=
    [("data_1", File "a"); ("data_2", File "b"); ("config_encrypted_x", File "c")];
  config_files := [];
  ipfs_hash_config := None;
  trace := []
|}.

End Samples.

(** * Properties *)

(** ** Setup validation *)

Module ConfigFlowSpec.
Import ConfigFlow.

Lemma validate_input_rejects_seed (L : Ledger) (data : UserInput) (what : string) :
  Account L (Some (CONF_ADMIN_SEED data)) false = Raise what ->
  _validate_input L data = ([seed_check data], Raise InvalidSubAdminSeed).
Proof.
  intros Hseed.
  unfold _validate_input, _is_valid_sub_admin_seed, invoke, bind.
  rewrite Hseed. reflexivity.
Qed.

Lemma validate_input_after_seed (L : Ledger) (data : UserInput) :
  Account L (Some (CONF_ADMIN_SEED data)) false = Ok tt ->
  exists later,
    fst (_validate_input L data) = seed_check data :: later /\
    snd (_validate_input L data) <> Raise InvalidSubAdminSeed.
Proof.
  intros Hseed.
  unfold _validate_input, _is_valid_sub_admin_seed, _is_valid_sub_owner_address,
    _has_sub_owner_subscription, _is_sub_admin_in_subscription, invoke, bind.
  rewrite Hseed. cbn.
  destruct (is_valid_ss58_address L _ 32) as [[] | ?]; cbn;
    try (eexists; split; [reflexivity | discriminate]).
  destruct (Account L None false) as [[] | ?]; cbn;
    try (eexists; split; [reflexivity | discriminate]).
  destruct (get_ledger L _) as [[?|] | ?]; cbn;
    try (eexists; split; [reflexivity | discriminate]).
  destruct (Account L _ true) as [[] | ?]; cbn;
    try (eexists; split; [reflexivity | discriminate]).
  destruct (is_in_sub L _ _) as [[] | ?]; cbn;
    eexists; (split; [reflexivity | discriminate]).
Qed.

(** C10. [_validate_input] raises [InvalidSubAdminSeed] exactly when
    constructing the account of the controller seed raises; that
    construction is the first call the validation makes, and when it
    raises no other call (address format, subscription queries) is made;
    when the four checks pass the result is [{"title": "Robonomics"}]. *)
Theorem validate_input_seed_first (L : Ledger) (data : UserInput) :
  (snd (_validate_input L data) = Raise InvalidSubAdminSeed <->
   exists what, Account L (Some (CONF_ADMIN_SEED data)) false = Raise what) /\
  (exists later, fst (_validate_input L data) = seed_check data :: later) /\
  ((exists what, Account L (Some (CONF_ADMIN_SEED data)) false = Raise what) ->
   fst (_validate_input L data) = [seed_check data]) /\
  (seed_accepted L data -> address_accepted L data ->
   subscription_found L data -> controller_in_devices L data ->
   _validate_input L data =
     ([seed_check data;
       CallIsValidSs58 (CONF_SUB_OWNER_ADDRESS data) 32;
       CallAccount None false;
       CallGetLedger (CONF_SUB_OWNER_ADDRESS data);
       CallAccount (Some (CONF_ADMIN_SEED data)) true;
       CallIsInSub (CONF_SUB_OWNER_ADDRESS data)],
      Ok [("title", "Robonomics")])).
Proof.
  destruct (Account L (Some (CONF_ADMIN_SEED data)) false) as [[] | what] eqn:Hseed.
  - destruct (validate_input_after_seed L data Hseed) as (later & Hfst & Hsnd).
    repeat split.
    + intros H. contradiction.
    + intros (what & H). discriminate.
    + exists later. exact Hfst.
    + intros (what & H). discriminate.
    + intros _ Haddr (Hacc & ledger & Hled) (Hacc' & Hin).
      unfold address_accepted in Haddr.
      unfold _validate_input, _is_valid_sub_admin_seed, _is_valid_sub_owner_address,
        _has_sub_owner_subscription, _is_sub_admin_in_subscription, invoke, bind.
      rewrite Hseed, Haddr, Hacc, Hled, Hacc', Hin. reflexivity.
  - pose proof (validate_input_rejects_seed L data what Hseed) as Hrun.
    rewrite Hrun. cbn. repeat split.
    + intros _. exists what. reflexivity.
    + exists []. reflexivity.
    + intros H. unfold seed_accepted in H. congruence.
Qed.

Lemma validate_input_seed_first_witness :
  _validate_input ledger_ok sample_input =
    ([seed_check sample_input; CallIsValidSs58 "4Address" 32;
      CallAccount None false; CallGetLedger "4Address";
      CallAccount (Some "0xseed") true; CallIsInSub "4Address"],
     Ok [("title", "Robonomics")]) /\
  fst (_validate_input ledger_bad_seed sample_input) = [seed_check sample_input].
Proof.
  split.
  - apply (validate_input_seed_first ledger_ok sample_input).
    + reflexivity.
    + reflexivity.
    + split; [reflexivity | exists "ledger"; reflexivity].
    + split; reflexivity.
  - apply (validate_input_seed_first ledger_bad_seed sample_input).
    exists "Invalid seed". reflexivity.
Defined.

End ConfigFlowSpec.

(** ** The publication job *)

Module GetStatesSpec.
Import GetStates.

(** *** Dictionaries *)

Section Dictionaries.
Context {V : Type}.
Implicit Types (d : dict V) (k : string) (v : V).

Lemma dict_get_set k k' v d :
  dict_get k (dict_set k' v d) =
    if String.eqb k k' then Some v else dict_get k d.
Proof.
  induction d as [| [k0 v0] d IH]; cbn.
  - destruct (String.eqb k k'); reflexivity.
  - destruct (String.eqb k' k0) eqn:E0; cbn.
    + apply String.eqb_eq in E0. subst k0.
      destruct (String.eqb k k'); reflexivity.
    + destruct (String.eqb k k0) eqn:E1.
      * apply String.eqb_eq in E1. subst k0.
        rewrite String.eqb_sym in E0. rewrite E0. reflexivity.
      * exact IH.
Qed.

Lemma dict_get_set_eq k v d : dict_get k (dict_set k v d) = Some v.
Proof. rewrite dict_get_set, String.eqb_refl. reflexivity. Qed.

Lemma dict_get_set_ne k k' v d :
  k <> k' -> dict_get k (dict_set k' v d) = dict_get k d.
Proof.
  intros Hne. rewrite dict_get_set.
  apply String.eqb_neq in Hne. rewrite Hne. reflexivity.
Qed.

(** Writing a key twice leaves the last value. *)
Lemma dict_set_set k v v' d : dict_set k v (dict_set k v' d) = dict_set k v d.
Proof.
  induction d as [| [k' x] d IH]; cbn [dict_set].
  - rewrite String.eqb_refl. reflexivity.
  - destruct (String.eqb k k') eqn:E; cbn [dict_set]; rewrite ?E, ?String.eqb_refl;
      [reflexivity |].
    rewrite IH. reflexivity.
Qed.

End Dictionaries.

(** *** C2: the stored history *)

Lemma history_loop_map (states : list State) (list_states : list (dict string)) :
  history_loop states list_states = list_states ++ map history_record states.
Proof.
  revert list_states.
  induction states as [| st rest IH]; intros acc; cbn.
  - rewrite app_nil_r. reflexivity.
  - rewrite IH. rewrite <- app_assoc. reflexivity.
Qed.

(** C2. The stored history of an entity is the raw result of the range
    query without its first record, each record as [{"state", "date"}]:
    one record shorter than a non-empty raw result, and empty when the raw
    result has at most one record. *)
Theorem get_state_history_drops_first (hass : Hass) (entity : string) (raw : list State) :
  _state_changes_during_period hass (now hass - 24 * 3600) (now hass) entity = Ok raw ->
  exists stored,
    _get_state_history hass entity = Ok stored /\
    stored = map history_record (skipn 1 raw) /\
    length stored = length raw - 1 /\
    (raw <> [] -> Z.of_nat (length stored) = (Z.of_nat (length raw) - 1)%Z) /\
    (length raw <= 1 -> stored = []).
Proof.
  intros Hraw.
  exists (map history_record (skipn 1 raw)).
  split; [| split; [reflexivity |]].
  - unfold _get_state_history. rewrite Hraw.
    rewrite history_loop_map. reflexivity.
  - rewrite length_map, length_skipn.
    split; [reflexivity |]. split.
    + intros Hne. destruct raw; [contradiction | cbn; lia].
    + intros Hle. destruct raw as [| st [| st' raw]]; cbn in *; [reflexivity .. | lia].
Qed.

Lemma get_state_history_drops_first_witness :
  exists stored,
    _get_state_history Samples.hass0 "sensor.temp" = Ok stored /\
    stored = [[("state", "v1"); ("date", "t1")]; [("state", "v2"); ("date", "t2")]] /\
    length stored = 2.
Proof.
  destruct (get_state_history_drops_first Samples.hass0 "sensor.temp"
              [Samples.v0; Samples.v1; Samples.v2] eq_refl)
    as (stored & Hrun & Hstored & Hlen & _).
  exists stored. split; [exact Hrun |]. split; [exact Hstored | exact Hlen].
Defined.

(** *** C5: the cleanup of the staging directory *)

Lemma kept_entry (file : string) (nd : node) :
  kept (file, nd) = negb (is_telemetry file).
Proof. reflexivity. Qed.

Lemma dict_get_app_kept (pre rest : dict node) (file : string) :
  forallb kept pre = true -> is_telemetry file = true ->
  dict_get file (pre ++ rest) = dict_get file rest.
Proof.
  intros Hpre Hfile.
  induction pre as [| [k nd] pre IH]; cbn in *; [reflexivity |].
  apply andb_prop in Hpre as [Hk Hpre].
  destruct (String.eqb file k) eqn:E.
  - apply String.eqb_eq in E. subst k.
    rewrite kept_entry, Hfile in Hk. discriminate.
  - exact (IH Hpre).
Qed.

Lemma dict_del_app_kept (pre rest : dict node) (file : string) :
  forallb kept pre = true -> is_telemetry file = true ->
  dict_del file (pre ++ rest) = pre ++ dict_del file rest.
Proof.
  intros Hpre Hfile.
  induction pre as [| [k nd] pre IH]; cbn in *; [reflexivity |].
  apply andb_prop in Hpre as [Hk Hpre].
  destruct (String.eqb file k) eqn:E.
  - apply String.eqb_eq in E. subst k.
    rewrite kept_entry, Hfile in Hk. discriminate.
  - rewrite (IH Hpre). reflexivity.
Qed.

Lemma filter_kept_app (pre rest : dict node) :
  forallb kept pre = true ->
  List.filter kept (pre ++ rest) = pre ++ List.filter kept rest.
Proof.
  intros Hpre. rewrite List.filter_app. f_equal.
  induction pre as [| e pre IH]; cbn in *; [reflexivity |].
  apply andb_prop in Hpre as [He Hpre].
  rewrite He, (IH Hpre). reflexivity.
Qed.

(** The loop, started on the names of [rest] when the entries before
    [rest] have all been kept. *)
Lemma clear_loop_spec (rest : dict node) :
  forall (pre : dict node) (w : World),
    data_files w = pre ++ rest ->
    forallb kept pre = true ->
    exists r w',
      clear_loop (dict_keys rest) w = (r, w') /\
      config_files w' = config_files w /\
      ipfs_hash_config w' = ipfs_hash_config w /\
      List.filter kept (data_files w') = List.filter kept (data_files w) /\
      (r = Ok tt -> data_files w' = pre ++ List.filter kept rest) /\
      ((forall file, In (file, Directory) rest -> is_telemetry file = false) ->
       r = Ok tt).
Proof.
  induction rest as [| [file nd] rest IH]; intros pre w Hw Hpre.
  - exists (Ok tt), w. cbn. repeat split; try reflexivity.
    intros _. rewrite Hw. reflexivity.
  - cbn [dict_keys map fst clear_loop]. unfold bind at 1.
    fold (is_telemetry file).
    destruct (is_telemetry file) eqn:Htel.
    + (* a telemetry file: [os.remove] *)
      unfold os_remove, bind, emit. cbn [files_of].
      change (data_files (set_trace (trace w ++ [OsRemove DATA_PATH file]) w))
        with (data_files w).
      rewrite Hw, (dict_get_app_kept pre _ file Hpre Htel).
      cbn [dict_get]. rewrite String.eqb_refl.
      destruct nd as [content |].
      * rewrite (dict_del_app_kept pre _ file Hpre Htel).
        cbn [dict_del]. rewrite String.eqb_refl.
        set (w1 := set_files DATA_PATH (pre ++ rest)
                     (set_trace (trace w ++ [OsRemove DATA_PATH file]) w)).
        destruct (IH pre w1 eq_refl Hpre) as (r & w' & Hrun & Hc & Hh & Hf & Hok & Htot).
        exists r, w'. split; [exact Hrun |].
        split; [exact Hc |]. split; [exact Hh |]. split; [| split].
        -- rewrite Hf. unfold w1. cbn [set_files data_files set_trace].
           rewrite !filter_kept_app by exact Hpre.
           cbn [List.filter]. rewrite kept_entry, Htel. reflexivity.
        -- intros Hr. rewrite (Hok Hr). cbn [List.filter].
           rewrite kept_entry, Htel. reflexivity.
        -- intros Hdirs. apply Htot. intros f Hin. apply Hdirs. right. exact Hin.
      * eexists _, _. split; [reflexivity |]. cbn.
        split; [reflexivity |]. split; [reflexivity |].
        split; [rewrite Hw; reflexivity |]. split; [discriminate |].
        intros Hdirs. specialize (Hdirs file (or_introl eq_refl)). congruence.
    + (* any other file is left alone *)
      unfold ret at 1.
      assert (Hw' : data_files w = (pre ++ [(file, nd)]) ++ rest)
        by (rewrite <- app_assoc; exact Hw).
      assert (Hpre' : forallb kept (pre ++ [(file, nd)]) = true).
      { rewrite forallb_app, Hpre. cbn [forallb]. rewrite kept_entry, Htel. reflexivity. }
      destruct (IH _ w Hw' Hpre') as (r & w' & Hrun & Hc & Hh & Hf & Hok & Htot).
      exists r, w'. split; [exact Hrun |].
      split; [exact Hc |]. split; [exact Hh |]. split; [exact Hf |]. split.
      * intros Hr. rewrite (Hok Hr), <- app_assoc. cbn [List.filter app].
        rewrite kept_entry, Htel. reflexivity.
      * intros Hdirs. apply Htot. intros f Hin. apply Hdirs. right. exact Hin.
Qed.

(** The first sentence of C5 fails on a staging directory with a
    subdirectory that carries the prefix: [os.remove] raises on
    ["data_dir"], the loop ends there, and the telemetry file ["data_2"]
    listed after it is still in the directory when [_clear_files] is
    left. *)
Lemma clear_files_counterexample :
  exists w',
    _clear_files Samples.world_blocked = (Raise (OSError "data_dir"), w') /\
    data_files w' =
      [("notes", File "n"); ("data_dir", Directory); ("data_2", File "b")] /\
    is_telemetry "data_2" = true /\
    dict_get "data_2" (data_files w') = Some (File "b").
Proof. eexists. split; [reflexivity |]. split; [reflexivity |]. split; reflexivity. Qed.

(** C5, as the code has it.  Whatever the staging directory holds, [_clear_files]
    leaves every entry without the ["data"] prefix as it is, and the
    configuration directory untouched.  When no subdirectory carries the
    prefix it returns, and the staging directory then holds exactly the
    entries without the prefix: the files with the prefix are deleted and
    nothing else.  On [data_1], [data_2] and [config_encrypted_x] it
    removes the two [data_*] files only. *)
Theorem clear_files_removes_telemetry_only (w : World) :
  exists r w',
    _clear_files w = (r, w') /\
    config_files w' = config_files w /\
    List.filter kept (data_files w') = List.filter kept (data_files w) /\
    (r = Ok tt -> data_files w' = List.filter kept (data_files w)) /\
    ((forall file, In (file, Directory) (data_files w) -> is_telemetry file = false) ->
     r = Ok tt) /\
    (forall a b c,
       data_files w =
         [("data_1", File a); ("data_2", File b); ("config_encrypted_x", File c)] ->
       r = Ok tt /\ data_files w' = [("config_encrypted_x", File c)]).
Proof.
  destruct (clear_loop_spec (data_files w) [] w eq_refl eq_refl)
    as (r & w' & Hrun & Hc & _ & Hf & Hok & Htot).
  exists r, w'. split; [exact Hrun |].
  split; [exact Hc |]. split; [exact Hf |]. split; [exact Hok |].
  split; [exact Htot |].
  intros a b c Hw.
  assert (Hr : r = Ok tt).
  { apply Htot. intros file Hin. rewrite Hw in Hin.
    destruct Hin as [H | [H | [H | []]]]; discriminate. }
  split; [exact Hr |]. rewrite (Hok Hr), Hw. reflexivity.
Qed.

Lemma clear_files_removes_telemetry_only_witness :
  exists w',
    _clear_files Samples.world_staging = (Ok tt, w') /\
    data_files w' = [("config_encrypted_x", File "c")].
Proof.
  destruct (clear_files_removes_telemetry_only Samples.world_staging)
    as (r & w' & Hrun & _ & _ & _ & _ & Hex).
  destruct (Hex "a" "b" "c" eq_refl) as [Hr Hfiles].
  exists w'. rewrite Hrun, Hr. split; [reflexivity | exact Hfiles].
Defined.

(** *** Computations that never raise *)

Lemma returns_ret {A} (a : A) : returns (ret a).
Proof. intros w. exists a, w. reflexivity. Qed.

Lemma returns_bind {A B} (m : M A) (f : A -> M B) :
  returns m -> (forall a, returns (f a)) -> returns (bind m f).
Proof.
  intros Hm Hf w. unfold bind.
  destruct (Hm w) as (a & w1 & ->). exact (Hf a w1).
Qed.

Lemma returns_try_except {A} (body : M A) (handler : exn -> M A) :
  (forall e, returns (handler e)) -> returns (try_except body handler).
Proof.
  intros Hh w. unfold try_except.
  destruct (body w) as [[a | e] w1].
  - exists a, w1. reflexivity.
  - exact (Hh e w1).
Qed.

Lemma returns_emit (ev : event) : returns (emit ev).
Proof. intros w. eexists _, _. reflexivity. Qed.

Lemma returns_log_error_then {A} (msg : string) (e : exn) (a : A) :
  returns (bind (log_error msg e) (fun _ => ret a)).
Proof. apply returns_bind; [apply returns_emit | intros; apply returns_ret]. Qed.

Lemma get_descriptions_returns (hass : Hass) : returns (get_descriptions hass).
Proof.
  apply returns_try_except. intros e. apply returns_log_error_then.
Qed.

Lemma get_services_and_dashboard_returns (hass : Hass) descriptions :
  returns (get_services_and_dashboard hass descriptions).
Proof.
  unfold get_services_and_dashboard.
  destruct (services_loop _ _ _) as [services_list [e |]].
  - apply returns_log_error_then.
  - apply returns_try_except. intros e. apply returns_log_error_then.
Qed.

Lemma load_current_config_returns (C : Collaborators) :
  returns (load_current_config C).
Proof.
  apply returns_try_except. intros e. apply returns_log_error_then.
Qed.

Lemma dashboard_and_services_returns (C : Collaborators) (hass : Hass) :
  returns (_get_dashboard_and_services C hass).
Proof.
  unfold _get_dashboard_and_services.
  apply returns_bind; [apply returns_emit | intros _].
  apply returns_bind; [apply get_descriptions_returns | intros descriptions].
  apply returns_bind; [apply get_services_and_dashboard_returns | intros sd].
  apply returns_bind; [apply load_current_config_returns | intros current_config].
  apply returns_try_except. intros e. apply returns_emit.
Qed.

(** What a snapshot is made of. *)
Lemma get_states_inv (C : Collaborators) (hass : Hass) (w w' : World)
    (snapshot : dict top) :
  _get_states C hass w = (Ok snapshot, w') ->
  exists devices_data twin,
    states_loop hass (entity_registry hass) [] = Ok devices_data /\
    twin_id hass = Some twin /\
    snapshot = dict_set "twin_id" (Twin twin) devices_data.
Proof.
  unfold _get_states, bind.
  destruct (dashboard_and_services_returns C hass w) as ([] & w1 & ->).
  destruct (states_loop hass (entity_registry hass) []) as [devices_data | e]; cbn;
    [| discriminate].
  destruct (twin_id hass) as [twin |]; cbn; [| discriminate].
  intros [= <- <-]. exists devices_data, twin. repeat split.
Qed.

(** *** The loop of [_get_states] *)

Section Snapshot.
Variable hass : Hass.

Lemma recorded_from_mono (seen seen' : list RegistryEntry) (dd : dict top) :
  (forall e, In e seen -> In e seen') ->
  recorded_from hass seen dd -> recorded_from hass seen' dd.
Proof.
  intros Hsub [Htwin Hrec]. split; [exact Htwin |].
  intros device n entities x info Hd Hx.
  destruct (Hrec device n entities x info Hd Hx) as (e & st & history & Hin & H).
  exists e, st, history. split; [exact (Hsub e Hin) | exact H].
Qed.

Lemma records_all_nil (dd : dict top) : records_all hass [] dd.
Proof. intros e device st []. Qed.

Lemma recorded_from_nil : recorded_from hass [] [].
Proof.
  split; [intros k t; discriminate |].
  intros device n entities x info H. discriminate.
Qed.

Lemma file_entity_recorded (seen : list RegistryEntry) (dd dd' : dict top)
    (e : RegistryEntry) (device : string) (st : State) (history : list (dict string)) :
  device_id e = Some device ->
  dict_get (entity_id e) (states hass) = Some st ->
  _get_state_history hass (entity_id e) = Ok history ->
  file_entity hass dd device (entity_id e) (entity_info_of st history) = Ok dd' ->
  recorded_from hass seen dd ->
  recorded_from hass (seen ++ [e]) dd'.
Proof.
  intros Hdev Hst Hhist Hfile Hrec.
  assert (Hlast : In e (seen ++ [e])) by (apply in_or_app; right; left; reflexivity).
  apply (recorded_from_mono seen (seen ++ [e])) in Hrec;
    [| intros e0 H0; apply in_or_app; left; exact H0].
  destruct Hrec as [Htwin Hrec].
  unfold file_entity in Hfile.
  destruct (dict_get device dd) as [[n entities | t] |] eqn:Hd.
  - (* the device has a bucket already *)
    injection Hfile as <-. split.
    + intros k t. rewrite dict_get_set.
      destruct (String.eqb k device); [discriminate | apply Htwin].
    + intros device' n' entities' x info. rewrite dict_get_set.
      destruct (String.eqb_spec device' device) as [-> | Hne].
      * intros [= <- <-]. rewrite dict_get_set.
        destruct (String.eqb_spec x (entity_id e)) as [-> | Hxe].
        -- intros [= <-]. exists e, st, history. repeat split; assumption.
        -- intros Hx. exact (Hrec device n entities x info Hd Hx).
      * apply Hrec.
  - discriminate.
  - (* first entity of the device *)
    destruct (dict_get device (device_registry hass)) as [d |]; [| discriminate].
    injection Hfile as <-. split.
    + intros k t. rewrite dict_get_set.
      destruct (String.eqb k device); [discriminate | apply Htwin].
    + intros device' n' entities' x info. rewrite dict_get_set.
      destruct (String.eqb_spec device' device) as [-> | Hne].
      * intros [= <- <-]. cbn.
        destruct (String.eqb_spec x (entity_id e)) as [-> | Hxe]; [| discriminate].
        intros [= <-]. exists e, st, history. repeat split; assumption.
      * apply Hrec.
Qed.

Lemma file_entity_records_all (seen : list RegistryEntry) (dd dd' : dict top)
    (e : RegistryEntry) (device : string) (info : dict field) :
  device_id e = Some device ->
  file_entity hass dd device (entity_id e) info = Ok dd' ->
  records_all hass seen dd ->
  records_all hass (seen ++ [e]) dd'.
Proof.
  intros Hdev Hfile Hall e0 device0 st0 Hin Hdev0 Hst0.
  unfold file_entity in Hfile.
  apply in_app_or in Hin.
  destruct (dict_get device dd) as [[n entities | t] |] eqn:Hd.
  - injection Hfile as <-.
    destruct Hin as [Hin | [<- | []]].
    + destruct (Hall e0 device0 st0 Hin Hdev0 Hst0) as (n0 & ents0 & info0 & H0 & H1).
      destruct (String.eqb_spec device0 device) as [-> | Hne].
      * rewrite Hd in H0. injection H0 as <- <-.
        exists n, (dict_set (entity_id e) info entities).
        rewrite dict_get_set_eq, dict_get_set.
        destruct (String.eqb (entity_id e0) (entity_id e)); eauto.
      * exists n0, ents0, info0. rewrite dict_get_set_ne by exact Hne. auto.
    + rewrite Hdev in Hdev0. injection Hdev0 as <-.
      exists n, (dict_set (entity_id e) info entities), info.
      rewrite !dict_get_set_eq. auto.
  - discriminate.
  - destruct (dict_get device (device_registry hass)) as [d |]; [| discriminate].
    injection Hfile as <-.
    destruct Hin as [Hin | [<- | []]].
    + destruct (Hall e0 device0 st0 Hin Hdev0 Hst0) as (n0 & ents0 & info0 & H0 & H1).
      assert (Hne : device0 <> device) by (intros ->; congruence).
      exists n0, ents0, info0. rewrite dict_get_set_ne by exact Hne. auto.
    + rewrite Hdev in Hdev0. injection Hdev0 as <-.
      exists (device_name_of d), [(entity_id e, info)], info.
      rewrite dict_get_set_eq. cbn. rewrite String.eqb_refl. auto.
Qed.

Lemma states_step_invariant (seen : list RegistryEntry) (dd dd' : dict top)
    (e : RegistryEntry) :
  states_step hass dd e = Ok dd' ->
  recorded_from hass seen dd -> records_all hass seen dd ->
  recorded_from hass (seen ++ [e]) dd' /\ records_all hass (seen ++ [e]) dd'.
Proof.
  intros Hstep Hrec Hall.
  assert (Hmono : forall e0, In e0 seen -> In e0 (seen ++ [e]))
    by (intros e0 H0; apply in_or_app; left; exact H0).
  unfold states_step in Hstep.
  destruct (device_id e) as [device |] eqn:Hdev.
  - destruct (dict_get (entity_id e) (states hass)) as [st |] eqn:Hst.
    + destruct (_get_state_history hass (entity_id e)) as [history | err] eqn:Hhist;
        [| discriminate].
      split.
      * exact (file_entity_recorded seen dd dd' e device st history
                 Hdev Hst Hhist Hstep Hrec).
      * exact (file_entity_records_all seen dd dd' e device _ Hdev Hstep Hall).
    + injection Hstep as <-. split.
      * exact (recorded_from_mono _ _ _ Hmono Hrec).
      * intros e0 device0 st0 Hin. apply in_app_or in Hin.
        destruct Hin as [Hin | [<- | []]]; [exact (Hall e0 device0 st0 Hin) | congruence].
  - injection Hstep as <-. split.
    + exact (recorded_from_mono _ _ _ Hmono Hrec).
    + intros e0 device0 st0 Hin. apply in_app_or in Hin.
      destruct Hin as [Hin | [<- | []]]; [exact (Hall e0 device0 st0 Hin) | congruence].
Qed.

Lemma states_loop_invariant (entities : list RegistryEntry) :
  forall (seen : list RegistryEntry) (dd dd' : dict top),
    states_loop hass entities dd = Ok dd' ->
    recorded_from hass seen dd -> records_all hass seen dd ->
    recorded_from hass (seen ++ entities) dd' /\
    records_all hass (seen ++ entities) dd'.
Proof.
  induction entities as [| e rest IH]; intros seen dd dd' Hloop Hrec Hall.
  - injection Hloop as <-. rewrite app_nil_r. split; assumption.
  - cbn in Hloop.
    destruct (states_step hass dd e) as [dd1 | err] eqn:Hstep; [| discriminate].
    destruct (states_step_invariant seen dd dd1 e Hstep Hrec Hall) as [Hrec1 Hall1].
    replace (seen ++ e :: rest) with ((seen ++ [e]) ++ rest)
      by (rewrite <- app_assoc; reflexivity).
    exact (IH _ _ _ Hloop Hrec1 Hall1).
Qed.

End Snapshot.

(** The loop returns when every device that is needed is in the device
    registry and every history query that is needed answers. *)
Lemma states_loop_returns (hass : Hass) (entities : list RegistryEntry) :
  forall (seen : list RegistryEntry) (dd : dict top),
    recorded_from hass seen dd -> records_all hass seen dd ->
    (forall e device,
       In e entities -> device_id e = Some device ->
       dict_get (entity_id e) (states hass) <> None ->
       dict_get device (device_registry hass) <> None /\
       is_ok (state_changes_during_period hass (now hass - 24 * 3600) (now hass)
                (entity_id e)) = true) ->
    exists dd', states_loop hass entities dd = Ok dd'.
Proof.
  induction entities as [| e rest IH]; intros seen dd Hrec Hall Hneed.
  - exists dd. reflexivity.
  - assert (Hstep : exists dd1, states_step hass dd e = Ok dd1).
    { unfold states_step, file_entity, _get_state_history, _state_changes_during_period.
      destruct (device_id e) as [device |] eqn:Hdev; [| eauto].
      destruct (dict_get (entity_id e) (states hass)) as [st |] eqn:Hst; [| eauto].
      destruct (Hneed e device (or_introl eq_refl) Hdev) as [Hreg Hq];
        [rewrite Hst; discriminate |].
      destruct (state_changes_during_period hass _ _ _) as [d | what];
        [| discriminate].
      destruct (dict_get device dd) as [[n entities | t] |] eqn:Hd.
      - eauto.
      - exfalso. exact (proj1 Hrec device t Hd).
      - destruct (dict_get device (device_registry hass)); [eauto | contradiction]. }
    destruct Hstep as [dd1 Hstep].
    destruct (states_step_invariant hass seen dd dd1 e Hstep Hrec Hall) as [Hrec1 Hall1].
    cbn [states_loop]. rewrite Hstep.
    apply (IH (seen ++ [e]) dd1 Hrec1 Hall1).
    intros e0 device Hin. apply Hneed. right. exact Hin.
Qed.

Lemma get_states_returns (C : Collaborators) (hass : Hass) (w : World) (twin : string) :
  twin_id hass = Some twin ->
  (forall e device,
     In e (entity_registry hass) -> device_id e = Some device ->
     dict_get (entity_id e) (states hass) <> None ->
     dict_get device (device_registry hass) <> None /\
     is_ok (state_changes_during_period hass (now hass - 24 * 3600) (now hass)
              (entity_id e)) = true) ->
  exists snapshot w', _get_states C hass w = (Ok snapshot, w').
Proof.
  intros Htwin Hneed.
  destruct (states_loop_returns hass (entity_registry hass) [] []
              (recorded_from_nil hass) (records_all_nil hass []) Hneed) as [dd Hloop].
  destruct (dashboard_and_services_returns C hass w) as ([] & w1 & Hrun).
  exists (dict_set "twin_id" (Twin twin) dd), w1.
  unfold _get_states, bind. rewrite Hrun, Hloop, Htwin. reflexivity.
Qed.

(** The key ["twin_id"] is shared with the devices: a device with this
    identifier would lose its record to the twin identifier. *)
Lemma reserved_key_overwrites_device :
  fst (_get_states Samples.collaborators0 Samples.hass_reserved Samples.world_settled) =
    Ok [("twin_id", Twin "7")].
Proof. vm_compute. reflexivity. Qed.

(** *** C3, C7, C8: the snapshot *)

Lemma same_entity_id (entities : list RegistryEntry) (a b : RegistryEntry) :
  NoDup (map entity_id entities) ->
  In a entities -> In b entities -> entity_id a = entity_id b -> a = b.
Proof.
  induction entities as [| e rest IH]; cbn; intros Hnd Ha Hb Heq; [contradiction |].
  apply NoDup_cons in Hnd as [Hnotin Hnd].
  assert (Hin : forall x, In x rest -> entity_id x ∈ map entity_id rest).
  { intros x Hx. apply list_elem_of_In. apply in_map. exact Hx. }
  destruct Ha as [<- | Ha], Hb as [<- | Hb].
  - reflexivity.
  - exfalso. apply Hnotin. rewrite Heq. exact (Hin b Hb).
  - exfalso. apply Hnotin. rewrite <- Heq. exact (Hin a Ha).
  - exact (IH Hnd Ha Hb Heq).
Qed.

Lemma snapshot_device (twin device n : string) (entities : dict (dict field))
    (dd : dict top) :
  dict_get device (dict_set "twin_id" (Twin twin) dd) = Some (Device n entities) ->
  device <> "twin_id" /\ dict_get device dd = Some (Device n entities).
Proof.
  rewrite dict_get_set.
  destruct (String.eqb_spec device "twin_id") as [-> | Hne]; [discriminate |].
  intros H. split; assumption.
Qed.

(** C3. In a snapshot that [_get_states] returns, an entity of the registry
    is a key of some device's entity mapping exactly when it has a device
    and a current state; and a record filed for it holds the text of that
    current state.  (The registry is keyed by [entity_id]; no device is
    called ["twin_id"], the key the snapshot reserves.) *)
Theorem get_states_entity_iff (C : Collaborators) (hass : Hass) (w w' : World)
    (snapshot : dict top) :
  NoDup (map entity_id (entity_registry hass)) ->
  (forall e, In e (entity_registry hass) -> device_id e <> Some "twin_id") ->
  _get_states C hass w = (Ok snapshot, w') ->
  forall e, In e (entity_registry hass) ->
    (appears (entity_id e) snapshot <->
     device_id e <> None /\ dict_get (entity_id e) (states hass) <> None) /\
    (forall device n entities info,
       dict_get device snapshot = Some (Device n entities) ->
       dict_get (entity_id e) entities = Some info ->
       exists st,
         dict_get (entity_id e) (states hass) = Some st /\
         dict_get "state" info = Some (FStr (state st))).
Proof.
  intros Hnd Hres Hrun e He.
  destruct (get_states_inv C hass w w' snapshot Hrun) as (dd & twin & Hloop & _ & ->).
  destruct (states_loop_invariant hass (entity_registry hass) [] [] dd Hloop
              (recorded_from_nil hass) (records_all_nil hass []))
    as [[_ Hrec] Hall].
  cbn [app] in Hrec, Hall.
  split; [split |].
  - intros (device & n & entities & info & Hd & Hx).
    apply snapshot_device in Hd as [_ Hd].
    destruct (Hrec device n entities _ info Hd Hx)
      as (e' & st & history & He' & Hid & Hdev & Hst & _).
    assert (e' = e) as -> by exact (same_entity_id _ e' e Hnd He' He Hid).
    split; congruence.
  - intros [Hdev Hst].
    destruct (device_id e) as [device |] eqn:Edev; [| contradiction].
    destruct (dict_get (entity_id e) (states hass)) as [st |] eqn:Est; [| contradiction].
    destruct (Hall e device st He Edev Est) as (n & entities & info & Hd & Hx).
    exists device, n, entities, info. split; [| exact Hx].
    rewrite dict_get_set_ne; [exact Hd |].
    intros ->. exact (Hres e He Edev).
  - intros device n entities info Hd Hx.
    apply snapshot_device in Hd as [_ Hd].
    destruct (Hrec device n entities _ info Hd Hx)
      as (e' & st & history & _ & _ & _ & Hst & _ & ->).
    exists st. split; [exact Hst | reflexivity].
Qed.

Lemma get_states_entity_iff_witness :
  appears "sensor.temp" 
    (match fst (_get_states Samples.collaborators0 Samples.hass0 Samples.world_settled) with
     | Ok snapshot => snapshot
     | Raise _ => []
     end) /\
  ~ appears "sensor.gone"
    (match fst (_get_states Samples.collaborators0 Samples.hass0 Samples.world_settled) with
     | Ok snapshot => snapshot
     | Raise _ => []
     end).
Proof.
  destruct (_get_states Samples.collaborators0 Samples.hass0 Samples.world_settled)
    as [r w'] eqn:Hrun.
  assert (Hr : exists snapshot, r = Ok snapshot).
  { vm_compute in Hrun. injection Hrun as <- _. eexists. reflexivity. }
  destruct Hr as [snapshot ->]. cbn [fst].
  assert (Hnd : NoDup (map entity_id (entity_registry Samples.hass0))).
  { apply (bool_decide_unpack _). vm_compute. reflexivity. }
  assert (Hres : forall e, In e (entity_registry Samples.hass0) ->
                           device_id e <> Some "twin_id").
  { intros e He. cbn in He.
    destruct He as [<- | [<- | [<- | [<- | []]]]]; discriminate. }
  pose proof (get_states_entity_iff Samples.collaborators0 Samples.hass0
                Samples.world_settled w' snapshot Hnd Hres Hrun) as Hiff.
  split.
  - apply (Hiff {| entity_id := "sensor.temp"; device_id := Some "dev1" |}).
    + cbn. auto.
    + split; discriminate.
  - intros Happ.
    apply (Hiff {| entity_id := "sensor.gone"; device_id := Some "dev1" |}) in Happ.
    + destruct Happ as [_ Hst]. apply Hst. reflexivity.
    + cbn. auto.
Defined.

Lemma dict_keys_set_In {V} (k k' : string) (v : V) (d : dict V) :
  In k' (dict_keys (dict_set k v d)) -> k' = k \/ In k' (dict_keys d).
Proof.
  induction d as [| [k0 v0] d IH]; cbn.
  - intros [<- | []]. left. reflexivity.
  - destruct (String.eqb_spec k k0) as [<- | Hne]; cbn.
    + intros [<- | H]; auto.
    + intros [<- | H]; [auto |]. destruct (IH H); auto.
Qed.

Lemma dict_keys_set_NoDup {V} (k : string) (v : V) (d : dict V) :
  List.NoDup (dict_keys d) -> List.NoDup (dict_keys (dict_set k v d)).
Proof.
  induction d as [| [k0 v0] d IH]; cbn; intros Hnd.
  - constructor; [intros [] | constructor].
  - inversion Hnd as [| ? ? Hnotin Hnd']; subst.
    destruct (String.eqb_spec k k0) as [<- | Hne]; cbn.
    + constructor; assumption.
    + constructor; [| exact (IH Hnd')].
      intros Hin. apply dict_keys_set_In in Hin as [-> | Hin]; [congruence | auto].
Qed.

Lemma In_dict_get {V} (k : string) (v : V) (d : dict V) :
  List.NoDup (dict_keys d) -> In (k, v) d -> dict_get k d = Some v.
Proof.
  induction d as [| [k0 v0] d IH]; cbn; intros Hnd Hin; [contradiction |].
  inversion Hnd as [| ? ? Hnotin Hnd']; subst.
  destruct Hin as [[= -> ->] | Hin].
  - rewrite String.eqb_refl. reflexivity.
  - destruct (String.eqb_spec k k0) as [-> | Hne]; [| exact (IH Hnd' Hin)].
    exfalso. apply Hnotin. change k0 with (fst (k0, v)). apply in_map. exact Hin.
Qed.

Lemma dict_set_In {V} (k : string) (v : V) (d : dict V) :
  In (k, v) (dict_set k v d).
Proof.
  induction d as [| [k0 v0] d IH]; cbn; [auto |].
  destruct (String.eqb k k0); cbn; auto.
Qed.

Lemma states_loop_keys (hass : Hass) (entities : list RegistryEntry) :
  forall dd dd' : dict top,
    states_loop hass entities dd = Ok dd' ->
    List.NoDup (dict_keys dd) -> List.NoDup (dict_keys dd').
Proof.
  induction entities as [| e rest IH]; intros dd dd' Hloop Hnd.
  - injection Hloop as <-. exact Hnd.
  - cbn in Hloop.
    destruct (states_step hass dd e) as [dd1 | err] eqn:Hstep; [| discriminate].
    apply (IH dd1 dd' Hloop).
    unfold states_step, file_entity in Hstep.
    destruct (device_id e) as [device |]; [| injection Hstep as <-; exact Hnd].
    destruct (dict_get (entity_id e) (states hass)); [| injection Hstep as <-; exact Hnd].
    destruct (_get_state_history hass (entity_id e)); [| discriminate].
    destruct (dict_get device dd) as [[n entities | t] |]; [| discriminate |].
    + injection Hstep as <-. apply dict_keys_set_NoDup. exact Hnd.
    + destruct (dict_get device (device_registry hass)); [| discriminate].
      injection Hstep as <-. apply dict_keys_set_NoDup. exact Hnd.
Qed.

(** C7. A snapshot that [_get_states] returns has the key ["twin_id"], with
    the twin identifier as its value, and no key twice; every other key
    holds a device record, so the reserved key differs from every key
    under which a device is filed. *)
Theorem get_states_twin_key (C : Collaborators) (hass : Hass) (w w' : World)
    (snapshot : dict top) :
  _get_states C hass w = (Ok snapshot, w') ->
  List.NoDup (dict_keys snapshot) /\
  (exists twin,
     twin_id hass = Some twin /\
     In ("twin_id", Twin twin) snapshot /\
     dict_get "twin_id" snapshot = Some (Twin twin)) /\
  (forall k n entities, In (k, Device n entities) snapshot -> k <> "twin_id") /\
  (forall k v, In (k, v) snapshot -> k <> "twin_id" ->
               exists n entities, v = Device n entities).
Proof.
  intros Hrun.
  destruct (get_states_inv C hass w w' snapshot Hrun) as (dd & twin & Hloop & Htwin & ->).
  assert (Hnd : List.NoDup (dict_keys (dict_set "twin_id" (Twin twin) dd))).
  { apply dict_keys_set_NoDup.
    apply (states_loop_keys hass _ [] dd Hloop). constructor. }
  destruct (states_loop_invariant hass (entity_registry hass) [] [] dd Hloop
              (recorded_from_nil hass) (records_all_nil hass []))
    as [[Hnotwin _] _].
  split; [exact Hnd |]. split; [| split].
  - exists twin. split; [exact Htwin |]. split.
    + apply dict_set_In.
    + apply dict_get_set_eq.
  - intros k n entities Hin ->.
    apply (In_dict_get _ _ _ Hnd) in Hin.
    rewrite dict_get_set_eq in Hin. discriminate.
  - intros k v Hin Hne.
    apply (In_dict_get _ _ _ Hnd) in Hin.
    rewrite dict_get_set_ne in Hin by exact Hne.
    destruct v as [n entities | t]; [eauto |].
    exfalso. exact (Hnotwin k t Hin).
Qed.

Lemma get_states_twin_key_witness :
  exists snapshot w',
    _get_states Samples.collaborators0 Samples.hass0 Samples.world_settled =
      (Ok snapshot, w') /\
    dict_get "twin_id" snapshot = Some (Twin "7") /\
    dict_keys snapshot = ["dev1"; "dev2"; "twin_id"].
Proof.
  destruct (_get_states Samples.collaborators0 Samples.hass0 Samples.world_settled)
    as [[snapshot | e] w'] eqn:Hrun; [| vm_compute in Hrun; discriminate].
  exists snapshot, w'. split; [reflexivity |].
  destruct (get_states_twin_key _ _ _ _ _ Hrun) as (_ & (twin & Htwin & _ & Hget) & _).
  injection Htwin as <-. split; [exact Hget |].
  vm_compute in Hrun. injection Hrun as <- _. reflexivity.
Defined.

(** C8. Every entity record of a snapshot that [_get_states] returns has
    the three fields [units], [state], [history], in this order; its
    [units] is the text of the unit-of-measurement attribute of the current
    state, and the string ["None"] when the state has no such attribute. *)
Theorem get_states_units_schema (C : Collaborators) (hass : Hass) (w w' : World)
    (snapshot : dict top) :
  _get_states C hass w = (Ok snapshot, w') ->
  forall device n entities x info,
    dict_get device snapshot = Some (Device n entities) ->
    dict_get x entities = Some info ->
    dict_keys info = ["units"; "state"; "history"] /\
    exists st,
      dict_get x (states hass) = Some st /\
      dict_get "units" info = Some (FStr (units_of st)) /\
      (dict_get "unit_of_measurement" (attributes st) = None ->
       dict_get "units" info = Some (FStr "None")).
Proof.
  intros Hrun device n entities x info Hd Hx.
  destruct (get_states_inv C hass w w' snapshot Hrun) as (dd & twin & Hloop & _ & ->).
  destruct (states_loop_invariant hass (entity_registry hass) [] [] dd Hloop
              (recorded_from_nil hass) (records_all_nil hass []))
    as [[_ Hrec] _].
  apply snapshot_device in Hd as [_ Hd].
  destruct (Hrec device n entities x info Hd Hx)
    as (e & st & history & _ & _ & _ & Hst & _ & ->).
  split; [reflexivity |].
  exists st. split; [exact Hst |]. split; [reflexivity |].
  intros Hattr. cbn. unfold units_of. rewrite Hattr. reflexivity.
Qed.

Lemma get_states_units_schema_witness :
  exists snapshot w' n entities info,
    _get_states Samples.collaborators0 Samples.hass0 Samples.world_settled =
      (Ok snapshot, w') /\
    dict_get "dev2" snapshot = Some (Device n entities) /\
    dict_get "light.lamp" entities = Some info /\
    dict_keys info = ["units"; "state"; "history"] /\
    dict_get "units" info = Some (FStr "None").
Proof.
  destruct (_get_states Samples.collaborators0 Samples.hass0 Samples.world_settled)
    as [[snapshot | e] w'] eqn:Hrun; [| vm_compute in Hrun; discriminate].
  pose proof (get_states_units_schema _ _ _ _ _ Hrun "dev2") as Hschema.
  assert (Hd : exists n entities info,
             dict_get "dev2" snapshot = Some (Device n entities) /\
             dict_get "light.lamp" entities = Some info).
  { vm_compute in Hrun. injection Hrun as <- _.
    eexists _, _, _. split; reflexivity. }
  destruct Hd as (n & entities & info & Hd & Hx).
  destruct (Hschema n entities "light.lamp" info Hd Hx) as (Hkeys & st & Hst & _ & Hnone).
  exists snapshot, w', n, entities, info.
  split; [reflexivity |]. split; [exact Hd |]. split; [exact Hx |].
  split; [exact Hkeys |]. apply Hnone.
  vm_compute in Hst. injection Hst as <-. reflexivity.
Defined.

(** *** The configuration detector *)

Section Detector.
Variable C : Collaborators.
Variable hass : Hass.

Lemma candidate_inv (cfg : ConfigDoc) :
  candidate hass = Some cfg ->
  exists d,
    async_get_all_descriptions hass = Ok d /\
    services_loop (Some d) (entity_registry hass) ∅ = (services cfg, None) /\
    async_load_dashboard hass = Ok (dashboard cfg) /\
    twin_id hass = Some (cfg_twin_id cfg).
Proof.
  unfold candidate.
  destruct (async_get_all_descriptions hass) as [d | what]; [| discriminate].
  destruct (services_loop (Some d) (entity_registry hass) ∅) as [sl [e |]] eqn:Hloop;
    [discriminate |].
  destruct (async_load_dashboard hass) as [dash | what]; [| discriminate].
  destruct (twin_id hass) as [twin |]; [| discriminate].
  intros [= <-]. exists d. cbn. repeat split. exact Hloop.
Qed.

(** With a candidate, the first two [try] blocks go through silently. *)
Lemma detector_with_candidate (cfg : ConfigDoc) (w : World) :
  candidate hass = Some cfg ->
  _get_dashboard_and_services C hass w =
    bind (load_current_config C)
      (fun current_config =>
         try_except
           (change_config C hass (services cfg) (Some (dashboard cfg)) current_config)
           change_config_handler)
      (started w).
Proof.
  intros Hcand.
  destruct (candidate_inv cfg Hcand) as (d & Hd & Hloop & Hdash & _).
  unfold _get_dashboard_and_services, get_descriptions, get_services_and_dashboard.
  unfold bind at 1. unfold log_debug, emit at 1. fold (started w).
  unfold bind at 1. unfold try_except at 1. rewrite Hd. cbn [lift].
  unfold bind at 1, ret at 1, ret at 1.
  rewrite Hloop.
  unfold bind at 1. unfold try_except at 1. rewrite Hdash. cbn [lift].
  unfold bind at 1, ret at 1, ret at 1.
  reflexivity.
Qed.

(** The decision of the last [try], once the candidate is built. *)
Lemma change_config_candidate (cfg : ConfigDoc) (current_config : loaded) (w : World) :
  candidate hass = Some cfg ->
  change_config C hass (services cfg) (Some (dashboard cfg)) current_config w =
    if config_differs current_config cfg || negb (is_Some_b (ipfs_hash_config w))
    then bind (if config_differs current_config cfg
               then encrypt_new_config C hass cfg
               else read_cached_blob)
              (publish_config C hass) w
    else (Ok tt, w).
Proof.
  intros Hcand.
  destruct (candidate_inv cfg Hcand) as (d & _ & _ & _ & Htwin).
  unfold change_config. rewrite Htwin.
  cbn [bound item]. unfold bind at 1, ret at 1. unfold bind at 1, ret at 1.
  unfold bind at 1, hash_missing at 1.
  replace {| services := services cfg; dashboard := dashboard cfg;
             cfg_twin_id := cfg_twin_id cfg |} with cfg by (destruct cfg; reflexivity).
  destruct (config_differs current_config cfg || negb (is_Some_b (ipfs_hash_config w)));
    reflexivity.
Qed.

(** The third [try]. *)
Lemma load_current_config_on_disk (w : World) (doc : loaded) :
  config_on_disk C w doc -> load_current_config C w = (Ok doc, w).
Proof.
  intros (text & Hfile & Hload).
  unfold load_current_config, try_except, bind, read_file. cbn [files_of].
  rewrite Hfile, Hload. reflexivity.
Qed.

Lemma load_current_config_fails (w : World) :
  config_absent w \/ config_corrupt C w ->
  exists e,
    load_current_config C w =
      (Ok LoadedEmpty,
       set_trace (trace w ++ [LogError "Exception in json load config" e]) w).
Proof.
  intros [Habs | (text & what & Hfile & Hload)].
  - exists (OSError "config").
    unfold load_current_config, try_except, bind, read_file. cbn [files_of].
    unfold config_absent in Habs. rewrite Habs. reflexivity.
  - exists (CollaboratorError what).
    unfold load_current_config, try_except, bind, read_file. cbn [files_of].
    rewrite Hfile, Hload. reflexivity.
Qed.

Lemma find_encrypted_none (list_files : list string) :
  (forall file, In file list_files -> str_contains "config_encrypted" file = false) ->
  find_encrypted list_files None = None.
Proof.
  induction list_files as [| file rest IH]; intros Hno; [reflexivity |].
  cbn [find_encrypted]. rewrite (Hno file (or_introl eq_refl)).
  apply IH. intros f Hf. apply Hno. right. exact Hf.
Qed.

Lemma events_since_app (w : World) (evs : list event) :
  events_since w (set_trace (trace w ++ evs) w) = evs.
Proof.
  unfold events_since. cbn [trace set_trace].
  induction (trace w) as [| ev t IH]; [reflexivity | exact IH].
Qed.

Lemma read_cached_blob_unbound (w : World) :
  no_cached_blob w ->
  read_cached_blob w = (Raise (UnboundLocalError "encrypted_config_filename"), w).
Proof.
  intros Hno. unfold read_cached_blob, bind, os_listdir. cbn [files_of].
  rewrite (find_encrypted_none _ Hno). reflexivity.
Qed.

(** C9. When the document on disk equals the candidate, no content address
    is held in memory and no file of the configuration directory has
    ["config_encrypted"] in its name, the reuse branch raises an
    unbound-variable error for [encrypted_config_filename]; the handler of
    the last [try] logs it and the detector returns: nothing is encrypted,
    staged, uploaded or written to the ledger, and the content address
    stays missing. *)
Theorem missing_blob_skips_publication (cfg : ConfigDoc) (doc : loaded) (w : World) :
  candidate hass = Some cfg ->
  config_on_disk C w doc ->
  config_differs doc cfg = false ->
  ipfs_hash_config w = None ->
  no_cached_blob w ->
  _get_dashboard_and_services C hass w =
    (Ok tt,
     set_trace
       (trace w ++
        [LogDebug "Start getting info about dashboard and services";
         LogError "Exception in change config"
           (UnboundLocalError "encrypted_config_filename")]) w) /\
  count is_encryption (events_since w (after_cycle C hass w)) = 0 /\
  count is_upload (events_since w (after_cycle C hass w)) = 0 /\
  count is_pointer_call (events_since w (after_cycle C hass w)) = 0 /\
  ipfs_hash_config (after_cycle C hass w) = None /\
  config_files (after_cycle C hass w) = config_files w.
Proof.
  intros Hcand Hdisk Hsame Hhash Hno.
  assert (Hrun : _get_dashboard_and_services C hass w =
    (Ok tt,
     set_trace
       (trace w ++
        [LogDebug "Start getting info about dashboard and services";
         LogError "Exception in change config"
           (UnboundLocalError "encrypted_config_filename")]) w)).
  { rewrite (detector_with_candidate cfg w Hcand).
    unfold bind at 1.
    rewrite (load_current_config_on_disk (started w) doc Hdisk).
    unfold try_except.
    rewrite (change_config_candidate cfg doc (started w) Hcand).
    rewrite Hsame. change (ipfs_hash_config (started w)) with (ipfs_hash_config w).
    rewrite Hhash. cbn [is_Some_b negb orb].
    unfold bind at 1.
    rewrite (read_cached_blob_unbound (started w) Hno).
    unfold change_config_handler, log_error, emit, started.
    cbn [trace set_trace data_files config_files ipfs_hash_config].
    rewrite <- app_assoc. reflexivity. }
  split; [exact Hrun |].
  unfold after_cycle. rewrite Hrun. cbn [snd].
  rewrite events_since_app. cbn.
  repeat split; try reflexivity. exact Hhash.
Qed.

End Detector.

Lemma missing_blob_skips_publication_witness :
  _get_dashboard_and_services Samples.collaborators0 Samples.hass0 Samples.world_no_blob =
    (Ok tt,
     set_trace
       [LogDebug "Start getting info about dashboard and services";
        LogError "Exception in change config"
          (UnboundLocalError "encrypted_config_filename")]
       Samples.world_no_blob).
Proof.
  apply (missing_blob_skips_publication Samples.collaborators0 Samples.hass0 Samples.config0
           (LoadedConfig Samples.config0) Samples.world_no_blob).
  - reflexivity.
  - exists "doc:{views}". split; reflexivity.
  - vm_compute. reflexivity.
  - reflexivity.
  - intros file [<- | []]. reflexivity.
Defined.

(** *** Encryption and publication with collaborators that answer *)

Section Publication.
Variable C : Collaborators.
Variable hass : Hass.
Hypothesis HC : reliable C.

Ltac answered H :=
  match goal with
  | |- context [Account C ?w ?s] =>
      let E := fresh "E" in
      destruct (Account C w s) as [? | ?] eqn:E;
      [| pose proof (reliable_account C HC w s) as H; rewrite E in H; discriminate H]
  | |- context [encrypt_message C ?w ?m ?kp ?pk] =>
      let E := fresh "E" in
      destruct (encrypt_message C w m kp pk) as [? | ?] eqn:E;
      [| pose proof (reliable_encrypt C HC w m kp pk) as H; rewrite E in H; discriminate H]
  | |- context [staging_suffix C ?w ?c] =>
      let E := fresh "E" in
      destruct (staging_suffix C w c) as [? | ?] eqn:E;
      [| pose proof (reliable_suffix C HC w c) as H; rewrite E in H; discriminate H]
  | |- context [add_config_to_ipfs C ?w ?f] =>
      let E := fresh "E" in
      destruct (add_config_to_ipfs C w f) as [? | ?] eqn:E;
      [| pose proof (reliable_add_config C HC w f) as H; rewrite E in H; discriminate H]
  | |- context [set_config_topic C ?w ?h ?t] =>
      let E := fresh "E" in
      destruct (set_config_topic C w h t) as [[] | ?] eqn:E;
      [| pose proof (reliable_set_topic C HC w h t) as H; rewrite E in H; discriminate H]
  end.

Ltac world_step :=
  cbn [files_of config_files set_trace set_files set_ipfs_hash_config trace
       data_files ipfs_hash_config lift ret item bound marker].

Lemma encrypt_new_config_ok (cfg : ConfigDoc) (seed text : string) (w : World) :
  admin_seed hass = Some seed ->
  json_dump C cfg = Ok text ->
  dict_get "config" (config_files w) <> Some Directory ->
  exists blob w',
    encrypt_new_config C hass cfg w = (Ok blob, w') /\
    trace w' = trace w ++ [LogDebug "Config was changed"; CallAccount seed;
                           CallEncrypt (str_config C cfg)] /\
    config_files w' =
      dict_set "config" (File text) (dict_set "config" (File "") (config_files w)) /\
    data_files w' = data_files w /\
    ipfs_hash_config w' = ipfs_hash_config w.
Proof.
  intros Hseed Hdump Hfile.
  unfold encrypt_new_config, bind, log_debug, emit, open_w, f_write, item, ask.
  rewrite Hseed, Hdump.
  cbn [files_of config_files set_trace set_files trace data_files ipfs_hash_config
       lift ret].
  destruct (dict_get "config" (config_files w)) as [[content |] |];
    [| contradiction |].
  all: cbn [files_of config_files set_trace set_files trace data_files
            ipfs_hash_config lift ret].
  all: answered H1; cbn [lift ret]; answered H2; cbn [lift ret].
  all: eexists _, _; split; [reflexivity |].
  all: cbn [files_of config_files set_trace set_files trace data_files
            ipfs_hash_config].
  all: rewrite <- !app_assoc; repeat split.
Qed.

Lemma publish_config_ok (blob twin : string) (w : World) :
  twin_id hass = Some twin ->
  only_files w ->
  exists suffix h w',
    publish_config C hass blob w = (Ok tt, w') /\
    trace w' = trace w ++
      [CallWriteData DATA_CONFIG_PATH true blob; LogDebug "Filename";
       CallAddConfig (String.append "config_encrypted" suffix);
       LogDebug "New config IPFS hash"; CallSetConfigTopic h twin] /\
    config_files w' =
      dict_set (String.append "config_encrypted" suffix) (File blob)
        (dict_set (String.append "config_encrypted" suffix) (File "") (config_files w)) /\
    data_files w' = data_files w /\
    ipfs_hash_config w' = Some h.
Proof.
  intros Htwin Hfiles.
  unfold publish_config, write_data_to_file, bind, log_debug, emit, open_w, f_write, ask.
  rewrite Htwin. world_step.
  answered H1. world_step.
  match goal with
  | |- context [dict_get ?f (config_files w)] =>
      pose proof (Hfiles f) as Hf;
      destruct (dict_get f (config_files w)) as [[content |] |]; [| contradiction |]
  end.
  all: world_step; answered H2; world_step; answered H3.
  all: eexists _, _, _; split; [reflexivity |].
  all: world_step; rewrite <- !app_assoc; repeat split.
Qed.

Lemma only_files_set (w : World) (file content : string) (d : dict node) :
  (forall f, dict_get f d <> Some Directory) ->
  forall f, dict_get f (dict_set file (File content) d) <> Some Directory.
Proof.
  intros Hd f. rewrite dict_get_set.
  destruct (String.eqb f file); [discriminate | apply Hd].
Qed.

Lemma staged_name_not_config (suffix : string) :
  "config" <> String.append "config_encrypted" suffix.
Proof. cbn. discriminate. Qed.

Lemma encrypt_and_publish_ok (cfg : ConfigDoc) (seed text : string) (w : World) :
  admin_seed hass = Some seed ->
  twin_id hass = Some (cfg_twin_id cfg) ->
  json_dump C cfg = Ok text ->
  only_files w ->
  exists blob suffix h w',
    bind (encrypt_new_config C hass cfg) (publish_config C hass) w = (Ok tt, w') /\
    trace w' = trace w ++ publication_events C cfg seed blob suffix h /\
    dict_get "config" (config_files w') = Some (File text) /\
    only_files w' /\
    data_files w' = data_files w /\
    ipfs_hash_config w' = Some h.
Proof.
  intros Hseed Htwin Hdump Hfiles.
  destruct (encrypt_new_config_ok cfg seed text w Hseed Hdump (Hfiles "config"))
    as (blob & w1 & Hrun1 & Htr1 & Hcf1 & Hdf1 & _).
  assert (Hfiles1 : only_files w1).
  { unfold only_files. rewrite Hcf1.
    apply (only_files_set w), (only_files_set w), Hfiles. }
  destruct (publish_config_ok blob (cfg_twin_id cfg) w1 Htwin Hfiles1)
    as (suffix & h & w2 & Hrun2 & Htr2 & Hcf2 & Hdf2 & Hh2).
  exists blob, suffix, h, w2.
  unfold bind. rewrite Hrun1, Hrun2.
  split; [reflexivity |]. split; [| split; [| split; [| split]]].
  - rewrite Htr2, Htr1, <- app_assoc. reflexivity.
  - rewrite Hcf2, Hcf1.
    rewrite !(dict_get_set_ne "config") by apply staged_name_not_config.
    apply dict_get_set_eq.
  - unfold only_files. rewrite Hcf2.
    apply (only_files_set w), (only_files_set w), Hfiles1.
  - rewrite Hdf2. exact Hdf1.
  - exact Hh2.
Qed.

End Publication.

Lemma load_current_config_eq (C : Collaborators) (w : World) :
  load_current_config C w =
    (Ok (current_config_of C w), set_trace (trace w ++ load_log C w) w).
Proof.
  unfold load_current_config, try_except, bind, read_file, current_config_of, load_log.
  cbn [files_of].
  destruct (dict_get "config" (config_files w)) as [[text |] |]; cbn; try reflexivity.
  - destruct (json_load C text) as [doc | what]; cbn; [| reflexivity].
    rewrite app_nil_r. destruct w; reflexivity.
Qed.

Lemma events_since_trace (w w' : World) (evs : list event) :
  trace w' = trace w ++ evs -> events_since w w' = evs.
Proof.
  intros H. unfold events_since. rewrite H. clear H.
  induction (trace w) as [| ev t IH]; [reflexivity | exact IH].
Qed.

(** A cycle whose last-known document differs from the candidate runs the
    encryption branch. *)
Lemma changed_cycle (C : Collaborators) (hass : Hass) (cfg : ConfigDoc) (w : World) :
  candidate hass = Some cfg ->
  config_differs (current_config_of C w) cfg = true ->
  _get_dashboard_and_services C hass w =
    try_except
      (bind (encrypt_new_config C hass cfg) (publish_config C hass))
      change_config_handler
      (set_trace (trace (started w) ++ load_log C w) (started w)).
Proof.
  intros Hcand Hdiff.
  rewrite (detector_with_candidate C hass cfg w Hcand).
  unfold bind at 1. rewrite load_current_config_eq.
  change (current_config_of C (started w)) with (current_config_of C w).
  change (load_log C (started w)) with (load_log C w).
  unfold try_except.
  rewrite (change_config_candidate C hass cfg _ _ Hcand), Hdiff.
  reflexivity.
Qed.

Lemma changed_cycle_ok (C : Collaborators) (hass : Hass) (cfg : ConfigDoc)
    (seed text : string) (w : World) :
  reliable C ->
  candidate hass = Some cfg ->
  config_differs (current_config_of C w) cfg = true ->
  admin_seed hass = Some seed ->
  json_dump C cfg = Ok text ->
  only_files w ->
  exists blob suffix h w',
    _get_dashboard_and_services C hass w = (Ok tt, w') /\
    trace w' =
      trace w ++
      LogDebug "Start getting info about dashboard and services" ::
      load_log C w ++ publication_events C cfg seed blob suffix h /\
    dict_get "config" (config_files w') = Some (File text) /\
    only_files w' /\
    data_files w' = data_files w /\
    ipfs_hash_config w' = Some h.
Proof.
  intros HC Hcand Hdiff Hseed Hdump Hfiles.
  destruct (candidate_inv hass cfg Hcand) as (d & _ & _ & _ & Htwin).
  rewrite (changed_cycle C hass cfg w Hcand Hdiff).
  set (w2 := set_trace (trace (started w) ++ load_log C w) (started w)).
  destruct (encrypt_and_publish_ok C hass HC cfg seed text w2 Hseed Htwin Hdump Hfiles)
    as (blob & suffix & h & w' & Hrun & Htr & Hcfg & Hfiles' & Hdf & Hh).
  exists blob, suffix, h, w'. unfold try_except. rewrite Hrun.
  split; [reflexivity |]. split; [| repeat split; assumption].
  rewrite Htr. unfold w2, started. cbn [trace set_trace].
  rewrite <- !app_assoc. reflexivity.
Qed.

Lemma count_app (p : event -> bool) (t t' : list event) :
  count p (t ++ t') = count p t + count p t'.
Proof. unfold count. rewrite List.filter_app, length_app. reflexivity. Qed.

Ltac world_step :=
  cbn [files_of config_files set_trace set_files set_ipfs_hash_config trace
       data_files ipfs_hash_config lift ret item bound marker].

(** Two descriptions of the same world. *)
Ltac world_eq :=
  repeat match goal with x := _ |- _ => subst x end;
  unfold advanced, publication_events;
  cbn [firstn files_of config_files set_trace set_files set_ipfs_hash_config trace
       data_files ipfs_hash_config];
  rewrite ?dict_set_set, <- ?app_assoc;
  reflexivity.

(** The world in which the next collaborator is asked is [W']. *)
Ltac at_world W' :=
  match goal with
  | |- context [Account _ ?W _] => replace W with W' by world_eq
  | |- context [encrypt_message _ ?W _ _ _] => replace W with W' by world_eq
  | |- context [staging_suffix _ ?W _] => replace W with W' by world_eq
  | |- context [add_config_to_ipfs _ ?W _] => replace W with W' by world_eq
  | |- context [add_telemetry_to_ipfs _ ?W _] => replace W with W' by world_eq
  | |- context [set_config_topic _ ?W _ _] => replace W with W' by world_eq
  | |- context [send_datalog_states _ ?W _] => replace W with W' by world_eq
  end.

(** The encryption branch followed by the publication, call by call: each
    collaborator is asked in the world of its call, and what it answers is
    what the next step works with. *)
Lemma encrypt_and_publish_exact (C : Collaborators) (hass : Hass) (cfg : ConfigDoc)
    (seed text suffix blob h : string) (kp : Keypair) (w : World) :
  let document := dict_set "config" (File text) (config_files w) in
  let filename := String.append "config_encrypted" suffix in
  let staged := dict_set filename (File blob) document in
  let events := publication_events C cfg seed blob suffix h in
  admin_seed hass = Some seed ->
  twin_id hass = Some (cfg_twin_id cfg) ->
  json_dump C cfg = Ok text ->
  dict_get "config" (config_files w) <> Some Directory ->
  dict_get filename (config_files w) <> Some Directory ->
  Account C (advanced w DATA_CONFIG_PATH document (firstn 2 events)) seed = Ok kp ->
  encrypt_message C (advanced w DATA_CONFIG_PATH document (firstn 3 events))
    (str_config C cfg) kp (public_key kp) = Ok blob ->
  staging_suffix C (advanced w DATA_CONFIG_PATH document (firstn 4 events)) true =
    Ok suffix ->
  add_config_to_ipfs C (advanced w DATA_CONFIG_PATH staged (firstn 6 events)) filename =
    Ok h ->
  set_config_topic C
    (set_ipfs_hash_config (Some h) (advanced w DATA_CONFIG_PATH staged events))
    h (cfg_twin_id cfg) = Ok tt ->
  bind (encrypt_new_config C hass cfg) (publish_config C hass) w =
    (Ok tt, set_ipfs_hash_config (Some h) (advanced w DATA_CONFIG_PATH staged events)).
Proof.
  intros document filename staged events Hseed Htwin Hdump Hcfg Hname HA HE HS HU HT.
  assert (Hstage : dict_get filename document <> Some Directory).
  { unfold document. rewrite dict_get_set.
    destruct (String.eqb filename "config"); [discriminate | exact Hname]. }
  unfold encrypt_new_config, publish_config, write_data_to_file, bind, log_debug, emit,
    open_w, f_write, item, ask.
  rewrite Hseed, Hdump, Htwin. world_step.
  destruct (dict_get "config" (config_files w)) as [[content |] |];
    [| contradiction |].
  all: world_step.
  all: at_world (advanced w DATA_CONFIG_PATH document (firstn 2 events)).
  all: rewrite HA; world_step.
  all: at_world (advanced w DATA_CONFIG_PATH document (firstn 3 events)).
  all: rewrite HE; world_step.
  all: at_world (advanced w DATA_CONFIG_PATH document (firstn 4 events)).
  all: rewrite HS; world_step.
  all: change (config_files (advanced w DATA_CONFIG_PATH document (firstn 4 events)))
         with document.
  all: fold filename.
  all: destruct (dict_get filename document) as [[staged_before |] |];
         [| contradiction |].
  all: world_step.
  all: at_world (advanced w DATA_CONFIG_PATH staged (firstn 6 events)).
  all: rewrite HU; world_step.
  all: at_world (set_ipfs_hash_config (Some h)
                   (advanced w DATA_CONFIG_PATH staged events)).
  all: rewrite HT; reflexivity.
Qed.

Lemma advanced_started (C : Collaborators) (w : World) (files : dict node)
    (evs : list event) :
  advanced (set_trace (trace (started w) ++ load_log C w) (started w))
    DATA_CONFIG_PATH files evs =
  advanced w DATA_CONFIG_PATH files
    ((LogDebug "Start getting info about dashboard and services" :: load_log C w) ++ evs).
Proof.
  unfold advanced, started. world_step.
  rewrite <- !app_assoc. reflexivity.
Qed.

(** The last part of C6 fails on a cycle that cannot build its candidate,
    and on one whose publication is stopped by a collaborator.
    On a first start with no Lovelace configuration to load, the document
    on disk is absent, the third [try] logs it, and the last [try] ends on
    the unbound [config_dashboard]: nothing is encrypted, staged, uploaded
    or pointed to.  With a corrupt document, a candidate and a seed of which
    no account can be made, the candidate is classified as changed and
    written to disk, and the cycle ends at [Account]: no encryption, no
    upload, no pointer. *)
Lemma unreadable_config_counterexample :
  (config_absent Samples.world_fresh /\
   _get_dashboard_and_services Samples.collaborators0 Samples.hass_no_dashboard
     Samples.world_fresh =
     (Ok tt,
      set_trace
        [LogDebug "Start getting info about dashboard and services";
         LogError "Exception in get services and dashboard"
           (CollaboratorError "ConfigNotFound");
         LogError "Exception in json load config" (OSError "config");
         LogError "Exception in change config" (UnboundLocalError "config_dashboard")]
        Samples.world_fresh)) /\
  (config_corrupt Samples.collaborators_no_account Samples.world_corrupt /\
   candidate Samples.hass0 = Some Samples.config0 /\
   _get_dashboard_and_services Samples.collaborators_no_account Samples.hass0
     Samples.world_corrupt =
     (Ok tt,
      {| data_files := [];
         config_files := [("config", File "doc:{views}")];
         ipfs_hash_config := None;
         trace :=
           [LogDebug "Start getting info about dashboard and services";
            LogError "Exception in json load config"
              (CollaboratorError "JSONDecodeError");
            LogDebug "Config was changed"; CallAccount "seed";
            LogError "Exception in change config"
              (CollaboratorError "Invalid seed")] |})).
Proof.
  split; [split | split; [| split]].
  - reflexivity.
  - vm_compute. reflexivity.
  - exists "{broken", "JSONDecodeError". split; reflexivity.
  - reflexivity.
  - vm_compute. reflexivity.
Qed.

(** C6, as the code has it.  When the last-known plaintext document is absent or
    does not parse, the third [try] logs the error and takes the document
    to be [{}]; the detector returns all the same, and [{}] differs from
    every candidate.  When moreover the candidate can be built, the seed is
    set, the document serialises and each collaborator answers, in the
    world of its call, the cycle is a fresh encryption and publication: the
    candidate is written to ["config"], [str(new_config)] is encrypted with
    the keypair [Account] made of the seed, for its own public key; what
    [encrypt_message] answered is staged under the name with the marker;
    that file is uploaded; what [add_config_to_ipfs] answered is kept as
    the content address and is what the pointer is set to.  The outcome is
    given whole: result, both directories, content address and events. *)
Theorem unreadable_config_is_republished (C : Collaborators) (hass : Hass) (w : World) :
  config_absent w \/ config_corrupt C w ->
  (exists e,
     load_current_config C (started w) =
       (Ok LoadedEmpty,
        set_trace
          (trace w ++ [LogDebug "Start getting info about dashboard and services";
                       LogError "Exception in json load config" e]) w)) /\
  (forall new_config, config_differs LoadedEmpty new_config = true) /\
  (exists w', _get_dashboard_and_services C hass w = (Ok tt, w')) /\
  (forall (cfg : ConfigDoc) (seed text suffix blob h : string) (kp : Keypair),
     let before :=
       LogDebug "Start getting info about dashboard and services" :: load_log C w in
     let events := publication_events C cfg seed blob suffix h in
     let document := dict_set "config" (File text) (config_files w) in
     let filename := String.append "config_encrypted" suffix in
     let staged := dict_set filename (File blob) document in
     candidate hass = Some cfg ->
     admin_seed hass = Some seed ->
     json_dump C cfg = Ok text ->
     (* each collaborator answers in the world of its call: the events up
        to its own, the files written so far *)
     Account C (advanced w DATA_CONFIG_PATH document (before ++ firstn 2 events)) seed =
       Ok kp ->
     encrypt_message C (advanced w DATA_CONFIG_PATH document (before ++ firstn 3 events))
       (str_config C cfg) kp (public_key kp) = Ok blob ->
     staging_suffix C (advanced w DATA_CONFIG_PATH document (before ++ firstn 4 events))
       true = Ok suffix ->
     dict_get filename (config_files w) <> Some Directory ->
     add_config_to_ipfs C (advanced w DATA_CONFIG_PATH staged (before ++ firstn 6 events))
       filename = Ok h ->
     set_config_topic C
       (set_ipfs_hash_config (Some h)
          (advanced w DATA_CONFIG_PATH staged (before ++ events)))
       h (cfg_twin_id cfg) = Ok tt ->
     _get_dashboard_and_services C hass w =
       (Ok tt,
        set_ipfs_hash_config (Some h)
          (advanced w DATA_CONFIG_PATH staged (before ++ events))) /\
     dict_get "config" staged = Some (File text) /\
     dict_get filename staged = Some (File blob)).
Proof.
  intros Hbad.
  assert (Hcur : current_config_of C w = LoadedEmpty /\
                 exists e, load_log C w = [LogError "Exception in json load config" e]).
  { unfold current_config_of, load_log.
    destruct Hbad as [Habs | (text & what & Hfile & Hload)].
    - unfold config_absent in Habs. rewrite Habs. eauto.
    - rewrite Hfile, Hload. eauto. }
  destruct Hcur as [Hcur [e Hlog]].
  split; [| split; [| split]].
  - exists e. rewrite load_current_config_eq.
    change (current_config_of C (started w)) with (current_config_of C w).
    change (load_log C (started w)) with (load_log C w).
    rewrite Hcur, Hlog. unfold started, set_trace.
    cbn [trace data_files config_files ipfs_hash_config].
    rewrite <- app_assoc. reflexivity.
  - reflexivity.
  - destruct (dashboard_and_services_returns C hass w) as ([] & w' & Hrun).
    exists w'. exact Hrun.
  - intros cfg seed text suffix blob h kp before events document filename staged
      Hcand Hseed Hdump HA HE HS Hname HU HT.
    assert (Hdiff : config_differs (current_config_of C w) cfg = true)
      by (rewrite Hcur; reflexivity).
    destruct (candidate_inv hass cfg Hcand) as (d & _ & _ & _ & Htwin).
    assert (Hcfg : dict_get "config" (config_files w) <> Some Directory).
    { destruct Hbad as [Habs | (t & what & Hfile & _)].
      - unfold config_absent in Habs. rewrite Habs. discriminate.
      - rewrite Hfile. discriminate. }
    split; [| split].
    + rewrite (changed_cycle C hass cfg w Hcand Hdiff). unfold try_except.
      unfold before. rewrite <- advanced_started.
      rewrite (encrypt_and_publish_exact C hass cfg seed text suffix blob h kp
                 (set_trace (trace (started w) ++ load_log C w) (started w))
                 Hseed Htwin Hdump Hcfg Hname).
      * reflexivity.
      * rewrite advanced_started. exact HA.
      * rewrite advanced_started. exact HE.
      * rewrite advanced_started. exact HS.
      * rewrite advanced_started. exact HU.
      * rewrite advanced_started. exact HT.
    + unfold staged, document.
      rewrite (dict_get_set_ne "config") by apply staged_name_not_config.
      apply dict_get_set_eq.
    + unfold staged. apply dict_get_set_eq.
Qed.

Lemma collaborators0_reliable : reliable Samples.collaborators0.
Proof. split; intros; reflexivity. Qed.

Lemma unreadable_config_is_republished_witness :
  _get_dashboard_and_services Samples.collaborators0 Samples.hass0 Samples.world_corrupt =
    (Ok tt,
     {| data_files := [];
        config_files :=
          [("config", File "doc:{views}"); ("config_encrypted-1", File "enc:str:{views}")];
        ipfs_hash_config := Some "Qm:config_encrypted-1";
        trace :=
          [LogDebug "Start getting info about dashboard and services";
           LogError "Exception in json load config" (CollaboratorError "JSONDecodeError");
           LogDebug "Config was changed"; CallAccount "seed"; CallEncrypt "str:{views}";
           CallWriteData DATA_CONFIG_PATH true "enc:str:{views}"; LogDebug "Filename";
           CallAddConfig "config_encrypted-1"; LogDebug "New config IPFS hash";
           CallSetConfigTopic "Qm:config_encrypted-1" "7"] |}).
Proof.
  assert (Hbad : config_absent Samples.world_corrupt \/
                 config_corrupt Samples.collaborators0 Samples.world_corrupt).
  { right. exists "{broken", "JSONDecodeError". split; reflexivity. }
  destruct (unreadable_config_is_republished Samples.collaborators0 Samples.hass0
              Samples.world_corrupt Hbad) as (_ & _ & _ & Hpub).
  destruct (Hpub Samples.config0 "seed" "doc:{views}" "-1" "enc:str:{views}"
              "Qm:config_encrypted-1" {| private_key := "seed"; public_key := "pub" |}
              eq_refl eq_refl eq_refl eq_refl eq_refl eq_refl
              ltac:(discriminate) eq_refl eq_refl) as (Hrun & _ & _).
  rewrite Hrun. reflexivity.
Defined.


Lemma count_load_log (p : event -> bool) (C : Collaborators) (w : World) :
  (forall msg e, p (LogError msg e) = false) -> count p (load_log C w) = 0.
Proof.
  intros Hp. unfold load_log, count.
  destruct (dict_get "config" (config_files w)) as [[text |] |]; cbn;
    rewrite ?Hp; try reflexivity.
  destruct (json_load C text); cbn; rewrite ?Hp; reflexivity.
Qed.

(** A cycle with the candidate on disk and the content address in memory
    only logs its start. *)
Lemma settled_cycle (C : Collaborators) (hass : Hass) (cfg : ConfigDoc)
    (doc : loaded) (h : string) (w : World) :
  candidate hass = Some cfg ->
  config_on_disk C w doc ->
  config_differs doc cfg = false ->
  ipfs_hash_config w = Some h ->
  _get_dashboard_and_services C hass w = (Ok tt, started w).
Proof.
  intros Hcand Hdisk Hsame Hhash.
  rewrite (detector_with_candidate C hass cfg w Hcand).
  unfold bind at 1.
  rewrite (load_current_config_on_disk C (started w) doc Hdisk).
  unfold try_except.
  rewrite (change_config_candidate C hass cfg doc (started w) Hcand), Hsame.
  change (ipfs_hash_config (started w)) with (ipfs_hash_config w).
  rewrite Hhash. reflexivity.
Qed.

(** A cycle with the candidate on disk, no content address in memory and a
    cached blob on disk publishes the cached blob again. *)
Lemma restarted_cycle (C : Collaborators) (hass : Hass) (cfg : ConfigDoc)
    (doc : loaded) (file blob : string) (w : World) :
  reliable C ->
  candidate hass = Some cfg ->
  config_on_disk C w doc ->
  config_differs doc cfg = false ->
  ipfs_hash_config w = None ->
  find_encrypted (dict_keys (config_files w)) None = Some file ->
  dict_get file (config_files w) = Some (File blob) ->
  only_files w ->
  exists suffix h w',
    _get_dashboard_and_services C hass w = (Ok tt, w') /\
    events_since w w' =
      [LogDebug "Start getting info about dashboard and services";
       CallWriteData DATA_CONFIG_PATH true blob; LogDebug "Filename";
       CallAddConfig (String.append "config_encrypted" suffix);
       LogDebug "New config IPFS hash"; CallSetConfigTopic h (cfg_twin_id cfg)] /\
    ipfs_hash_config w' = Some h.
Proof.
  intros HC Hcand Hdisk Hsame Hhash Hfind Hblob Hfiles.
  destruct (candidate_inv hass cfg Hcand) as (d & _ & _ & _ & Htwin).
  rewrite (detector_with_candidate C hass cfg w Hcand).
  unfold bind at 1.
  rewrite (load_current_config_on_disk C (started w) doc Hdisk).
  unfold try_except.
  rewrite (change_config_candidate C hass cfg doc (started w) Hcand), Hsame.
  change (ipfs_hash_config (started w)) with (ipfs_hash_config w).
  rewrite Hhash. cbn [is_Some_b negb orb].
  assert (Hread : read_cached_blob (started w) = (Ok blob, started w)).
  { unfold read_cached_blob, bind, os_listdir, read_file. cbn [files_of].
    change (config_files (started w)) with (config_files w).
    rewrite Hfind. cbn [bound ret].
    change (config_files (started w)) with (config_files w).
    rewrite Hblob. reflexivity. }
  unfold bind at 1. rewrite Hread.
  destruct (publish_config_ok C hass HC blob (cfg_twin_id cfg) (started w) Htwin Hfiles)
    as (suffix & h & w' & Hrun & Htr & _ & _ & Hh).
  exists suffix, h, w'. rewrite Hrun. split; [reflexivity |]. split; [| exact Hh].
  apply events_since_trace. rewrite Htr. unfold started. cbn [trace set_trace].
  rewrite <- app_assoc. reflexivity.
Qed.



(** *** C4: the job contains its errors *)

Lemma quiet_same_trace {A} (m : M A) :
  (forall w, trace (snd (m w)) = trace w) -> quiet m.
Proof.
  intros H w. exists []. rewrite H, app_nil_r. split; reflexivity.
Qed.

Lemma quiet_ret {A} (a : A) : quiet (ret a).
Proof. apply quiet_same_trace. reflexivity. Qed.

Lemma quiet_raise {A} (e : exn) : quiet (@raise A e).
Proof. apply quiet_same_trace. reflexivity. Qed.

Lemma quiet_bind {A B} (m : M A) (f : A -> M B) :
  quiet m -> (forall a, quiet (f a)) -> quiet (bind m f).
Proof.
  intros Hm Hf w. unfold bind.
  destruct (Hm w) as (evs & Htr & Hc).
  destruct (m w) as [[a | e] w1]; cbn [snd] in *.
  - destruct (Hf a w1) as (evs' & Htr' & Hc').
    exists (evs ++ evs'). rewrite Htr', Htr, <- app_assoc, count_app, Hc, Hc'.
    split; reflexivity.
  - exists evs. split; assumption.
Qed.

Lemma quiet_try_except {A} (body : M A) (handler : exn -> M A) :
  quiet body -> (forall e, quiet (handler e)) -> quiet (try_except body handler).
Proof.
  intros Hm Hh w. unfold try_except.
  destruct (Hm w) as (evs & Htr & Hc).
  destruct (body w) as [[a | e] w1]; cbn [snd] in *.
  - exists evs. split; assumption.
  - destruct (Hh e w1) as (evs' & Htr' & Hc').
    exists (evs ++ evs'). rewrite Htr', Htr, <- app_assoc, count_app, Hc, Hc'.
    split; reflexivity.
Qed.

Lemma quiet_emit (ev : event) : is_datalog_call ev = false -> quiet (emit ev).
Proof.
  intros Hev w. exists [ev]. split; [reflexivity |].
  unfold count. cbn. rewrite Hev. reflexivity.
Qed.

Lemma quiet_lift {A} (r : result string A) : quiet (lift r).
Proof. destruct r; [apply quiet_ret | apply quiet_raise]. Qed.

Lemma quiet_lift_r {A} (r : result exn A) : quiet (lift_r r).
Proof. destruct r; [apply quiet_ret | apply quiet_raise]. Qed.

Lemma quiet_ask {A} (f : World -> result string A) : quiet (ask f).
Proof.
  apply quiet_same_trace. intros w. unfold ask. destruct (f w); reflexivity.
Qed.

Lemma quiet_bound {A} (name : string) (v : option A) : quiet (bound name v).
Proof. destruct v; [apply quiet_ret | apply quiet_raise]. Qed.

Lemma quiet_item {A} (key : string) (v : option A) : quiet (item key v).
Proof. destruct v; [apply quiet_ret | apply quiet_raise]. Qed.

Lemma quiet_os_listdir (where_ : folder) : quiet (os_listdir where_).
Proof. apply quiet_same_trace. reflexivity. Qed.

Lemma quiet_read_file (where_ : folder) (file : string) : quiet (read_file where_ file).
Proof.
  apply quiet_same_trace. intros w. unfold read_file.
  destruct (dict_get file (files_of where_ w)) as [[content |] |]; reflexivity.
Qed.

Lemma quiet_open_w (where_ : folder) (file : string) : quiet (open_w where_ file).
Proof.
  apply quiet_same_trace. intros w. unfold open_w.
  destruct (dict_get file (files_of where_ w)) as [[content |] |];
    destruct where_; reflexivity.
Qed.

Lemma quiet_f_write (where_ : folder) (file content : string) :
  quiet (f_write where_ file content).
Proof.
  apply quiet_same_trace. intros w. destruct where_; reflexivity.
Qed.

Lemma quiet_os_remove (where_ : folder) (file : string) : quiet (os_remove where_ file).
Proof.
  apply quiet_bind; [apply quiet_emit; reflexivity | intros _].
  apply quiet_same_trace. intros w.
  destruct (dict_get file (files_of where_ w)) as [[content |] |];
    destruct where_; reflexivity.
Qed.

Lemma quiet_clear_loop (files : list string) : quiet (clear_loop files).
Proof.
  induction files as [| datafile rest IH]; [apply quiet_ret |].
  apply quiet_bind; [| intros _; exact IH].
  destruct (String.eqb _ _); [apply quiet_os_remove | apply quiet_ret].
Qed.

Ltac quiet_steps :=
  repeat first
    [ apply quiet_ret | apply quiet_raise | apply quiet_lift | apply quiet_lift_r
    | apply quiet_ask | apply quiet_bound | apply quiet_item
    | apply quiet_os_listdir | apply quiet_read_file | apply quiet_open_w
    | apply quiet_f_write | apply quiet_os_remove | apply quiet_clear_loop
    | apply quiet_emit; reflexivity
    | apply quiet_bind; [| intros ?]
    | apply quiet_try_except; [| intros ?] ].

Section Containment.
Variable C : Collaborators.
Variable hass : Hass.

Lemma quiet_write_data_to_file (data : string) (where_ : folder) (config : bool) :
  quiet (write_data_to_file C data where_ config).
Proof. unfold write_data_to_file. quiet_steps. Qed.

Lemma quiet_dashboard_and_services : quiet (_get_dashboard_and_services C hass).
Proof.
  unfold _get_dashboard_and_services, get_descriptions, get_services_and_dashboard,
    load_current_config, change_config, log_debug, log_error.
  quiet_steps.
  - destruct (services_loop _ _ _) as [services_list [e |]]; unfold log_error; quiet_steps.
  - apply quiet_same_trace. reflexivity.
  - destruct (_ || _); [| apply quiet_ret].
    apply quiet_bind.
    + destruct (config_differs _ _);
        unfold encrypt_new_config, read_cached_blob, log_debug; quiet_steps.
    + intros blob. unfold publish_config, log_debug. quiet_steps.
      * apply quiet_same_trace. reflexivity.
      * apply quiet_same_trace. intros w.
        destruct (ipfs_hash_config w); reflexivity.
Qed.

Lemma quiet_upload_telemetry (sender_kp : option Keypair) :
  quiet (upload_telemetry C hass sender_kp).
Proof.
  unfold upload_telemetry, _get_states, log_debug.
  apply quiet_bind; [| intros data; quiet_steps].
  apply quiet_bind; [apply quiet_dashboard_and_services | intros _; quiet_steps].
Qed.

Lemma quiet_create_keypair : quiet (create_keypair C hass).
Proof.
  unfold create_keypair, create_keypair_body, create_keypair_handler, _clear_files,
    log_error.
  quiet_steps.
Qed.

Lemma create_keypair_returns : returns (create_keypair C hass).
Proof.
  apply returns_try_except. intros e. apply returns_log_error_then.
Qed.

Lemma send_data_upload_raises (sender_kp : option Keypair) (w1 w2 : World) (e : exn) :
  upload_telemetry C hass sender_kp w1 = (Raise e, w2) ->
  send_data C hass sender_kp w1 = (Raise e, w2).
Proof. intros H. unfold send_data, bind. rewrite H. reflexivity. Qed.

(** C4. [get_and_send_data] always returns normally.  An exception of the
    first [try] is logged and leaves [sender_kp] unbound; an exception of
    the second [try] is logged as the last event of the cycle; and when
    the exception is raised before the upload of the telemetry has
    returned, the cycle makes no pointer call for the telemetry. *)
Theorem get_and_send_data_contains_errors (w : World) :
  exists sender_kp w1 w',
    create_keypair C hass w = (Ok sender_kp, w1) /\
    get_and_send_data C hass w = (Ok tt, w') /\
    (forall e w0,
       create_keypair_body C hass w = (Raise e, w0) ->
       sender_kp = None /\
       w1 = set_trace
              (trace w0 ++
               [LogError "Exception in create keypair during get and senf data" e]) w0) /\
    (forall e w2,
       send_data C hass sender_kp w1 = (Raise e, w2) ->
       w' = set_trace (trace w2 ++ [LogError "Exception in get_and_send_data" e]) w2) /\
    (forall e w2,
       upload_telemetry C hass sender_kp w1 = (Raise e, w2) ->
       count is_datalog_call (events_since w w') = 0).
Proof.
  destruct (create_keypair_returns w) as (sender_kp & w1 & Hkp).
  assert (Hfirst : forall e w0,
             create_keypair_body C hass w = (Raise e, w0) ->
             sender_kp = None /\
             w1 = set_trace
                    (trace w0 ++
                     [LogError "Exception in create keypair during get and senf data" e])
                    w0).
  { intros e w0 Hbody. unfold create_keypair, try_except in Hkp.
    rewrite Hbody in Hkp. cbn in Hkp. injection Hkp as <- <-. split; reflexivity. }
  destruct (quiet_create_keypair w) as (evs1 & Htr1 & Hc1).
  rewrite Hkp in Htr1. cbn [snd] in Htr1.
  unfold get_and_send_data, bind. rewrite Hkp. unfold try_except.
  destruct (send_data C hass sender_kp w1) as [[[] | e] w2] eqn:Hsend.
  - exists sender_kp, w1, w2.
    split; [reflexivity |]. split; [reflexivity |]. split; [exact Hfirst |]. split.
    + intros e' w2' Hraise. rewrite Hsend in Hraise. discriminate.
    + intros e' w2' Hup. apply send_data_upload_raises in Hup. congruence.
  - exists sender_kp, w1,
      (set_trace (trace w2 ++ [LogError "Exception in get_and_send_data" e]) w2).
    split; [reflexivity |]. split; [reflexivity |]. split; [exact Hfirst |]. split.
    + intros e' w2' Hraise. rewrite Hsend in Hraise.
      injection Hraise as <- <-. reflexivity.
    + intros e' w2' Hup.
      destruct (quiet_upload_telemetry sender_kp w1) as (evs2 & Htr2 & Hc2).
      rewrite Hup in Htr2. cbn [snd] in Htr2.
      apply send_data_upload_raises in Hup. rewrite Hup in Hsend.
      injection Hsend as <- <-.
      rewrite (events_since_trace w _
                 (evs1 ++ evs2 ++ [LogError "Exception in get_and_send_data" e'])).
      * rewrite !count_app, Hc1, Hc2. reflexivity.
      * cbn [trace set_trace]. rewrite Htr2, Htr1, <- !app_assoc. reflexivity.
Qed.

End Containment.

Lemma get_and_send_data_contains_errors_witness :
  exists w',
    get_and_send_data Samples.collaborators0 Samples.hass_no_seed Samples.world_settled =
      (Ok tt, w') /\
    count is_datalog_call (events_since Samples.world_settled w') = 0 /\
    In (LogError "Exception in get_and_send_data" (UnboundLocalError "sender_kp"))
      (trace w').
Proof.
  destruct (get_and_send_data_contains_errors Samples.collaborators0
              Samples.hass_no_seed Samples.world_settled)
    as (sender_kp & w1 & w' & Hkp & Hrun & _ & Hlog & Hquiet).
  vm_compute in Hkp. injection Hkp as <- <-.
  exists w'. split; [exact Hrun |]. split.
  - eapply Hquiet. vm_compute. reflexivity.
  - erewrite Hlog by (vm_compute; reflexivity).
    cbn [trace set_trace]. apply in_or_app. right. left. reflexivity.
Defined.

End GetStatesSpec.

(** ** More on the setup flow *)

Module ConfigFlowMore.
Import ConfigFlow.

Ltac run_validation :=
  unfold _validate_input, _is_valid_sub_admin_seed, _is_valid_sub_owner_address,
    _has_sub_owner_subscription, _is_sub_admin_in_subscription, invoke, bind;
  cbn.

(** Every outcome of [_validate_input], by the answers of the ledger
    libraries. *)
Ltac by_answers L data :=
  unfold seed_accepted, address_accepted, subscription_found, controller_in_devices;
  run_validation;
  destruct (Account L (Some (CONF_ADMIN_SEED data)) false) as [[] | ?]; cbn;
  [ destruct (is_valid_ss58_address L (CONF_SUB_OWNER_ADDRESS data) 32)
      as [[] | ?]; cbn;
    [ destruct (Account L None false) as [[] | ?]; cbn;
      [ destruct (get_ledger L (CONF_SUB_OWNER_ADDRESS data)) as [[?|] | ?]; cbn;
        [ destruct (Account L (Some (CONF_ADMIN_SEED data)) true) as [[] | ?]; cbn;
          [ destruct (is_in_sub L (CONF_ADMIN_SEED data) (CONF_SUB_OWNER_ADDRESS data))
              as [[] | ?]; cbn | ]
        | | ]
      | ]
    | | ]
  | ].

Ltac settle :=
  repeat match goal with
    | |- _ /\ _ => split
    | |- _ <-> _ => split
    | |- _ -> _ => intro
    | H : _ /\ _ |- _ => destruct H
    | H : exists _, _ |- _ => destruct H
    | H : _ \/ _ |- _ => destruct H
    end;
  try congruence; try discriminate; eauto.

(** X1. [_validate_input] raises [InvalidSubOwnerAddress] exactly when the
    seed is accepted and [is_valid_ss58_address] answers [False]; it has
    then made two calls, the seed check and the format check, and no
    subscription query. *)
Theorem validate_input_address_check (L : Ledger) (data : UserInput) :
  (snd (_validate_input L data) = Raise InvalidSubOwnerAddress <->
   seed_accepted L data /\
   is_valid_ss58_address L (CONF_SUB_OWNER_ADDRESS data) 32 = Ok false) /\
  (seed_accepted L data ->
   is_valid_ss58_address L (CONF_SUB_OWNER_ADDRESS data) 32 = Ok false ->
   _validate_input L data =
     ([seed_check data; CallIsValidSs58 (CONF_SUB_OWNER_ADDRESS data) 32],
      Raise InvalidSubOwnerAddress)).
Proof. by_answers L data; settle. Qed.

Lemma validate_input_address_check_witness :
  _validate_input ledger_bad_address sample_input =
    ([seed_check sample_input; CallIsValidSs58 "4Address" 32],
     Raise InvalidSubOwnerAddress).
Proof.
  apply (validate_input_address_check ledger_bad_address sample_input); reflexivity.
Defined.

(** X2. [_validate_input] raises [NoSubscription] exactly when seed and
    address are accepted and [get_ledger] answers [None], and
    [ControllerNotInDevices] exactly when a ledger is found and [is_in_sub]
    answers [False]. *)
Theorem validate_input_subscription_checks (L : Ledger) (data : UserInput) :
  (snd (_validate_input L data) = Raise NoSubscription <->
   seed_accepted L data /\ address_accepted L data /\
   Account L None false = Ok tt /\
   get_ledger L (CONF_SUB_OWNER_ADDRESS data) = Ok None) /\
  (snd (_validate_input L data) = Raise ControllerNotInDevices <->
   seed_accepted L data /\ address_accepted L data /\ subscription_found L data /\
   Account L (Some (CONF_ADMIN_SEED data)) true = Ok tt /\
   is_in_sub L (CONF_ADMIN_SEED data) (CONF_SUB_OWNER_ADDRESS data) = Ok false).
Proof. by_answers L data; settle. Qed.

Lemma validate_input_subscription_checks_witness :
  snd (_validate_input ledger_no_subscription sample_input) = Raise NoSubscription /\
  snd (_validate_input ledger_not_in_devices sample_input) = Raise ControllerNotInDevices.
Proof.
  split.
  - apply (validate_input_subscription_checks ledger_no_subscription sample_input).
    repeat split.
  - apply (validate_input_subscription_checks ledger_not_in_devices sample_input).
    repeat split. exists "ledger". reflexivity.
Defined.

(** X3. [_validate_input] returns exactly when the four checks pass, and
    what it returns is always [{"title": "Robonomics"}]. *)
Theorem validate_input_returns_iff (L : Ledger) (data : UserInput) :
  ((exists info, snd (_validate_input L data) = Ok info) <->
   seed_accepted L data /\ address_accepted L data /\
   subscription_found L data /\ controller_in_devices L data) /\
  (forall info, snd (_validate_input L data) = Ok info ->
                info = [("title", "Robonomics")]).
Proof. by_answers L data; settle. Qed.

Lemma validate_input_returns_iff_witness :
  exists info, snd (_validate_input ledger_ok sample_input) = Ok info.
Proof.
  apply (validate_input_returns_iff ledger_ok sample_input).
  repeat split. exists "ledger". reflexivity.
Defined.

(** X4. An exception of a library call after the seed check leaves
    [_validate_input] unchanged, as the exception of that library: a
    failing query is never reported as one of the four validation
    errors. *)
Theorem validate_input_library_error (L : Ledger) (data : UserInput) (what : string) :
  snd (_validate_input L data) = Raise (LibraryError what) <->
  seed_accepted L data /\
  (is_valid_ss58_address L (CONF_SUB_OWNER_ADDRESS data) 32 = Raise what \/
   address_accepted L data /\
   (Account L None false = Raise what \/
    Account L None false = Ok tt /\
    (get_ledger L (CONF_SUB_OWNER_ADDRESS data) = Raise what \/
     (exists ledger, get_ledger L (CONF_SUB_OWNER_ADDRESS data) = Ok (Some ledger)) /\
     (Account L (Some (CONF_ADMIN_SEED data)) true = Raise what \/
      Account L (Some (CONF_ADMIN_SEED data)) true = Ok tt /\
      is_in_sub L (CONF_ADMIN_SEED data) (CONF_SUB_OWNER_ADDRESS data) = Raise what)))).
Proof.
  by_answers L data; settle;
    repeat match goal with
      | H : Raise _ = Raise _ |- _ => injection H as <-
      end;
    eauto 10.
Qed.

Lemma validate_input_library_error_witness :
  snd (_validate_input ledger_offline sample_input) =
    Raise (LibraryError "ConnectionRefusedError").
Proof.
  apply (validate_input_library_error ledger_offline sample_input).
  split; [reflexivity |]. right. split; [reflexivity |].
  right. split; [reflexivity |]. left. reflexivity.
Defined.

Lemma validate_input_ok_inv (L : Ledger) (data : UserInput) (info : dict string) :
  snd (_validate_input L data) = Ok info ->
  info = [("title", "Robonomics")] /\
  seed_accepted L data /\ address_accepted L data /\
  subscription_found L data /\ controller_in_devices L data.
Proof. by_answers L data; settle. Qed.

Lemma validate_input_passes (L : Ledger) (data : UserInput) :
  seed_accepted L data -> address_accepted L data ->
  subscription_found L data -> controller_in_devices L data ->
  snd (_validate_input L data) = Ok [("title", "Robonomics")].
Proof. by_answers L data; settle. Qed.

(** X5. [async_step_conf] creates the configuration entry exactly when it
    is given an input whose four checks pass; the entry is titled
    ["Robonomics"] and holds the input as it was given. *)
Theorem async_step_conf_creates_entry_iff (L : Ledger) (data : UserInput) :
  (snd (async_step_conf L (Some data)) = Ok (CreateEntry "Robonomics" data) <->
   seed_accepted L data /\ address_accepted L data /\
   subscription_found L data /\ controller_in_devices L data) /\
  (forall title stored,
     snd (async_step_conf L (Some data)) = Ok (CreateEntry title stored) ->
     title = "Robonomics" /\ stored = data) /\
  (forall title stored,
     snd (async_step_conf L None) <> Ok (CreateEntry title stored)).
Proof.
  assert (Hinv : forall title stored,
             snd (async_step_conf L (Some data)) = Ok (CreateEntry title stored) ->
             title = "Robonomics" /\ stored = data /\
             seed_accepted L data /\ address_accepted L data /\
             subscription_found L data /\ controller_in_devices L data).
  { intros title stored. unfold async_step_conf.
    pose proof (validate_input_ok_inv L data) as Hok.
    destruct (_validate_input L data) as [calls [info | e]]; cbn [snd] in *.
    - destruct (Hok info eq_refl) as [-> Hchecks]. cbn.
      intros [= <- <-]. auto.
    - destruct e; cbn; discriminate. }
  split; [split |]; [| | split].
  - intros H. apply Hinv in H. tauto.
  - intros (H1 & H2 & H3 & H4).
    pose proof (validate_input_passes L data H1 H2 H3 H4) as Hrun.
    unfold async_step_conf.
    destruct (_validate_input L data) as [calls r]; cbn [snd] in *.
    rewrite Hrun. reflexivity.
  - intros title stored H. apply Hinv in H. tauto.
  - intros title stored. cbn. discriminate.
Qed.

Lemma async_step_conf_creates_entry_iff_witness :
  snd (async_step_conf ledger_ok (Some sample_input)) =
    Ok (CreateEntry "Robonomics" sample_input).
Proof.
  apply (async_step_conf_creates_entry_iff ledger_ok sample_input).
  repeat split. exists "ledger". reflexivity.
Defined.

(** X6. [async_step_conf] never raises.  When the validation raises, the
    step shows the form ["conf"] again with one error under ["base"], the
    key of the exception: one of the four validation errors, or
    ["unknown"] for any other exception, which is then logged as well.
    The calls it made are those of the validation. *)
Theorem async_step_conf_reports_error (L : Ledger) (user_input : option UserInput) :
  (exists r, snd (async_step_conf L user_input) = Ok r) /\
  (forall data e,
     user_input = Some data ->
     snd (_validate_input L data) = Raise e ->
     async_step_conf L user_input =
       (map LedgerCall (fst (_validate_input L data)) ++
        match e with
        | LibraryError _ => [LogException "Unexpected exception" e]
        | _ => []
        end,
        Ok (ShowForm "conf" STEP_USER_DATA_SCHEMA
              (Some [("base",
                      match e with
                      | InvalidSubAdminSeed => "invalid_sub_admin_seed"
                      | InvalidSubOwnerAddress => "invalid_sub_owner_address"
                      | NoSubscription => "has_no_subscription"
                      | ControllerNotInDevices => "is_not_in_devices"
                      | LibraryError _ => "unknown"
                      end)])))).
Proof.
  split.
  - destruct user_input as [data |]; [| eexists; reflexivity].
    unfold async_step_conf.
    pose proof (validate_input_ok_inv L data) as Hok.
    destruct (_validate_input L data) as [calls [info | e]]; cbn [snd] in *.
    + destruct (Hok info eq_refl) as [-> _]. eexists. reflexivity.
    + destruct e; eexists; reflexivity.
  - intros data e -> Hraise. unfold async_step_conf.
    destruct (_validate_input L data) as [calls r]; cbn [fst snd] in *.
    subst r. destruct e; cbn; rewrite ?app_nil_r; reflexivity.
Qed.

Lemma async_step_conf_reports_error_witness :
  async_step_conf ledger_offline (Some sample_input) =
    ([LedgerCall (seed_check sample_input);
      LedgerCall (CallIsValidSs58 "4Address" 32);
      LedgerCall (CallAccount None false);
      LedgerCall (CallGetLedger "4Address");
      LogException "Unexpected exception" (LibraryError "ConnectionRefusedError")],
     Ok (ShowForm "conf" STEP_USER_DATA_SCHEMA (Some [("base", "unknown")]))).
Proof.
  destruct (async_step_conf_reports_error ledger_offline (Some sample_input))
    as [_ Hreport].
  exact (Hreport sample_input (LibraryError "ConnectionRefusedError") eq_refl eq_refl).
Defined.

Lemma unacknowledged_nil (warnings : dict bool) :
  unacknowledged warnings = [] <-> forall x, dict_get x warnings <> Some false.
Proof.
  unfold unacknowledged. split.
  - intros Hnil x Hx.
    assert (Hin : In x (dict_keys warnings)).
    { clear Hnil. induction warnings as [| [k b] d IH]; cbn in *; [discriminate |].
      destruct (String.eqb x k) eqn:E.
      - apply String.eqb_eq in E. left. symmetry. exact E.
      - right. exact (IH Hx). }
    assert (Hf : In x (List.filter
                         (fun x => negb (match dict_get x warnings with
                                         | Some b => b | None => false end))
                         (dict_keys warnings))).
    { apply List.filter_In. split; [exact Hin |]. rewrite Hx. reflexivity. }
    rewrite Hnil in Hf. exact Hf.
  - intros Hall.
    assert (Hkeys : forall l, (forall x, In x l -> dict_get x warnings <> None) ->
              List.filter
                (fun x => negb (match dict_get x warnings with
                                | Some b => b | None => false end)) l = []).
    { induction l as [| x l IH]; intros Hl; [reflexivity |]. cbn.
      specialize (Hall x). specialize (Hl x (or_introl eq_refl)) as Hx.
      destruct (dict_get x warnings) as [[] |]; cbn; try congruence.
      apply IH. intros y Hy. apply Hl. right. exact Hy. }
    apply Hkeys. clear. induction warnings as [| [k b] d IH]; cbn; [intros x [] |].
    intros x [<- | Hx].
    + rewrite String.eqb_refl. discriminate.
    + destruct (String.eqb x k); [discriminate | exact (IH x Hx)].
Qed.



End ConfigFlowMore.

(** ** The options flow *)

Module OptionsFlowSpec.
Import OptionsFlow.

Lemma dict_get_not_key {V} (k : string) (d : dict V) :
  ~ In k (dict_keys d) -> dict_get k d = None.
Proof.
  induction d as [| [k0 v0] d IH]; cbn; intros Hnot; [reflexivity |].
  destruct (String.eqb k k0) eqn:E.
  - apply String.eqb_eq in E. exfalso. apply Hnot. left. symmetry. exact E.
  - apply IH. intros Hin. apply Hnot. right. exact Hin.
Qed.

(** Lookup after [update]: the value of [other] when it has the key, the
    old value otherwise. *)
Lemma dict_update_get {V} (k : string) (other : dict V) :
  List.NoDup (dict_keys other) ->
  forall d : dict V,
    dict_get k (dict_update d other) =
      match dict_get k other with
      | Some v => Some v
      | None => dict_get k d
      end.
Proof.
  unfold dict_update.
  induction other as [| [k0 v0] other IH]; intros Hnd d; cbn; [reflexivity |].
  inversion Hnd as [| ? ? Hnotin Hnd']; subst.
  rewrite (IH Hnd'), GetStatesSpec.dict_get_set.
  destruct (String.eqb k k0) eqn:E.
  - apply String.eqb_eq in E. subst k0.
    rewrite (dict_get_not_key k other Hnotin). reflexivity.
  - reflexivity.
Qed.

(** X8. Submitting the options form stores the old data updated with the
    input: a key of the input gets the value of the input, every other key
    keeps its value, and the working copy and the entry agree afterwards.
    The step answers with an entry whose data is the input alone. *)
Theorem options_update_takes_input (K : Keys) (h : Handler) (input : dict conf_value) :
  List.NoDup (dict_keys input) ->
  fst (async_step_init K h (Some input)) = Ok (CreateEntry "" input) /\
  config_entry_data (snd (async_step_init K h (Some input))) =
    updated_config (snd (async_step_init K h (Some input))) /\
  (forall k v,
     dict_get k input = Some v ->
     dict_get k (config_entry_data (snd (async_step_init K h (Some input)))) = Some v) /\
  (forall k,
     dict_get k input = None ->
     dict_get k (config_entry_data (snd (async_step_init K h (Some input)))) =
       dict_get k (updated_config h)).
Proof.
  intros Hnd. cbn. split; [reflexivity |]. split; [reflexivity |]. split.
  - intros k v Hk. rewrite (dict_update_get k input Hnd), Hk. reflexivity.
  - intros k Hk. rewrite (dict_update_get k input Hnd), Hk. reflexivity.
Qed.

Lemma options_update_takes_input_witness :
  dict_get "sending_timeout"
    (config_entry_data
       (snd (async_step_init keys0 (init data_plain)
               (Some [("sending_timeout", VInt 30)])))) = Some (VInt 30) /\
  dict_get "admin_seed"
    (config_entry_data
       (snd (async_step_init keys0 (init data_plain)
               (Some [("sending_timeout", VInt 30)])))) = Some (VStr "0xseed").
Proof.
  assert (Hnd : List.NoDup (dict_keys [("sending_timeout", VInt 30)])).
  { constructor; [intros [] | constructor]. }
  destruct (options_update_takes_input keys0 (init data_plain)
              [("sending_timeout", VInt 30)] Hnd) as (_ & _ & Hin & Hout).
  split.
  - apply Hin. reflexivity.
  - rewrite Hout; reflexivity.
Defined.

Ltac open_schema data :=
  unfold options_schema, dict_mem, getitem, rbind;
  repeat match goal with
    | |- context [dict_get ?k data] => destruct (dict_get k data)
    end.

Ltac distinct_keys :=
  repeat match goal with
    | H : List.NoDup (_ :: _) |- _ => inversion H; clear H; subst
    | H : ~ In _ (_ :: _) |- _ => apply List.not_in_cons in H as [? ?]
    end;
  repeat match goal with
    | H : ?a <> ?b |- _ =>
        match goal with
        | |- context [String.eqb a b] =>
            let E := fresh in
            assert (E : String.eqb a b = false) by (apply String.eqb_neq; exact H);
            rewrite E; clear E
        | |- context [String.eqb b a] =>
            let E := fresh in
            assert (E : String.eqb b a = false)
              by (apply String.eqb_neq; intros ?; apply H; congruence);
            rewrite E; clear E
        end
    end.

(** X9. Whatever is stored, the options form has the same six fields in
    the same order, and (the six keys being distinct) each default it
    shows is the stored value of its key, with two exceptions: the Pinata
    secret is shown only when a Pinata key is stored, and without a stored
    gateway the port and the authentication flag are shown as [443] and
    [False], whatever is stored for them. *)
Theorem options_form_defaults (K : Keys) (data : dict conf_value)
    (schema : list vol_field) :
  List.NoDup [CONF_SENDING_TIMEOUT K; CONF_PINATA_PUB K; CONF_PINATA_SECRET K;
              CONF_IPFS_GATEWAY K; CONF_IPFS_GATEWAY_PORT K; CONF_IPFS_GATEWAY_AUTH K] ->
  options_schema K data = Ok schema ->
  map layout_of schema = form_layout K /\
  shown_default schema (CONF_SENDING_TIMEOUT K) = dict_get (CONF_SENDING_TIMEOUT K) data /\
  shown_default schema (CONF_PINATA_PUB K) = dict_get (CONF_PINATA_PUB K) data /\
  shown_default schema (CONF_PINATA_SECRET K) =
    (if dict_mem (CONF_PINATA_PUB K) data
     then dict_get (CONF_PINATA_SECRET K) data else None) /\
  shown_default schema (CONF_IPFS_GATEWAY K) = dict_get (CONF_IPFS_GATEWAY K) data /\
  shown_default schema (CONF_IPFS_GATEWAY_PORT K) =
    (if dict_mem (CONF_IPFS_GATEWAY K) data
     then dict_get (CONF_IPFS_GATEWAY_PORT K) data else Some (VInt 443)) /\
  shown_default schema (CONF_IPFS_GATEWAY_AUTH K) =
    (if dict_mem (CONF_IPFS_GATEWAY K) data
     then dict_get (CONF_IPFS_GATEWAY_AUTH K) data else Some (VBool false)).
Proof.
  intros Hnd Hschema. revert Hschema. open_schema data; try discriminate.
  all: intros [= <-]; unfold shown_default; cbn [List.find key default map layout_of
                                                  marker validator].
  all: rewrite ?String.eqb_refl; distinct_keys.
  all: repeat split.
Qed.

Lemma options_form_defaults_witness :
  exists schema,
    options_schema keys0 data_plain = Ok schema /\
    shown_default schema "sending_timeout" = Some (VInt 10) /\
    shown_default schema "ipfs_gateway_port" = Some (VInt 443) /\
    shown_default schema "ipfs_gateway_auth" = Some (VBool false).
Proof.
  destruct (options_schema keys0 data_plain) as [schema | e] eqn:Hschema;
    [| vm_compute in Hschema; discriminate].
  assert (Hnd : List.NoDup
                  [CONF_SENDING_TIMEOUT keys0; CONF_PINATA_PUB keys0;
                   CONF_PINATA_SECRET keys0; CONF_IPFS_GATEWAY keys0;
                   CONF_IPFS_GATEWAY_PORT keys0; CONF_IPFS_GATEWAY_AUTH keys0]).
  { repeat constructor; cbn; intuition discriminate. }
  destruct (options_form_defaults keys0 data_plain schema Hnd Hschema)
    as (_ & Ht & _ & _ & _ & Hp & Ha).
  exists schema. split; [reflexivity |]. split; [exact Ht |]. split; [exact Hp | exact Ha].
Defined.

(** X10. Showing the options form changes nothing that is stored.  The
    form is shown exactly when the sending timeout is stored, the Pinata
    secret is stored whenever the Pinata key is, and port and
    authentication flag are stored whenever a gateway is; otherwise the
    step raises [KeyError], for the Pinata secret first. *)
Theorem options_form_needs_keys (K : Keys) (h : Handler) :
  snd (async_step_init K h None) = h /\
  ((exists schema, fst (async_step_init K h None) = Ok (ShowForm "init" schema false)) <->
   dict_mem (CONF_SENDING_TIMEOUT K) (config_entry_data h) = true /\
   (dict_mem (CONF_PINATA_PUB K) (config_entry_data h) = true ->
    dict_mem (CONF_PINATA_SECRET K) (config_entry_data h) = true) /\
   (dict_mem (CONF_IPFS_GATEWAY K) (config_entry_data h) = true ->
    dict_mem (CONF_IPFS_GATEWAY_PORT K) (config_entry_data h) = true /\
    dict_mem (CONF_IPFS_GATEWAY_AUTH K) (config_entry_data h) = true)) /\
  (dict_mem (CONF_PINATA_PUB K) (config_entry_data h) = true ->
   dict_mem (CONF_PINATA_SECRET K) (config_entry_data h) = false ->
   fst (async_step_init K h None) = Raise (KeyError (CONF_PINATA_SECRET K))) /\
  (forall r, fst (async_step_init K h None) = Ok r ->
             exists schema, r = ShowForm "init" schema false).
Proof.
  unfold async_step_init. set (data := config_entry_data h).
  split; [destruct (options_schema K data); reflexivity |].
  split; [| split].
  - split.
    + intros [schema Hshow].
      destruct (options_schema K data) as [schema' | e] eqn:Hs; [| discriminate].
      clear Hshow. revert Hs. open_schema data; try discriminate; intros _.
      all: repeat split; intros; try reflexivity; try discriminate.
    + intros (Ht & Hp & Hg). revert Ht Hp Hg. open_schema data; cbn; intros Ht Hp Hg.
      all: try discriminate.
      all: try (specialize (Hp eq_refl); discriminate).
      all: try (destruct (Hg eq_refl); discriminate).
      all: eexists; reflexivity.
  - open_schema data; cbn; intros; try discriminate; reflexivity.
  - intros r. destruct (options_schema K data) as [schema | e]; cbn; [| discriminate].
    intros [= <-]. exists schema. reflexivity.
Qed.

Lemma options_form_needs_keys_witness :
  (exists schema,
     fst (async_step_init keys0 (init data_gateway) None) =
       Ok (ShowForm "init" schema false)) /\
  fst (async_step_init keys0 (init data_half_pinata) None) =
    Raise (KeyError "pinata_secret").
Proof.
  split.
  - apply (options_form_needs_keys keys0 (init data_gateway)).
    repeat split.
  - apply (options_form_needs_keys keys0 (init data_half_pinata)); reflexivity.
Defined.

End OptionsFlowSpec.

(** ** More on the publication job *)

Module GetStatesMore.
Import GetStates.

(** *** The services of the configuration document *)

Lemma services_loop_bound (d : gmap string string) (entities : list RegistryEntry) :
  forall acc : gmap string string,
    (forall p v, acc !! p = Some v -> d !! p = Some v) ->
    exists sl,
      services_loop (Some d) entities acc = (sl, None) /\
      forall p v,
        sl !! p = Some v <->
        acc !! p = Some v \/
        (d !! p = Some v /\ exists e, In e entities /\ before_dot (entity_id e) = p).
Proof.
  induction entities as [| e rest IH]; intros acc Hacc.
  - exists acc. split; [reflexivity |]. intros p v. split; [auto |].
    intros [H | [_ (e & [] & _)]]. exact H.
  - cbn [services_loop].
    set (platform := before_dot (entity_id e)).
    destruct (bool_decide (acc !! platform = None)) eqn:Hin.
    + apply bool_decide_eq_true_1 in Hin.
      destruct (d !! platform) as [description |] eqn:Hd.
      * destruct (IH (<[platform := description]> acc)) as (sl & Hrun & Hsl).
        { intros p v. destruct (decide (platform = p)) as [<- | Hne].
          - rewrite lookup_insert_eq. congruence.
          - rewrite lookup_insert_ne by exact Hne. apply Hacc. }
        exists sl. split; [exact Hrun |]. intros p v. rewrite Hsl. split.
        -- intros [H | (Hp & e' & He' & Hpe)].
           ++ destruct (decide (platform = p)) as [<- | Hne].
              ** rewrite lookup_insert_eq in H. injection H as <-.
                 right. split; [exact Hd |]. exists e. split; [left |]; reflexivity.
              ** rewrite lookup_insert_ne in H by exact Hne. left. exact H.
           ++ right. split; [exact Hp |]. exists e'. split; [right |]; assumption.
        -- intros [H | (Hp & e' & [<- | He'] & Hpe)].
           ++ left. destruct (decide (platform = p)) as [<- | Hne].
              ** congruence.
              ** rewrite lookup_insert_ne by exact Hne. exact H.
           ++ left. fold platform in Hpe. subst p.
              rewrite lookup_insert_eq. congruence.
           ++ right. split; [exact Hp |]. exists e'. split; assumption.
      * destruct (IH acc Hacc) as (sl & Hrun & Hsl).
        exists sl. split; [exact Hrun |]. intros p v. rewrite Hsl. split.
        -- intros [H | (Hp & e' & He' & Hpe)]; [left; exact H |].
           right. split; [exact Hp |]. exists e'. split; [right |]; assumption.
        -- intros [H | (Hp & e' & [<- | He'] & Hpe)]; [left; exact H | |].
           ++ fold platform in Hpe. subst p. congruence.
           ++ right. split; [exact Hp |]. exists e'. split; assumption.
    + apply bool_decide_eq_false_1 in Hin.
      destruct (IH acc Hacc) as (sl & Hrun & Hsl).
      exists sl. split; [exact Hrun |]. intros p v. rewrite Hsl. split.
      * intros [H | (Hp & e' & He' & Hpe)]; [left; exact H |].
        right. split; [exact Hp |]. exists e'. split; [right |]; assumption.
      * intros [H | (Hp & e' & [<- | He'] & Hpe)]; [left; exact H | |].
        -- fold platform in Hpe. subst p.
           destruct (acc !! platform) as [v' |] eqn:Hv; [| contradiction].
           left. rewrite <- Hp. symmetry. apply Hacc. exact Hv.
        -- right. split; [exact Hp |]. exists e'. split; assumption.
Qed.

(** X11. With the descriptions at hand, the loop over the entity registry
    never raises, and [services_list] holds exactly the descriptions of
    the platforms of the registered entities: a platform (the part of an
    [entity_id] before its first dot) is a key exactly when it is
    described and some entity has it, and its value is its description.
    Without the descriptions the loop raises at the first entity. *)
Theorem services_are_registered_platforms (d : gmap string string)
    (entities : list RegistryEntry) :
  (exists sl,
     services_loop (Some d) entities ∅ = (sl, None) /\
     forall p v,
       sl !! p = Some v <->
       d !! p = Some v /\ exists e, In e entities /\ before_dot (entity_id e) = p) /\
  services_loop None entities ∅ =
    (∅, match entities with
        | [] => None
        | _ :: _ => Some (UnboundLocalError "descriptions")
        end).
Proof.
  split.
  - destruct (services_loop_bound d entities ∅) as (sl & Hrun & Hsl).
    { intros p v H. rewrite lookup_empty in H. discriminate. }
    exists sl. split; [exact Hrun |]. intros p v. rewrite Hsl. split.
    + intros [H | H]; [rewrite lookup_empty in H; discriminate | exact H].
    + intros H. right. exact H.
  - destruct entities as [| e rest]; [reflexivity |].
    cbn [services_loop]. rewrite lookup_empty.
    rewrite bool_decide_eq_true_2 by reflexivity. reflexivity.
Qed.

Lemma services_are_registered_platforms_witness :
  exists sl,
    services_loop (Some {[ "light" := "{turn_on}"; "climate" := "{set}" ]})
      (entity_registry Samples.hass0) ∅ = (sl, None) /\
    sl !! "light" = Some "{turn_on}" /\
    sl !! "climate" = None.
Proof.
  destruct (services_are_registered_platforms
              {[ "light" := "{turn_on}"; "climate" := "{set}" ]}
              (entity_registry Samples.hass0)) as [(sl & Hrun & Hsl) _].
  exists sl. split; [exact Hrun |]. split.
  - apply Hsl. split; [reflexivity |].
    exists {| entity_id := "light.lamp"; device_id := Some "dev2" |}.
    split; [cbn; auto | reflexivity].
  - destruct (sl !! "climate") as [v |] eqn:Hv; [| reflexivity].
    apply Hsl in Hv as [_ (e & He & Hp)]. exfalso.
    cbn in He. destruct He as [<- | [<- | [<- | [<- | []]]]]; discriminate.
Defined.

(** *** Which cached blob is read back *)

Lemma find_encrypted_acc (l : list string) (acc : option string) :
  find_encrypted l acc =
    match find_encrypted l None with
    | Some f => Some f
    | None => acc
    end.
Proof.
  revert acc. induction l as [| f rest IH]; intros acc; [reflexivity |].
  cbn [find_encrypted]. destruct (str_contains "config_encrypted" f).
  - rewrite (IH (Some f)). destruct (find_encrypted rest None); reflexivity.
  - exact (IH acc).
Qed.

(** X12. The loop that looks for the cached blob picks the last name of
    the directory listing that contains ["config_encrypted"]: the name it
    finds contains the marker and no name listed after it does, and it
    finds none exactly when no listed name contains the marker. *)
Theorem find_encrypted_is_last_match (l : list string) :
  (forall f,
     find_encrypted l None = Some f <->
     exists before after,
       l = before ++ f :: after /\
       str_contains "config_encrypted" f = true /\
       forall g, In g after -> str_contains "config_encrypted" g = false) /\
  (find_encrypted l None = None <->
   forall g, In g l -> str_contains "config_encrypted" g = false).
Proof.
  induction l as [| x rest [IHsome IHnone]].
  - split.
    + intros f. split; [discriminate |].
      intros (before & after & H & _). destruct before; discriminate.
    + split; [intros _ g [] | reflexivity].
  - cbn [find_encrypted]. rewrite find_encrypted_acc.
    destruct (find_encrypted rest None) as [f0 |].
    + destruct (proj1 (IHsome f0) eq_refl) as (before0 & after0 & Hrest & Hf0 & Hafter0).
      split.
      * intros f. split.
        -- intros [= <-]. exists (x :: before0), after0.
           rewrite Hrest. auto.
        -- intros (before & after & Hl & Hf & Hafter).
           destruct before as [| b before]; cbn in Hl; injection Hl as <- Hl.
           ++ subst after. apply (proj2 IHnone) in Hafter. discriminate.
           ++ apply IHsome. exists before, after. auto.
      * split; [discriminate |].
        intros Hall. exfalso. rewrite Hall in Hf0; [discriminate |].
        right. rewrite Hrest. apply in_or_app. right. left. reflexivity.
    + pose proof (proj1 IHnone eq_refl) as Hnone.
      destruct (str_contains "config_encrypted" x) eqn:Hx.
      * split.
        -- intros f. split.
           ++ intros [= <-]. exists [], rest. auto.
           ++ intros (before & after & Hl & Hf & Hafter).
              destruct before as [| b before]; cbn in Hl; injection Hl as <- Hl.
              ** reflexivity.
              ** exfalso. rewrite Hnone in Hf; [discriminate |].
                 rewrite Hl. apply in_or_app. right. left. reflexivity.
        -- split; [discriminate |].
           intros Hall. rewrite Hall in Hx; [discriminate | left; reflexivity].
      * split.
        -- intros f. split; [discriminate |].
           intros (before & after & Hl & Hf & Hafter). exfalso.
           destruct before as [| b before]; cbn in Hl; injection Hl as <- Hl.
           ++ congruence.
           ++ rewrite Hnone in Hf; [discriminate |].
              rewrite Hl. apply in_or_app. right. left. reflexivity.
        -- split; [| reflexivity].
           intros _ g [<- | Hg]; [exact Hx | exact (Hnone g Hg)].
Qed.

Lemma find_encrypted_is_last_match_witness :
  find_encrypted ["config_encrypted-1"; "config"; "config_encrypted-2"; "notes"] None =
    Some "config_encrypted-2".
Proof.
  apply (find_encrypted_is_last_match
           ["config_encrypted-1"; "config"; "config_encrypted-2"; "notes"]).
  exists ["config_encrypted-1"; "config"], ["notes"].
  split; [reflexivity |]. split; [reflexivity |].
  intros g [<- | []]. reflexivity.
Defined.

(** *** A candidate that cannot be built *)

Lemma load_log_is_log (C : Collaborators) (w : World) :
  Forall (fun ev => is_log ev = true) (load_log C w).
Proof.
  unfold load_log.
  destruct (dict_get "config" (config_files w)) as [[text |] |];
    [destruct (json_load C text) |..]; repeat constructor.
Qed.

(** X13. When the dashboard cannot be loaded, or the service descriptions
    cannot be fetched while the registry has an entity, the detector still
    returns, but [config_dashboard] is unbound and the last [try] fails on
    it: the cycle only writes log lines, the last of them the error on
    [config_dashboard]; no file and no content address changes and no
    collaborator is called, so no configuration is published. *)
Theorem unbuilt_candidate_publishes_nothing (C : Collaborators) (hass : Hass)
    (w : World) (what : string) :
  async_load_dashboard hass = Raise what \/
  (async_get_all_descriptions hass = Raise what /\ entity_registry hass <> []) ->
  exists logs,
    _get_dashboard_and_services C hass w =
      (Ok tt,
       set_trace
         (trace w ++ logs ++
          [LogError "Exception in change config" (UnboundLocalError "config_dashboard")])
         w) /\
    Forall (fun ev => is_log ev = true) logs.
Proof.
  intros Hfail.
  unfold _get_dashboard_and_services.
  unfold bind at 1, log_debug at 1, emit at 1.
  set (start := LogDebug "Start getting info about dashboard and services").
  (* the first [try] *)
  assert (H1 : exists descriptions logs1,
             get_descriptions hass (set_trace (trace w ++ [start]) w) =
               (Ok descriptions, set_trace (trace w ++ [start] ++ logs1) w) /\
             Forall (fun ev => is_log ev = true) logs1 /\
             (async_get_all_descriptions hass = Raise what -> descriptions = None)).
  { unfold get_descriptions, try_except, bind, log_error, emit.
    destruct (async_get_all_descriptions hass) as [d | what'] eqn:Hd; cbn.
    - exists (Some d), []. repeat split; [constructor | discriminate].
    - eexists None, [_]. rewrite <- app_assoc. repeat split. repeat constructor. }
  destruct H1 as (descriptions & logs1 & Hrun1 & Hlogs1 & Hnone).
  unfold bind at 1. rewrite Hrun1.
  (* the second [try] *)
  assert (H2 : exists services_list logs2,
             get_services_and_dashboard hass descriptions
               (set_trace (trace w ++ [start] ++ logs1) w) =
               (Ok (services_list, None),
                set_trace (trace w ++ [start] ++ logs1 ++ logs2) w) /\
             Forall (fun ev => is_log ev = true) logs2).
  { unfold get_services_and_dashboard.
    destruct (services_loop descriptions (entity_registry hass) ∅)
      as [services_list [e |]] eqn:Hloop.
    - eexists services_list, [_]. unfold bind, log_error, emit. cbn.
      rewrite <- !app_assoc. repeat split. repeat constructor.
    - destruct Hfail as [Hdash | [Hdescr Hne]].
      + eexists services_list, [_].
        unfold try_except, bind, log_error, emit. rewrite Hdash. cbn.
        rewrite <- !app_assoc. repeat split. repeat constructor.
      + exfalso. rewrite (Hnone Hdescr) in Hloop.
        destruct (entity_registry hass) as [| e rest]; [contradiction |].
        cbn [services_loop] in Hloop. rewrite lookup_empty in Hloop.
        rewrite bool_decide_eq_true_2 in Hloop by reflexivity. discriminate. }
  destruct H2 as (services_list & logs2 & Hrun2 & Hlogs2).
  unfold bind at 1. rewrite Hrun2.
  (* the third and the last [try] *)
  unfold bind at 1. rewrite GetStatesSpec.load_current_config_eq.
  cbn [trace set_trace fst snd].
  exists ([start] ++ logs1 ++ logs2 ++
          load_log C (set_trace (trace w ++ [start] ++ logs1 ++ logs2) w)).
  split.
  - unfold try_except, change_config, bind, log_error, emit. cbn.
    f_equal. unfold set_trace. cbn [data_files config_files ipfs_hash_config trace].
    f_equal. repeat (rewrite <- app_assoc; cbn [app]). reflexivity.
  - apply Forall_app. split; [repeat constructor |].
    apply Forall_app. split; [exact Hlogs1 |].
    apply Forall_app. split; [exact Hlogs2 | apply load_log_is_log].
Qed.

Lemma unbuilt_candidate_publishes_nothing_witness :
  exists logs,
    _get_dashboard_and_services Samples.collaborators0 Samples.hass_no_dashboard
      Samples.world_fresh =
      (Ok tt,
       set_trace
         (logs ++
          [LogError "Exception in change config" (UnboundLocalError "config_dashboard")])
         Samples.world_fresh) /\
    Forall (fun ev => is_log ev = true) logs.
Proof.
  apply (unbuilt_candidate_publishes_nothing Samples.collaborators0
           Samples.hass_no_dashboard Samples.world_fresh "ConfigNotFound").
  left. reflexivity.
Defined.

(** *** A publication that fails *)

(** X14. When the document has changed and no account can be made of the
    seed, the cycle has already written the new document to disk when it
    fails: nothing is uploaded and no pointer is set.  With a content
    address in memory, the next cycle finds the document on disk equal to
    the candidate and does nothing, whatever the collaborators then do: the
    changed document is not published by a later cycle. *)
Theorem failed_publication_is_not_retried (C C' : Collaborators) (hass : Hass)
    (cfg : ConfigDoc) (seed text what h : string) (w : World) :
  candidate hass = Some cfg ->
  config_differs (current_config_of C w) cfg = true ->
  dict_get "config" (config_files w) <> Some Directory ->
  json_dump C cfg = Ok text ->
  admin_seed hass = Some seed ->
  (forall w0, Account C w0 seed = Raise what) ->
  ipfs_hash_config w = Some h ->
  json_load C' text = Ok (LoadedConfig cfg) ->
  dict_get "config" (config_files (after_cycle C hass w)) = Some (File text) /\
  ipfs_hash_config (after_cycle C hass w) = Some h /\
  count is_upload (events_since w (after_cycle C hass w)) = 0 /\
  count is_pointer_call (events_since w (after_cycle C hass w)) = 0 /\
  In (LogError "Exception in change config" (CollaboratorError what))
    (events_since w (after_cycle C hass w)) /\
  _get_dashboard_and_services C' hass (after_cycle C hass w) =
    (Ok tt, started (after_cycle C hass w)).
Proof.
  intros Hcand Hdiff Hfile Hdump Hseed Hacc Hh Hload.
  set (w2 := set_trace (trace (started w) ++ load_log C w) (started w)).
  assert (Hrun : exists w1,
             _get_dashboard_and_services C hass w = (Ok tt, w1) /\
             trace w1 = trace w ++
               LogDebug "Start getting info about dashboard and services" ::
               load_log C w ++
               [LogDebug "Config was changed"; CallAccount seed;
                LogError "Exception in change config" (CollaboratorError what)] /\
             config_files w1 =
               dict_set "config" (File text)
                 (dict_set "config" (File "") (config_files w)) /\
             ipfs_hash_config w1 = Some h).
  { rewrite (GetStatesSpec.changed_cycle C hass cfg w Hcand Hdiff). fold w2.
    unfold try_except, bind at 1.
    assert (Henc : exists w3,
               encrypt_new_config C hass cfg w2 = (Raise (CollaboratorError what), w3) /\
               trace w3 = trace w2 ++ [LogDebug "Config was changed"; CallAccount seed] /\
               config_files w3 =
                 dict_set "config" (File text)
                   (dict_set "config" (File "") (config_files w)) /\
               ipfs_hash_config w3 = Some h).
    { unfold encrypt_new_config, bind, log_debug, emit, open_w, f_write, item, ask.
      rewrite Hseed, Hdump.
      cbn [files_of config_files set_trace set_files trace data_files ipfs_hash_config
           lift ret w2 started].
      destruct (dict_get "config" (config_files w)) as [[content |] |];
        [| contradiction |].
      all: cbn [files_of config_files set_trace set_files trace data_files
                ipfs_hash_config lift ret].
      all: rewrite Hacc; cbn [lift raise].
      all: eexists; split; [reflexivity |].
      all: cbn [files_of config_files set_trace set_files trace data_files
                ipfs_hash_config].
      all: rewrite <- !app_assoc; repeat split; exact Hh. }
    destruct Henc as (w3 & Henc & Htr3 & Hcf3 & Hh3).
    rewrite Henc. eexists. split; [reflexivity |].
    unfold change_config_handler, log_error, emit.
    cbn [trace set_trace config_files ipfs_hash_config].
    rewrite Htr3. unfold w2, started. cbn [trace set_trace].
    split; [| split; assumption].
    repeat (rewrite <- app_assoc; cbn [app]). reflexivity. }
  destruct Hrun as (w1 & Hrun & Htr & Hcf & Hh1).
  assert (Hcfg : dict_get "config" (config_files w1) = Some (File text))
    by (rewrite Hcf; apply GetStatesSpec.dict_get_set_eq).
  unfold after_cycle. rewrite Hrun. cbn [snd].
  rewrite (GetStatesSpec.events_since_trace w w1 _ Htr).
  assert (Hcount : forall p,
             (forall msg e, p (LogError msg e) = false) ->
             (forall msg, p (LogDebug msg) = false) ->
             p (CallAccount seed) = false ->
             count p
               (LogDebug "Start getting info about dashboard and services" ::
                load_log C w ++
                [LogDebug "Config was changed"; CallAccount seed;
                 LogError "Exception in change config" (CollaboratorError what)]) = 0).
  { intros p Herr Hdbg Hcall.
    change (?a :: ?l ++ ?l') with ([a] ++ l ++ l').
    rewrite !GetStatesSpec.count_app, (GetStatesSpec.count_load_log p C w Herr).
    unfold count. cbn. rewrite !Hdbg, Hcall, Herr. reflexivity. }
  split; [exact Hcfg |]. split; [exact Hh1 |].
  split; [apply Hcount; reflexivity |]. split; [apply Hcount; reflexivity |].
  split.
  - right. apply in_or_app. right. do 2 right. left. reflexivity.
  - apply (GetStatesSpec.settled_cycle C' hass cfg (LoadedConfig cfg) h w1 Hcand).
    + exists text. split; assumption.
    + unfold config_differs. rewrite bool_decide_eq_true_2; reflexivity.
    + exact Hh1.
Qed.

Lemma failed_publication_is_not_retried_witness :
  dict_get "config"
    (config_files
       (after_cycle Samples.collaborators_no_account Samples.hass0
          Samples.world_outdated)) = Some (File "doc:{views}") /\
  _get_dashboard_and_services Samples.collaborators0 Samples.hass0
    (after_cycle Samples.collaborators_no_account Samples.hass0 Samples.world_outdated) =
    (Ok tt,
     started (after_cycle Samples.collaborators_no_account Samples.hass0
                Samples.world_outdated)).
Proof.
  destruct (failed_publication_is_not_retried Samples.collaborators_no_account
              Samples.collaborators0 Samples.hass0 Samples.config0
              "seed" "doc:{views}" "Invalid seed" "Qm:config_encrypted-0"
              Samples.world_outdated)
    as (Hcfg & _ & _ & _ & _ & Hnext); try reflexivity.
  - discriminate.
  - split; [exact Hcfg | exact Hnext].
Defined.

(** *** What the detector leaves alone *)

Lemma keeps_files_same {A} (m : M A) :
  (forall w, data_files (snd (m w)) = data_files w /\
             config_files (snd (m w)) = config_files w) ->
  keeps_files m.
Proof.
  intros H w. destruct (H w) as [Hd Hc]. rewrite Hd, Hc. repeat split; auto.
Qed.

Lemma keeps_files_ret {A} (a : A) : keeps_files (ret a).
Proof. apply keeps_files_same. intros w. split; reflexivity. Qed.

Lemma keeps_files_raise {A} (e : exn) : keeps_files (@raise A e).
Proof. apply keeps_files_same. intros w. split; reflexivity. Qed.

Lemma keeps_files_bind {A B} (m : M A) (f : A -> M B) :
  keeps_files m -> (forall a, keeps_files (f a)) -> keeps_files (bind m f).
Proof.
  intros Hm Hf w. unfold bind.
  destruct (Hm w) as (Hd & Hk & Hg).
  destruct (m w) as [[a | e] w1]; cbn [snd] in *; [| repeat split; assumption].
  destruct (Hf a w1) as (Hd' & Hk' & Hg').
  split; [congruence |]. split.
  - intros f0 H0. apply Hk', Hk, H0.
  - intros f0 Hne Hno. rewrite (Hg' f0 Hne Hno). apply Hg; assumption.
Qed.

Lemma keeps_files_try_except {A} (body : M A) (handler : exn -> M A) :
  keeps_files body -> (forall e, keeps_files (handler e)) ->
  keeps_files (try_except body handler).
Proof.
  intros Hm Hh w. unfold try_except.
  destruct (Hm w) as (Hd & Hk & Hg).
  destruct (body w) as [[a | e] w1]; cbn [snd] in *; [repeat split; assumption |].
  destruct (Hh e w1) as (Hd' & Hk' & Hg').
  split; [congruence |]. split.
  - intros f0 H0. apply Hk', Hk, H0.
  - intros f0 Hne Hno. rewrite (Hg' f0 Hne Hno). apply Hg; assumption.
Qed.

Lemma keeps_files_emit (ev : event) : keeps_files (emit ev).
Proof. apply keeps_files_same. intros w. split; reflexivity. Qed.

Lemma keeps_files_lift {A} (r : result string A) : keeps_files (lift r).
Proof. destruct r; [apply keeps_files_ret | apply keeps_files_raise]. Qed.

Lemma keeps_files_ask {A} (f : World -> result string A) : keeps_files (ask f).
Proof.
  apply keeps_files_same. intros w. unfold ask. destruct (f w); split; reflexivity.
Qed.

Lemma keeps_files_bound {A} (name : string) (v : option A) : keeps_files (bound name v).
Proof. destruct v; [apply keeps_files_ret | apply keeps_files_raise]. Qed.

Lemma keeps_files_item {A} (key : string) (v : option A) : keeps_files (item key v).
Proof. destruct v; [apply keeps_files_ret | apply keeps_files_raise]. Qed.

Lemma keeps_files_os_listdir (where_ : folder) : keeps_files (os_listdir where_).
Proof. apply keeps_files_same. intros w. split; reflexivity. Qed.

Lemma keeps_files_read_file (where_ : folder) (file : string) :
  keeps_files (read_file where_ file).
Proof.
  apply keeps_files_same. intros w. unfold read_file.
  destruct (dict_get file (files_of where_ w)) as [[content |] |]; split; reflexivity.
Qed.

Lemma dict_set_keeps_keys {V} (k f : string) (v : V) (d : dict V) :
  In f (dict_keys d) -> In f (dict_keys (dict_set k v d)).
Proof.
  induction d as [| [k0 v0] d IH]; cbn; [intros [] |].
  destruct (String.eqb k k0) eqn:E; cbn.
  - apply String.eqb_eq in E. subst k0. auto.
  - intros [H | H]; [left; exact H | right; exact (IH H)].
Qed.

(** Writing a file of the configuration directory whose name is ["config"]
    or carries the marker. *)
Lemma keeps_files_set (file : string) (nd : node) :
  file = "config" \/ str_contains "config_encrypted" file = true ->
  keeps_files (fun w =>
    (Ok tt, set_files DATA_CONFIG_PATH (dict_set file nd (config_files w)) w)).
Proof.
  intros Hfile w. cbn. split; [reflexivity |]. split.
  - intros f. apply dict_set_keeps_keys.
  - intros f Hne Hno. apply GetStatesSpec.dict_get_set_ne.
    destruct Hfile as [-> | Hfile]; [exact Hne | congruence].
Qed.

Lemma keeps_files_open_w (file : string) :
  file = "config" \/ str_contains "config_encrypted" file = true ->
  keeps_files (open_w DATA_CONFIG_PATH file).
Proof.
  intros Hfile w. unfold open_w. cbn [files_of].
  destruct (dict_get file (config_files w)) as [[content |] |].
  - apply (keeps_files_set file (File "") Hfile w).
  - repeat split; auto.
  - apply (keeps_files_set file (File "") Hfile w).
Qed.

Lemma keeps_files_f_write (file content : string) :
  file = "config" \/ str_contains "config_encrypted" file = true ->
  keeps_files (f_write DATA_CONFIG_PATH file content).
Proof. intros Hfile. apply (keeps_files_set file (File content) Hfile). Qed.

Lemma staged_name_has_marker (suffix : string) :
  str_contains "config_encrypted" (String.append "config_encrypted" suffix) = true.
Proof.
  cbn. repeat (destruct (ascii_dec _ _) as [_ | Hne]; [| exfalso; apply Hne; reflexivity]).
  destruct suffix; reflexivity.
Qed.

Ltac keeps_files_steps :=
  repeat first
    [ apply keeps_files_ret | apply keeps_files_raise | apply keeps_files_lift
    | apply keeps_files_ask | apply keeps_files_bound | apply keeps_files_item
    | apply keeps_files_os_listdir | apply keeps_files_read_file
    | apply keeps_files_emit
    | apply keeps_files_open_w; first [left; reflexivity | right; apply staged_name_has_marker]
    | apply keeps_files_f_write; first [left; reflexivity | right; apply staged_name_has_marker]
    | apply keeps_files_bind; [| intros ?]
    | apply keeps_files_try_except; [| intros ?] ].

Lemma keeps_files_detector (C : Collaborators) (hass : Hass) :
  keeps_files (_get_dashboard_and_services C hass).
Proof.
  unfold _get_dashboard_and_services, get_descriptions, get_services_and_dashboard,
    load_current_config, change_config, log_debug, log_error.
  keeps_files_steps.
  - destruct (services_loop _ _ _) as [services_list [e |]];
      unfold log_error; keeps_files_steps.
  - apply keeps_files_same. intros w. split; reflexivity.
  - destruct (_ || _); [| apply keeps_files_ret].
    apply keeps_files_bind.
    + destruct (config_differs _ _);
        unfold encrypt_new_config, read_cached_blob, log_debug; keeps_files_steps.
    + intros blob. unfold publish_config, write_data_to_file, log_debug, marker.
      keeps_files_steps.
      * apply keeps_files_same. intros w. split; reflexivity.
      * apply keeps_files_same. intros w.
        destruct (ipfs_hash_config w); split; reflexivity.
Qed.

(** X15. Whatever happens in it, a cycle of the detector leaves the
    staging directory of the telemetry as it is, removes no file of the
    configuration directory, and changes no file there other than the
    plaintext document ["config"] and files whose names contain
    ["config_encrypted"]. *)
Theorem detector_keeps_files (C : Collaborators) (hass : Hass) (w : World) :
  data_files (after_cycle C hass w) = data_files w /\
  (forall f, In f (dict_keys (config_files w)) ->
             In f (dict_keys (config_files (after_cycle C hass w)))) /\
  (forall f, f <> "config" -> str_contains "config_encrypted" f = false ->
             dict_get f (config_files (after_cycle C hass w)) =
               dict_get f (config_files w)).
Proof. exact (keeps_files_detector C hass w). Qed.

Lemma detector_keeps_files_witness :
  In "config_encrypted-0"
    (dict_keys (config_files
       (after_cycle Samples.collaborators0 Samples.hass0 Samples.world_outdated))) /\
  dict_get "config_encrypted-0"
    (config_files (after_cycle Samples.collaborators0 Samples.hass0 Samples.world_outdated))
    = Some (File "enc:str:{old}").
Proof.
  destruct (detector_keeps_files Samples.collaborators0 Samples.hass0
              Samples.world_outdated) as (_ & Hkeys & _).
  split.
  - apply Hkeys. cbn. auto.
  - vm_compute. reflexivity.
Defined.

(** *** More on the snapshot *)

Lemma dict_set_not_nil {V} (k : string) (v : V) (d : dict V) : dict_set k v d <> [].
Proof. destruct d as [| [k0 v0] d]; cbn; [| destruct (String.eqb k k0)]; discriminate. Qed.

Lemma states_step_named (hass : Hass) (seen : list RegistryEntry) (dd dd' : dict top)
    (e : RegistryEntry) :
  states_step hass dd e = Ok dd' ->
  named_from hass seen dd -> named_from hass (seen ++ [e]) dd'.
Proof.
  intros Hstep Hnamed.
  assert (Hold : forall device n entities,
             dict_get device dd = Some (Device n entities) ->
             (exists d, dict_get device (device_registry hass) = Some d /\
                        n = device_name_of d) /\
             (exists e0, In e0 (seen ++ [e]) /\ device_id e0 = Some device) /\
             entities <> []).
  { intros device n entities Hd.
    destruct (Hnamed device n entities Hd) as (Hn & (e0 & He0 & Hdev0) & Hne).
    split; [exact Hn |]. split; [| exact Hne].
    exists e0. split; [apply in_or_app; left; exact He0 | exact Hdev0]. }
  unfold states_step, file_entity in Hstep.
  destruct (device_id e) as [device |] eqn:Hdev; [| injection Hstep as <-; exact Hold].
  destruct (dict_get (entity_id e) (states hass)) as [st |];
    [| injection Hstep as <-; exact Hold].
  destruct (_get_state_history hass (entity_id e)) as [history | err]; [| discriminate].
  assert (Hlast : exists e0, In e0 (seen ++ [e]) /\ device_id e0 = Some device).
  { exists e. split; [apply in_or_app; right; left; reflexivity | exact Hdev]. }
  destruct (dict_get device dd) as [[n entities | t] |] eqn:Hd; [| discriminate |].
  - injection Hstep as <-. intros device' n' entities'.
    rewrite GetStatesSpec.dict_get_set.
    destruct (String.eqb device' device) eqn:E; [| apply Hold].
    apply String.eqb_eq in E. subst device'. intros [= <- <-].
    destruct (Hold device n entities Hd) as (Hn & _ & _).
    split; [exact Hn |]. split; [exact Hlast | apply dict_set_not_nil].
  - destruct (dict_get device (device_registry hass)) as [d |] eqn:Hreg; [| discriminate].
    injection Hstep as <-. intros device' n' entities'.
    rewrite GetStatesSpec.dict_get_set.
    destruct (String.eqb device' device) eqn:E; [| apply Hold].
    apply String.eqb_eq in E. subst device'. intros [= <- <-].
    split; [exists d; split; [exact Hreg | reflexivity] |].
    split; [exact Hlast | discriminate].
Qed.

Lemma states_loop_named (hass : Hass) (entities : list RegistryEntry) :
  forall (seen : list RegistryEntry) (dd dd' : dict top),
    states_loop hass entities dd = Ok dd' ->
    named_from hass seen dd -> named_from hass (seen ++ entities) dd'.
Proof.
  induction entities as [| e rest IH]; intros seen dd dd' Hloop Hnamed.
  - injection Hloop as <-. rewrite app_nil_r. exact Hnamed.
  - cbn in Hloop.
    destruct (states_step hass dd e) as [dd1 | err] eqn:Hstep; [| discriminate].
    replace (seen ++ e :: rest) with ((seen ++ [e]) ++ rest)
      by (rewrite <- app_assoc; reflexivity).
    exact (IH _ _ _ Hloop (states_step_named hass seen dd dd1 e Hstep Hnamed)).
Qed.

Lemma named_from_nil (hass : Hass) : named_from hass [] [].
Proof. intros device n entities H. discriminate. Qed.

(** X16. Every device of a snapshot is in the device registry and is named
    by its entry there: by the name the user gave it when there is one,
    and otherwise by [str()] of its default name (["None"] when it has
    none).  It holds at least one entity, and some entity of the registry
    belongs to it. *)
Theorem snapshot_device_names (C : Collaborators) (hass : Hass) (w w' : World)
    (snapshot : dict top) :
  _get_states C hass w = (Ok snapshot, w') ->
  forall device n entities,
    dict_get device snapshot = Some (Device n entities) ->
    entities <> [] /\
    (exists e, In e (entity_registry hass) /\ device_id e = Some device) /\
    exists d,
      dict_get device (device_registry hass) = Some d /\
      (forall by_user, name_by_user d = Some by_user -> n = by_user) /\
      (name_by_user d = None -> forall default, name d = Some default -> n = default) /\
      (name_by_user d = None -> name d = None -> n = "None").
Proof.
  intros Hrun device n entities Hd.
  destruct (GetStatesSpec.get_states_inv C hass w w' snapshot Hrun)
    as (dd & twin & Hloop & _ & ->).
  apply GetStatesSpec.snapshot_device in Hd as [_ Hd].
  destruct (states_loop_named hass (entity_registry hass) [] [] dd Hloop
              (named_from_nil hass) device n entities Hd)
    as ((d & Hreg & ->) & Hentity & Hne).
  split; [exact Hne |]. split; [exact Hentity |].
  exists d. split; [exact Hreg |]. unfold device_name_of.
  split; [| split].
  - intros by_user ->. reflexivity.
  - intros -> default ->. reflexivity.
  - intros -> ->. reflexivity.
Qed.

Lemma snapshot_device_names_witness :
  exists snapshot w' n1 n2 entities1 entities2,
    _get_states Samples.collaborators0 Samples.hass0 Samples.world_settled =
      (Ok snapshot, w') /\
    dict_get "dev1" snapshot = Some (Device n1 entities1) /\ n1 = "Thermometer" /\
    dict_get "dev2" snapshot = Some (Device n2 entities2) /\ n2 = "My lamp".
Proof.
  destruct (_get_states Samples.collaborators0 Samples.hass0 Samples.world_settled)
    as [[snapshot | e] w'] eqn:Hrun; [| vm_compute in Hrun; discriminate].
  pose proof (snapshot_device_names _ _ _ _ _ Hrun) as Hnames.
  assert (Hd : exists n1 n2 entities1 entities2,
             dict_get "dev1" snapshot = Some (Device n1 entities1) /\
             dict_get "dev2" snapshot = Some (Device n2 entities2)).
  { vm_compute in Hrun. injection Hrun as <- _. eexists _, _, _, _. split; reflexivity. }
  destruct Hd as (n1 & n2 & entities1 & entities2 & Hd1 & Hd2).
  exists snapshot, w', n1, n2, entities1, entities2.
  split; [reflexivity |]. split; [exact Hd1 |]. split; [| split; [exact Hd2 |]].
  - destruct (Hnames "dev1" n1 entities1 Hd1) as (_ & _ & d & Hreg & _ & Hdefault & _).
    vm_compute in Hreg. injection Hreg as <-. apply Hdefault; reflexivity.
  - destruct (Hnames "dev2" n2 entities2 Hd2) as (_ & _ & d & Hreg & Huser & _).
    vm_compute in Hreg. injection Hreg as <-. apply Huser. reflexivity.
Defined.

(** X17. In a snapshot, an entity of the registry is filed under its own
    device and under no other, and its record is complete: the units, the
    text of the current state, and as history the result of the range
    query over the last 24 hours without its first record.  (The registry
    is keyed by [entity_id].) *)
Theorem snapshot_entity_record (C : Collaborators) (hass : Hass) (w w' : World)
    (snapshot : dict top) :
  NoDup (map entity_id (entity_registry hass)) ->
  _get_states C hass w = (Ok snapshot, w') ->
  forall e device n entities info,
    In e (entity_registry hass) ->
    dict_get device snapshot = Some (Device n entities) ->
    dict_get (entity_id e) entities = Some info ->
    device_id e = Some device /\
    exists st raw,
      dict_get (entity_id e) (states hass) = Some st /\
      _state_changes_during_period hass (now hass - 24 * 3600) (now hass)
        (entity_id e) = Ok raw /\
      info = [("units", FStr (units_of st));
              ("state", FStr (state st));
              ("history", FHistory (map history_record (skipn 1 raw)))].
Proof.
  intros Hnd Hrun e device n entities info He Hd Hx.
  destruct (GetStatesSpec.get_states_inv C hass w w' snapshot Hrun)
    as (dd & twin & Hloop & _ & ->).
  destruct (GetStatesSpec.states_loop_invariant hass (entity_registry hass) [] [] dd
              Hloop (GetStatesSpec.recorded_from_nil hass)
              (GetStatesSpec.records_all_nil hass [])) as [[_ Hrec] _].
  cbn [app] in Hrec.
  apply GetStatesSpec.snapshot_device in Hd as [_ Hd].
  destruct (Hrec device n entities _ info Hd Hx)
    as (e' & st & history & He' & Hid & Hdev & Hst & Hhist & ->).
  assert (e' = e) as -> by exact (GetStatesSpec.same_entity_id _ e' e Hnd He' He Hid).
  split; [exact Hdev |].
  unfold _get_state_history in Hhist.
  destruct (_state_changes_during_period hass _ _ (entity_id e)) as [raw | err];
    [| discriminate].
  injection Hhist as <-. exists st, raw.
  split; [exact Hst |]. split; [reflexivity |].
  unfold entity_info_of. rewrite GetStatesSpec.history_loop_map. reflexivity.
Qed.

Lemma snapshot_entity_record_witness :
  exists snapshot w' n entities info,
    _get_states Samples.collaborators0 Samples.hass0 Samples.world_settled =
      (Ok snapshot, w') /\
    dict_get "dev1" snapshot = Some (Device n entities) /\
    dict_get "sensor.temp" entities = Some info /\
    info = [("units", FStr "C"); ("state", FStr "v2");
            ("history", FHistory [[("state", "v1"); ("date", "t1")];
                                  [("state", "v2"); ("date", "t2")]])].
Proof.
  destruct (_get_states Samples.collaborators0 Samples.hass0 Samples.world_settled)
    as [[snapshot | err] w'] eqn:Hrun; [| vm_compute in Hrun; discriminate].
  assert (Hnd : NoDup (map entity_id (entity_registry Samples.hass0))).
  { apply (bool_decide_unpack _). vm_compute. reflexivity. }
  pose proof (snapshot_entity_record _ _ _ _ _ Hnd Hrun
                {| entity_id := "sensor.temp"; device_id := Some "dev1" |} "dev1")
    as Hrecord.
  assert (Hd : exists n entities info,
             dict_get "dev1" snapshot = Some (Device n entities) /\
             dict_get "sensor.temp" entities = Some info).
  { vm_compute in Hrun. injection Hrun as <- _. eexists _, _, _. split; reflexivity. }
  destruct Hd as (n & entities & info & Hd & Hx).
  exists snapshot, w', n, entities, info.
  split; [reflexivity |]. split; [exact Hd |]. split; [exact Hx |].
  destruct (Hrecord n entities info (or_introl eq_refl) Hd Hx)
    as (_ & st & raw & Hst & Hraw & ->).
  vm_compute in Hst. injection Hst as <-.
  vm_compute in Hraw. injection Hraw as <-. reflexivity.
Defined.

Lemma dict_set_new {V} (k : string) (v : V) (d : dict V) :
  dict_get k d = None -> dict_set k v d = d ++ [(k, v)].
Proof.
  induction d as [| [k0 v0] d IH]; cbn; [reflexivity |].
  destruct (String.eqb k k0); [discriminate |].
  intros H. rewrite (IH H). reflexivity.
Qed.

(** X18. When no entity belongs to a device called ["twin_id"], the
    snapshot is the device buckets followed by the key ["twin_id"]: the
    twin identifier is the last item, and everything before it is a
    device. *)
Theorem snapshot_ends_with_twin (C : Collaborators) (hass : Hass) (w w' : World)
    (snapshot : dict top) :
  (forall e, In e (entity_registry hass) -> device_id e <> Some "twin_id") ->
  _get_states C hass w = (Ok snapshot, w') ->
  exists devices twin,
    twin_id hass = Some twin /\
    snapshot = devices ++ [("twin_id", Twin twin)] /\
    forall k v, In (k, v) devices ->
                k <> "twin_id" /\ exists n entities, v = Device n entities.
Proof.
  intros Hres Hrun.
  destruct (GetStatesSpec.get_states_inv C hass w w' snapshot Hrun)
    as (dd & twin & Hloop & Htwin & ->).
  destruct (GetStatesSpec.states_loop_invariant hass (entity_registry hass) [] [] dd
              Hloop (GetStatesSpec.recorded_from_nil hass)
              (GetStatesSpec.records_all_nil hass [])) as [[Hnotwin _] _].
  pose proof (states_loop_named hass (entity_registry hass) [] [] dd Hloop
                (named_from_nil hass)) as Hnamed.
  cbn [app] in Hnamed.
  assert (Hnd : List.NoDup (dict_keys dd)).
  { apply (GetStatesSpec.states_loop_keys hass _ [] dd Hloop). constructor. }
  assert (Hfree : dict_get "twin_id" dd = None).
  { destruct (dict_get "twin_id" dd) as [[n entities | t] |] eqn:Hd; [| | reflexivity].
    - destruct (Hnamed _ n entities Hd) as (_ & (e & He & Hdev) & _).
      exfalso. exact (Hres e He Hdev).
    - exfalso. exact (Hnotwin _ t Hd). }
  exists dd, twin. split; [exact Htwin |].
  split; [apply dict_set_new; exact Hfree |].
  intros k v Hin.
  pose proof (GetStatesSpec.In_dict_get k v dd Hnd Hin) as Hget.
  split; [intros ->; congruence |].
  destruct v as [n entities | t]; [eauto |].
  exfalso. exact (Hnotwin k t Hget).
Qed.

Lemma snapshot_ends_with_twin_witness :
  exists snapshot w' devices,
    _get_states Samples.collaborators0 Samples.hass0 Samples.world_settled =
      (Ok snapshot, w') /\
    snapshot = devices ++ [("twin_id", Twin "7")].
Proof.
  destruct (_get_states Samples.collaborators0 Samples.hass0 Samples.world_settled)
    as [[snapshot | err] w'] eqn:Hrun; [| vm_compute in Hrun; discriminate].
  assert (Hres : forall e, In e (entity_registry Samples.hass0) ->
                           device_id e <> Some "twin_id").
  { intros e He. cbn in He.
    destruct He as [<- | [<- | [<- | [<- | []]]]]; discriminate. }
  destruct (snapshot_ends_with_twin _ _ _ _ _ Hres Hrun)
    as (devices & twin & Htwin & Hsnap & _).
  injection Htwin as <-.
  exists snapshot, w', devices. split; [reflexivity | exact Hsnap].
Defined.

(** *** Events a computation never makes *)

Section Silent.
Variable p : event -> bool.

Lemma silent_same_trace {A} (m : M A) :
  (forall w, trace (snd (m w)) = trace w) -> silent p m.
Proof.
  intros H w. exists []. rewrite H, app_nil_r. split; reflexivity.
Qed.

Lemma silent_ret {A} (a : A) : silent p (ret a).
Proof. apply silent_same_trace. reflexivity. Qed.

Lemma silent_raise {A} (e : exn) : silent p (@raise A e).
Proof. apply silent_same_trace. reflexivity. Qed.

Lemma silent_bind {A B} (m : M A) (f : A -> M B) :
  silent p m -> (forall a, silent p (f a)) -> silent p (bind m f).
Proof.
  intros Hm Hf w. unfold bind.
  destruct (Hm w) as (evs & Htr & Hc).
  destruct (m w) as [[a | e] w1]; cbn [snd] in *.
  - destruct (Hf a w1) as (evs' & Htr' & Hc').
    exists (evs ++ evs').
    rewrite Htr', Htr, <- app_assoc, GetStatesSpec.count_app, Hc, Hc'.
    split; reflexivity.
  - exists evs. split; assumption.
Qed.

Lemma silent_try_except {A} (body : M A) (handler : exn -> M A) :
  silent p body -> (forall e, silent p (handler e)) -> silent p (try_except body handler).
Proof.
  intros Hm Hh w. unfold try_except.
  destruct (Hm w) as (evs & Htr & Hc).
  destruct (body w) as [[a | e] w1]; cbn [snd] in *.
  - exists evs. split; assumption.
  - destruct (Hh e w1) as (evs' & Htr' & Hc').
    exists (evs ++ evs').
    rewrite Htr', Htr, <- app_assoc, GetStatesSpec.count_app, Hc, Hc'.
    split; reflexivity.
Qed.

Lemma silent_emit (ev : event) : p ev = false -> silent p (emit ev).
Proof.
  intros Hev w. exists [ev]. split; [reflexivity |].
  unfold count. cbn. rewrite Hev. reflexivity.
Qed.

Lemma silent_lift {A} (r : result string A) : silent p (lift r).
Proof. destruct r; [apply silent_ret | apply silent_raise]. Qed.

Lemma silent_lift_r {A} (r : result exn A) : silent p (lift_r r).
Proof. destruct r; [apply silent_ret | apply silent_raise]. Qed.

Lemma silent_ask {A} (f : World -> result string A) : silent p (ask f).
Proof.
  apply silent_same_trace. intros w. unfold ask. destruct (f w); reflexivity.
Qed.

Lemma silent_bound {A} (name : string) (v : option A) : silent p (bound name v).
Proof. destruct v; [apply silent_ret | apply silent_raise]. Qed.

Lemma silent_item {A} (key : string) (v : option A) : silent p (item key v).
Proof. destruct v; [apply silent_ret | apply silent_raise]. Qed.

Lemma silent_os_listdir (where_ : folder) : silent p (os_listdir where_).
Proof. apply silent_same_trace. reflexivity. Qed.

Lemma silent_read_file (where_ : folder) (file : string) :
  silent p (read_file where_ file).
Proof.
  apply silent_same_trace. intros w. unfold read_file.
  destruct (dict_get file (files_of where_ w)) as [[content |] |]; reflexivity.
Qed.

Lemma silent_open_w (where_ : folder) (file : string) : silent p (open_w where_ file).
Proof.
  apply silent_same_trace. intros w. unfold open_w.
  destruct (dict_get file (files_of where_ w)) as [[content |] |];
    destruct where_; reflexivity.
Qed.

Lemma silent_f_write (where_ : folder) (file content : string) :
  silent p (f_write where_ file content).
Proof.
  apply silent_same_trace. intros w. destruct where_; reflexivity.
Qed.

Lemma silent_os_remove (where_ : folder) (file : string) :
  p (OsRemove where_ file) = false -> silent p (os_remove where_ file).
Proof.
  intros Hp. apply silent_bind; [apply silent_emit; exact Hp | intros _].
  apply silent_same_trace. intros w.
  destruct (dict_get file (files_of where_ w)) as [[content |] |];
    destruct where_; reflexivity.
Qed.

Lemma silent_clear_loop (files : list string) :
  (forall file, p (OsRemove DATA_PATH file) = false) -> silent p (clear_loop files).
Proof.
  intros Hp. induction files as [| datafile rest IH]; [apply silent_ret |].
  apply silent_bind; [| intros _; exact IH].
  destruct (String.eqb _ _); [apply silent_os_remove, Hp | apply silent_ret].
Qed.

End Silent.

Ltac silent_steps :=
  repeat first
    [ apply silent_ret | apply silent_raise | apply silent_lift | apply silent_lift_r
    | apply silent_ask | apply silent_bound | apply silent_item
    | apply silent_os_listdir | apply silent_read_file | apply silent_open_w
    | apply silent_f_write
    | apply silent_clear_loop; intros ?; reflexivity
    | apply silent_emit; reflexivity
    | apply silent_bind; [| intros ?]
    | apply silent_try_except; [| intros ?] ].

(** The detector logs its start and then runs a computation that always
    returns and makes no event of the telemetry publication. *)
Lemma detector_shape (p : event -> bool) (C : Collaborators) (hass : Hass) :
  (forall ev, p ev = true -> is_telemetry_event ev = true) ->
  exists rest : M unit,
    _get_dashboard_and_services C hass =
      bind (log_debug "Start getting info about dashboard and services")
           (fun _ => rest) /\
    silent p rest /\ returns rest.
Proof.
  intros Hp.
  assert (Hemit : forall ev, is_telemetry_event ev = false -> silent p (emit ev)).
  { intros ev Hev. apply silent_emit.
    destruct (p ev) eqn:E; [| reflexivity]. apply Hp in E. congruence. }
  eexists. split; [reflexivity |]. split.
  - unfold get_descriptions, get_services_and_dashboard,
      load_current_config, change_config, log_debug, log_error.
    repeat first [ apply Hemit; reflexivity | progress silent_steps ].
    + destruct (services_loop _ _ _) as [services_list [e |]]; unfold log_error;
        repeat first [ apply Hemit; reflexivity | progress silent_steps ].
    + apply silent_same_trace. reflexivity.
    + destruct (_ || _); [| apply silent_ret].
      apply silent_bind.
      * destruct (config_differs _ _);
          unfold encrypt_new_config, read_cached_blob, log_debug;
          repeat first [ apply Hemit; reflexivity | progress silent_steps ].
      * intros blob. unfold publish_config, write_data_to_file, log_debug.
        repeat first [ apply Hemit; reflexivity | progress silent_steps ].
        -- apply silent_same_trace. reflexivity.
        -- apply silent_same_trace. intros w.
           destruct (ipfs_hash_config w); reflexivity.
  - apply GetStatesSpec.returns_bind;
      [apply GetStatesSpec.get_descriptions_returns | intros descriptions].
    apply GetStatesSpec.returns_bind;
      [apply GetStatesSpec.get_services_and_dashboard_returns | intros sd].
    apply GetStatesSpec.returns_bind;
      [apply GetStatesSpec.load_current_config_returns | intros current_config].
    apply GetStatesSpec.returns_try_except. intros e. apply GetStatesSpec.returns_emit.
Qed.

Lemma telemetry_only (ev : event) :
  is_telemetry_event ev = true -> is_telemetry_event ev = true.
Proof. exact (fun H => H). Qed.

(** The detector returns, its first event is the line of its start, and it
    makes no event of the telemetry publication. *)
Lemma detector_starts (C : Collaborators) (hass : Hass) (w : World) :
  exists w' evs,
    _get_dashboard_and_services C hass w = (Ok tt, w') /\
    trace w' =
      trace w ++ LogDebug "Start getting info about dashboard and services" :: evs /\
    count is_telemetry_event evs = 0.
Proof.
  destruct (detector_shape is_telemetry_event C hass telemetry_only)
    as (rest & -> & Hsil & Hret).
  unfold bind, log_debug, emit.
  set (w1 := set_trace _ w).
  destruct (Hret w1) as ([] & w' & Hrun). destruct (Hsil w1) as (evs & Htr & Hc).
  rewrite Hrun in Htr. cbn [snd] in Htr.
  exists w', evs. split; [exact Hrun |]. split; [| exact Hc].
  rewrite Htr. unfold w1. cbn [trace set_trace]. rewrite <- app_assoc. reflexivity.
Qed.

Lemma silent_create_keypair (p : event -> bool) (C : Collaborators) (hass : Hass) :
  (forall ev, p ev = true -> is_telemetry_event ev = true) ->
  silent p (create_keypair C hass).
Proof.
  intros Hp.
  assert (Hemit : forall ev, is_telemetry_event ev = false -> silent p (emit ev)).
  { intros ev Hev. apply silent_emit.
    destruct (p ev) eqn:E; [| reflexivity]. apply Hp in E. congruence. }
  unfold create_keypair, create_keypair_body, create_keypair_handler, _clear_files,
    log_error.
  repeat first [ apply Hemit; reflexivity | progress silent_steps ].
  apply silent_clear_loop. intros file.
  destruct (p (OsRemove DATA_PATH file)) eqn:E; [| reflexivity].
  apply Hp in E. discriminate.
Qed.

(** *** Cycles that publish no telemetry *)

(** The job when the upload phase raises, whatever the first [try] did:
    the error is caught and logged, and the events of the cycle are those
    of the first [try], those of the upload phase and the line of the
    error. *)
Lemma job_when_upload_raises (C : Collaborators) (hass : Hass) (w : World) :
  (forall sender_kp w1,
     create_keypair C hass w = (Ok sender_kp, w1) ->
     exists e w2, upload_telemetry C hass sender_kp w1 = (Raise e, w2)) ->
  exists sender_kp w1 e w2 w' evs1,
    create_keypair C hass w = (Ok sender_kp, w1) /\
    upload_telemetry C hass sender_kp w1 = (Raise e, w2) /\
    get_and_send_data C hass w = (Ok tt, w') /\
    trace w1 = trace w ++ evs1 /\
    count is_telemetry_event evs1 = 0 /\
    trace w' = trace w2 ++ [LogError "Exception in get_and_send_data" e].
Proof.
  intros Hup.
  destruct (GetStatesSpec.create_keypair_returns C hass w) as (sender_kp & w1 & Hkp).
  destruct (silent_create_keypair is_telemetry_event C hass telemetry_only w)
    as (evs1 & Htr1 & Hc1).
  rewrite Hkp in Htr1. cbn [snd] in Htr1.
  destruct (Hup sender_kp w1 Hkp) as (e & w2 & Hraise).
  exists sender_kp, w1, e, w2,
    (set_trace (trace w2 ++ [LogError "Exception in get_and_send_data" e]) w2), evs1.
  split; [exact Hkp |]. split; [exact Hraise |]. split; [| auto].
  unfold get_and_send_data, bind. rewrite Hkp. unfold try_except.
  rewrite (GetStatesSpec.send_data_upload_raises C hass sender_kp w1 w2 e Hraise).
  reflexivity.
Qed.

(** X19. If an entity with a current state belongs to a device that the
    device registry does not know, no snapshot is returned: [_get_states]
    raises, [get_and_send_data] catches and logs the error, and the cycle
    stages, uploads and points to no telemetry. *)
Theorem unknown_device_stops_telemetry (C : Collaborators) (hass : Hass) (w : World)
    (e : RegistryEntry) (device : string) :
  In e (entity_registry hass) ->
  device_id e = Some device ->
  dict_get (entity_id e) (states hass) <> None ->
  dict_get device (device_registry hass) = None ->
  (forall w1, exists err w2, _get_states C hass w1 = (Raise err, w2)) /\
  exists w' err,
    get_and_send_data C hass w = (Ok tt, w') /\
    count is_telemetry_event (events_since w w') = 0 /\
    exists evs,
      events_since w w' = evs ++ [LogError "Exception in get_and_send_data" err].
Proof.
  intros He Hdev Hst Hreg.
  assert (Hloop : exists err, states_loop hass (entity_registry hass) [] = Raise err).
  { destruct (states_loop hass (entity_registry hass) []) as [dd | err] eqn:Hloop;
      [| eauto]. exfalso.
    destruct (GetStatesSpec.states_loop_invariant hass (entity_registry hass) [] [] dd
                Hloop (GetStatesSpec.recorded_from_nil hass)
                (GetStatesSpec.records_all_nil hass [])) as [_ Hall].
    destruct (dict_get (entity_id e) (states hass)) as [st |] eqn:Est; [| contradiction].
    destruct (Hall e device st He Hdev Est) as (n & entities & info & Hd & _).
    destruct (states_loop_named hass (entity_registry hass) [] [] dd Hloop
                (named_from_nil hass) device n entities Hd) as ((d & Hd' & _) & _).
    congruence. }
  destruct Hloop as [err Hloop].
  assert (Hget : forall w1, exists w2 evs,
             _get_states C hass w1 = (Raise err, w2) /\
             trace w2 = trace w1 ++ evs /\ count is_telemetry_event evs = 0).
  { intros w1. destruct (detector_starts C hass w1) as (w2 & evs & Hrun & Htr & Hc).
    exists w2, (LogDebug "Start getting info about dashboard and services" :: evs).
    split; [| split; [exact Htr | exact Hc]].
    unfold _get_states, bind. rewrite Hrun, Hloop. reflexivity. }
  assert (Hup : forall sender_kp w1, exists e0 w2,
             upload_telemetry C hass sender_kp w1 = (Raise e0, w2)).
  { intros sender_kp w1. destruct (Hget w1) as (w2 & _ & Hrun & _).
    exists err, w2. unfold upload_telemetry, bind. rewrite Hrun. reflexivity. }
  split.
  - intros w1. destruct (Hget w1) as (w2 & _ & Hrun & _). eauto.
  - destruct (job_when_upload_raises C hass w (fun kp w1 _ => Hup kp w1))
      as (sender_kp & w1 & e0 & w2 & w' & evs1 & _ & Hraise & Hjob & Htr1 & Hc1 & Htr').
    destruct (Hget w1) as (w2' & evs2 & Hrun & Htr2 & Hc2).
    assert (Hsame : upload_telemetry C hass sender_kp w1 = (Raise err, w2'))
      by (unfold upload_telemetry, bind; rewrite Hrun; reflexivity).
    rewrite Hraise in Hsame. injection Hsame as -> ->.
    assert (Hev : events_since w w' =
                  (evs1 ++ evs2) ++ [LogError "Exception in get_and_send_data" err]).
    { apply GetStatesSpec.events_since_trace.
      rewrite Htr', Htr2, Htr1, <- !app_assoc. reflexivity. }
    exists w', err. split; [exact Hjob |]. split; [| eauto].
    rewrite Hev, !GetStatesSpec.count_app, Hc1, Hc2. reflexivity.
Qed.

Lemma unknown_device_stops_telemetry_witness :
  exists w' err,
    get_and_send_data Samples.collaborators0 Samples.hass_unknown_device
      Samples.world_settled = (Ok tt, w') /\
    count is_telemetry_event (events_since Samples.world_settled w') = 0 /\
    exists evs,
      events_since Samples.world_settled w' =
        evs ++ [LogError "Exception in get_and_send_data" err].
Proof.
  apply (unknown_device_stops_telemetry Samples.collaborators0
           Samples.hass_unknown_device Samples.world_settled
           {| entity_id := "sensor.temp"; device_id := Some "dev1" |} "dev1").
  - cbn. auto.
  - reflexivity.
  - discriminate.
  - reflexivity.
Defined.

(** X20. Without a controller seed in [hass.data] the first [try] leaves
    [sender_kp] unbound.  The cycle still runs the configuration detector,
    but it stages, uploads and points to no telemetry: the second [try]
    ends in an error, which is logged as the last event. *)
Theorem missing_seed_stops_telemetry (C : Collaborators) (hass : Hass) (w : World) :
  admin_seed hass = None ->
  exists w' err,
    get_and_send_data C hass w = (Ok tt, w') /\
    count is_telemetry_event (events_since w w') = 0 /\
    In (LogDebug "Start getting info about dashboard and services") (events_since w w') /\
    exists evs,
      events_since w w' = evs ++ [LogError "Exception in get_and_send_data" err].
Proof.
  intros Hseed.
  (* the first [try] leaves [sender_kp] unbound *)
  assert (Hkp : forall sender_kp w1,
             create_keypair C hass w = (Ok sender_kp, w1) -> sender_kp = None).
  { intros sender_kp w1. unfold create_keypair, try_except, create_keypair_body.
    unfold bind at 1. rewrite Hseed.
    destruct (_clear_files w) as [[[] | e] w0]; cbn; intros [= <- _]; reflexivity. }
  (* the upload phase raises, after the detector has started *)
  assert (Hup : forall w1, exists e w2 evs,
             upload_telemetry C hass None w1 = (Raise e, w2) /\
             trace w2 = trace w1 ++
               LogDebug "Start getting info about dashboard and services" :: evs /\
             count is_telemetry_event evs = 0).
  { intros w1. destruct (detector_starts C hass w1) as (w2 & evs & Hrun & Htr & Hc).
    unfold upload_telemetry, _get_states.
    unfold bind at 1. unfold bind at 1. rewrite Hrun.
    destruct (states_loop hass (entity_registry hass) []) as [dd | err]; cbn.
    - destruct (twin_id hass) as [twin |]; cbn.
      + destruct (json_dumps C _) as [data | what]; cbn.
        * eexists _, _, (evs ++ [_]). split; [reflexivity |].
          cbn [trace set_trace]. rewrite Htr, <- app_assoc. cbn [app].
          split; [reflexivity |].
          rewrite GetStatesSpec.count_app, Hc. reflexivity.
        * eexists _, _, evs. split; [reflexivity |]. split; assumption.
      + eexists _, _, evs. split; [reflexivity |]. split; assumption.
    - eexists _, _, evs. split; [reflexivity |]. split; assumption. }
  destruct (job_when_upload_raises C hass w)
    as (sender_kp & w1 & e0 & w2 & w' & evs1 & Hkp1 & Hraise & Hjob & Htr1 & Hc1 & Htr').
  { intros sender_kp w1 Hkp1. rewrite (Hkp sender_kp w1 Hkp1).
    destruct (Hup w1) as (e & w2 & _ & Hraise & _). eauto. }
  rewrite (Hkp sender_kp w1 Hkp1) in Hraise.
  destruct (Hup w1) as (e & w2' & evs2 & Hraise' & Htr2 & Hc2).
  rewrite Hraise in Hraise'. injection Hraise' as <- <-.
  assert (Hev : events_since w w' =
                (evs1 ++ LogDebug "Start getting info about dashboard and services"
                         :: evs2) ++ [LogError "Exception in get_and_send_data" e0]).
  { apply GetStatesSpec.events_since_trace.
    rewrite Htr', Htr2, Htr1, <- !app_assoc. reflexivity. }
  exists w', e0. split; [exact Hjob |]. split; [| split; [| eauto]].
  - rewrite Hev, !GetStatesSpec.count_app, Hc1.
    change (?a :: ?l) with ([a] ++ l) at 1.
    rewrite GetStatesSpec.count_app, Hc2. reflexivity.
  - rewrite Hev. apply in_or_app. left. apply in_or_app. right. left. reflexivity.
Qed.

Lemma missing_seed_stops_telemetry_witness :
  exists w',
    get_and_send_data Samples.collaborators0 Samples.hass_no_seed
      Samples.world_settled = (Ok tt, w') /\
    count is_telemetry_event (events_since Samples.world_settled w') = 0.
Proof.
  destruct (missing_seed_stops_telemetry Samples.collaborators0 Samples.hass_no_seed
              Samples.world_settled eq_refl) as (w' & err & Hrun & Hc & _).
  exists w'. split; assumption.
Defined.

(** *** A cleanup that is cut short *)

Lemma clear_loop_stops (file : string) (after : dict node) (b : dict node) :
  is_telemetry file = true ->
  forall (done : dict node) (w : World),
    data_files w = done ++ b ++ (file, Directory) :: after ->
    forallb kept done = true ->
    (forall f, In (f, Directory) b -> is_telemetry f = false) ->
    exists w',
      clear_loop (dict_keys (b ++ (file, Directory) :: after)) w =
        (Raise (OSError file), w') /\
      data_files w' = done ++ List.filter kept b ++ (file, Directory) :: after /\
      config_files w' = config_files w.
Proof.
  intros Hfile.
  induction b as [| [k nd] b IH]; intros done w Hw Hdone Hdirs.
  - cbn [app dict_keys map fst clear_loop List.filter] in *.
    unfold bind at 1. fold (is_telemetry file). rewrite Hfile.
    unfold os_remove, bind, emit. cbn [files_of data_files set_trace].
    rewrite Hw, (GetStatesSpec.dict_get_app_kept done _ file Hdone Hfile).
    cbn [dict_get]. rewrite String.eqb_refl.
    eexists. split; [reflexivity |]. cbn. split; [exact Hw | reflexivity].
  - cbn [app dict_keys map fst clear_loop] in *.
    unfold bind at 1. fold (is_telemetry k).
    destruct (is_telemetry k) eqn:Hk.
    + destruct nd as [content |];
        [| specialize (Hdirs k (or_introl eq_refl)); congruence].
      unfold os_remove, bind, emit. cbn [files_of data_files set_trace].
      rewrite Hw, (GetStatesSpec.dict_get_app_kept done _ k Hdone Hk).
      cbn [dict_get]. rewrite String.eqb_refl.
      rewrite (GetStatesSpec.dict_del_app_kept done _ k Hdone Hk).
      cbn [dict_del]. rewrite String.eqb_refl.
      destruct (IH done
                  (set_files DATA_PATH (done ++ b ++ (file, Directory) :: after)
                     (set_trace (trace w ++ [OsRemove DATA_PATH k]) w))
                  eq_refl Hdone) as (w' & Hrun & Hd & Hc).
      { intros f Hf. apply Hdirs. right. exact Hf. }
      exists w'. split; [exact Hrun |]. split; [| exact Hc].
      rewrite Hd. cbn [List.filter]. rewrite GetStatesSpec.kept_entry, Hk. reflexivity.
    + unfold ret at 1.
      destruct (IH (done ++ [(k, nd)]) w) as (w' & Hrun & Hd & Hc).
      { rewrite Hw, <- app_assoc. reflexivity. }
      { rewrite forallb_app, Hdone. cbn [forallb].
        rewrite GetStatesSpec.kept_entry, Hk. reflexivity. }
      { intros f Hf. apply Hdirs. right. exact Hf. }
      exists w'. split; [exact Hrun |]. split; [| exact Hc].
      rewrite Hd, <- app_assoc. cbn [List.filter app].
      rewrite GetStatesSpec.kept_entry, Hk. reflexivity.
Qed.

(** X21. [_clear_files] stops at the first entry with the ["data"] prefix
    that [os.remove] cannot remove, a subdirectory: it raises there, the
    telemetry files listed before it are gone, and everything listed after
    it, telemetry files included, stays. *)
Theorem clear_files_stops_at_directory (w : World) (before after : dict node)
    (file : string) :
  data_files w = before ++ (file, Directory) :: after ->
  is_telemetry file = true ->
  (forall f, In (f, Directory) before -> is_telemetry f = false) ->
  exists w',
    _clear_files w = (Raise (OSError file), w') /\
    data_files w' = List.filter kept before ++ (file, Directory) :: after /\
    config_files w' = config_files w.
Proof.
  intros Hw Hfile Hdirs.
  unfold _clear_files, bind, os_listdir. cbn [files_of]. rewrite Hw.
  apply (clear_loop_stops file after before Hfile [] w Hw eq_refl Hdirs).
Qed.

Lemma clear_files_stops_at_directory_witness :
  exists w',
    _clear_files Samples.world_blocked = (Raise (OSError "data_dir"), w') /\
    data_files w' =
      [("notes", File "n"); ("data_dir", Directory); ("data_2", File "b")].
Proof.
  destruct (clear_files_stops_at_directory Samples.world_blocked
              [("notes", File "n"); ("data_1", File "a")] [("data_2", File "b")]
              "data_dir" eq_refl eq_refl) as (w' & Hrun & Hd & _).
  - intros f [H | [H | []]]; discriminate.
  - exists w'. split; [exact Hrun | exact Hd].
Defined.

(** *** A cycle that goes through *)

Lemma filter_kept_all (d : dict node) : forallb kept (List.filter kept d) = true.
Proof.
  induction d as [| en d IH]; cbn; [reflexivity |].
  destruct (kept en) eqn:E; cbn; [rewrite E |]; exact IH.
Qed.

Lemma telemetry_name_is_new (d : dict node) (file : string) :
  forallb kept d = true -> is_telemetry file = true -> dict_get file d = None.
Proof.
  intros Hd Hfile.
  pose proof (GetStatesSpec.dict_get_app_kept d [] file Hd Hfile) as H.
  rewrite app_nil_r in H. exact H.
Qed.

Lemma staged_telemetry_name (suffix : string) :
  is_telemetry (String.append "data" suffix) = true.
Proof. unfold is_telemetry, str_take. cbn. destruct suffix; reflexivity. Qed.

Section Success.
Variable C : Collaborators.
Variable hass : Hass.

Ltac cycle_step :=
  cbn [files_of config_files set_trace set_files set_ipfs_hash_config trace
       data_files ipfs_hash_config lift ret item bound marker].

Ltac same_world :=
  repeat match goal with x := _ |- _ => subst x end;
  unfold advanced;
  cbn [firstn files_of config_files set_trace set_files set_ipfs_hash_config trace
       data_files ipfs_hash_config];
  rewrite ?GetStatesSpec.dict_set_set, <- ?app_assoc;
  reflexivity.

Ltac asked_in W' :=
  match goal with
  | |- context [encrypt_message _ ?W _ _ _] => replace W with W' by same_world
  | |- context [staging_suffix _ ?W _] => replace W with W' by same_world
  | |- context [add_telemetry_to_ipfs _ ?W _] => replace W with W' by same_world
  | |- context [send_datalog_states _ ?W _] => replace W with W' by same_world
  end.

(** The first [try] when the cleanup goes through. *)
Lemma create_keypair_ok (seed : string) (kp : Keypair) (w : World) :
  let cleaned := snd (_clear_files w) in
  let keyed := set_trace (trace cleaned ++ [CallAccount seed]) cleaned in
  admin_seed hass = Some seed ->
  (forall f, In (f, Directory) (data_files w) -> is_telemetry f = false) ->
  Account C keyed seed = Ok kp ->
  create_keypair C hass w = (Ok (Some kp), keyed) /\
  data_files keyed = List.filter kept (data_files w) /\
  exists evs, trace keyed = trace w ++ evs /\ count is_telemetry_event evs = 0.
Proof.
  intros cleaned keyed Hseed Hdirs HA.
  destruct (silent_create_keypair is_telemetry_event C hass telemetry_only w)
    as (evs & Htr & Hc).
  destruct (GetStatesSpec.clear_loop_spec (data_files w) [] w eq_refl eq_refl)
    as (r & w0 & Hrun & _ & _ & _ & Hok & Htot).
  pose proof (Htot Hdirs) as Hr. subst r. specialize (Hok eq_refl). cbn [app] in Hok.
  assert (Hclean : _clear_files w = (Ok tt, w0)).
  { unfold _clear_files, bind, os_listdir. cbn [files_of]. exact Hrun. }
  assert (Hw0 : cleaned = w0) by (unfold cleaned; rewrite Hclean; reflexivity).
  assert (Hkp : create_keypair C hass w = (Ok (Some kp), keyed)).
  { unfold create_keypair, try_except, create_keypair_body.
    unfold bind at 1. rewrite Hclean, Hseed. unfold bind, emit, ask. cycle_step.
    fold (set_trace (trace w0 ++ [CallAccount seed]) w0).
    rewrite <- Hw0. fold keyed. rewrite HA. reflexivity. }
  split; [exact Hkp |]. split.
  - unfold keyed. cbn [data_files set_trace]. rewrite Hw0. exact Hok.
  - rewrite Hkp in Htr. cbn [snd] in Htr. exists evs. split; [exact Htr | exact Hc].
Qed.

(** The second [try] on a staging directory without telemetry files. *)
Lemma send_data_ok (kp : Keypair) (twin data suffix blob h : string) (dd : dict top)
    (w : World) :
  let detected := after_cycle C hass w in
  let filename := String.append "data" suffix in
  let staged := dict_set filename (File blob) (data_files detected) in
  let telemetry :=
    [LogDebug "Got states to send datalog"; CallEncrypt data;
     CallWriteData DATA_PATH false blob; CallAddTelemetry filename; CallSendDatalog h] in
  twin_id hass = Some twin ->
  states_loop hass (entity_registry hass) [] = Ok dd ->
  forallb kept (data_files w) = true ->
  json_dumps C (dict_set "twin_id" (Twin twin) dd) = Ok data ->
  encrypt_message C (advanced detected DATA_PATH (data_files detected) (firstn 2 telemetry))
    data kp (public_key kp) = Ok blob ->
  staging_suffix C (advanced detected DATA_PATH (data_files detected) (firstn 3 telemetry))
    false = Ok suffix ->
  add_telemetry_to_ipfs C (advanced detected DATA_PATH staged (firstn 4 telemetry))
    filename = Ok h ->
  send_datalog_states C (advanced detected DATA_PATH staged telemetry) h = Ok tt ->
  send_data C hass (Some kp) w = (Ok tt, advanced detected DATA_PATH staged telemetry) /\
  staged = data_files w ++ [(filename, File blob)] /\
  exists evs, trace detected = trace w ++ evs /\ count is_telemetry_event evs = 0.
Proof.
  intros detected filename staged telemetry Htwin Hloop Hkept Hdumps HE HS HU HL.
  destruct (detector_starts C hass w) as (w3 & evs & Hrun & Htr & Hc).
  pose proof (keeps_files_detector C hass w) as (Hdf & _ & _).
  assert (Hw3 : detected = w3) by (unfold detected, after_cycle; rewrite Hrun; reflexivity).
  fold (after_cycle C hass w) in Hdf. fold detected in Hdf.
  assert (Hnew : dict_get filename (data_files detected) = None).
  { rewrite Hdf.
    apply (telemetry_name_is_new (data_files w) _ Hkept (staged_telemetry_name _)). }
  split; [| split].
  - unfold send_data, upload_telemetry, _get_states.
    unfold bind at 1. unfold bind at 1. unfold bind at 1. unfold bind at 1.
    rewrite Hrun, Hloop, Htwin. cbn [lift_r item ret]. rewrite <- Hw3.
    unfold write_data_to_file, bind, ret, log_debug, emit, open_w, f_write, ask, bound.
    cbv beta iota. rewrite Hdumps. cycle_step.
    asked_in (advanced detected DATA_PATH (data_files detected) (firstn 2 telemetry)).
    rewrite HE. cycle_step.
    asked_in (advanced detected DATA_PATH (data_files detected) (firstn 3 telemetry)).
    rewrite HS. cycle_step.
    change (data_files (advanced detected DATA_PATH (data_files detected)
                          (firstn 3 telemetry))) with (data_files detected).
    fold filename. rewrite Hnew. cycle_step.
    asked_in (advanced detected DATA_PATH staged (firstn 4 telemetry)).
    rewrite HU. cycle_step.
    asked_in (advanced detected DATA_PATH staged telemetry).
    rewrite HL. reflexivity.
  - unfold staged. rewrite (dict_set_new _ _ _ Hnew), Hdf. reflexivity.
  - exists (LogDebug "Start getting info about dashboard and services" :: evs).
    rewrite Hw3. split; [exact Htr |].
    change (?a :: ?l) with ([a] ++ l). rewrite GetStatesSpec.count_app, Hc. reflexivity.
Qed.

(** X22. A cycle that goes through.  The snapshot can be collected, the
    staging directory has no subdirectory with the prefix, and each
    collaborator of the telemetry answers in the world of its call:
    [Account] makes the keypair of the seed once the cleanup is done,
    [json.dumps] serialises the snapshot, and [encrypt_message] answers
    [blob] for that text, the keypair and its own public key.  Then the
    cycle returns with the outcome given whole: what [encrypt_message]
    answered is the content of the one new file of the staging directory,
    beside the entries without the prefix; that file is the one uploaded;
    what [add_telemetry_to_ipfs] answered is what [send_datalog_states]
    is called with, as the last event, and no event of the telemetry
    comes before the five of the publication. *)
Theorem successful_cycle (seed twin data suffix blob h : string) (kp : Keypair)
    (dd : dict top) (w : World) :
  let cleaned := snd (_clear_files w) in
  let keyed := set_trace (trace cleaned ++ [CallAccount seed]) cleaned in
  let detected := after_cycle C hass keyed in
  let filename := String.append "data" suffix in
  let staged := dict_set filename (File blob) (data_files detected) in
  let telemetry :=
    [LogDebug "Got states to send datalog"; CallEncrypt data;
     CallWriteData DATA_PATH false blob; CallAddTelemetry filename; CallSendDatalog h] in
  admin_seed hass = Some seed ->
  twin_id hass = Some twin ->
  states_loop hass (entity_registry hass) [] = Ok dd ->
  (forall f, In (f, Directory) (data_files w) -> is_telemetry f = false) ->
  (* each collaborator answers in the world of its call: the events up to
     its own, the files written so far *)
  Account C keyed seed = Ok kp ->
  json_dumps C (dict_set "twin_id" (Twin twin) dd) = Ok data ->
  encrypt_message C (advanced detected DATA_PATH (data_files detected) (firstn 2 telemetry))
    data kp (public_key kp) = Ok blob ->
  staging_suffix C (advanced detected DATA_PATH (data_files detected) (firstn 3 telemetry))
    false = Ok suffix ->
  add_telemetry_to_ipfs C (advanced detected DATA_PATH staged (firstn 4 telemetry))
    filename = Ok h ->
  send_datalog_states C (advanced detected DATA_PATH staged telemetry) h = Ok tt ->
  get_and_send_data C hass w = (Ok tt, advanced detected DATA_PATH staged telemetry) /\
  staged = List.filter kept (data_files w) ++ [(filename, File blob)] /\
  exists evs,
    trace detected = trace w ++ evs /\ count is_telemetry_event evs = 0.
Proof.
  intros cleaned keyed detected filename staged telemetry
    Hseed Htwin Hloop Hdirs HA Hdumps HE HS HU HL.
  destruct (create_keypair_ok seed kp w Hseed Hdirs HA) as (Hkp & Hd1 & evs1 & Htr1 & Hc1).
  fold cleaned in Hkp, Hd1, Htr1. fold keyed in Hkp, Hd1, Htr1.
  assert (Hkept : forallb kept (data_files keyed) = true)
    by (rewrite Hd1; apply filter_kept_all).
  destruct (send_data_ok kp twin data suffix blob h dd keyed Htwin Hloop Hkept Hdumps
              HE HS HU HL) as (Hsend & Hst & evs2 & Htr2 & Hc2).
  split; [| split].
  - unfold get_and_send_data, bind. rewrite Hkp. unfold try_except.
    rewrite Hsend. reflexivity.
  - rewrite <- Hd1. exact Hst.
  - exists (evs1 ++ evs2). split.
    + unfold detected. rewrite Htr2, Htr1, <- app_assoc. reflexivity.
    + rewrite GetStatesSpec.count_app, Hc1, Hc2. reflexivity.
Qed.

End Success.

Lemma successful_cycle_witness :
  get_and_send_data Samples.collaborators0 Samples.hass0 Samples.world_settled =
    (Ok tt,
     {| data_files := [("data-1", File "enc:snapshot")];
        config_files := config_files Samples.world_settled;
        ipfs_hash_config := ipfs_hash_config Samples.world_settled;
        trace :=
          [OsRemove DATA_PATH "data-0"; CallAccount "seed";
           LogDebug "Start getting info about dashboard and services";
           LogDebug "Got states to send datalog"; CallEncrypt "snapshot";
           CallWriteData DATA_PATH false "enc:snapshot"; CallAddTelemetry "data-1";
           CallSendDatalog "Qm:data-1"] |}).
Proof.
  destruct (states_loop Samples.hass0 (entity_registry Samples.hass0) [])
    as [dd | err] eqn:Hloop; [| vm_compute in Hloop; discriminate].
  destruct (successful_cycle Samples.collaborators0 Samples.hass0
              "seed" "7" "snapshot" "-1" "enc:snapshot" "Qm:data-1"
              {| private_key := "seed"; public_key := "pub" |} dd Samples.world_settled
              eq_refl eq_refl Hloop) as (Hrun & _ & _).
  - intros f [H | []]. discriminate.
  - reflexivity.
  - reflexivity.
  - reflexivity.
  - reflexivity.
  - reflexivity.
  - reflexivity.
  - rewrite Hrun. vm_compute. reflexivity.
Defined.

(** *** The snapshot and the configuration *)

(** X23. Whether [_get_states] returns a snapshot, and which one, depends
    on what it reads from Home Assistant only: the detector it runs first
    never raises, so no failure of the configuration publication, of a
    collaborator or of a file stops the collection.  A snapshot is
    returned exactly when the loop over the registry goes through and the
    twin identifier is set, and it is the result of the loop with the key
    ["twin_id"] set; with the loop through and no twin identifier the
    error is [KeyError]. *)
Theorem snapshot_ignores_configuration (C : Collaborators) (hass : Hass) (w : World) :
  ((exists snapshot w', _get_states C hass w = (Ok snapshot, w')) <->
   (exists dd, states_loop hass (entity_registry hass) [] = Ok dd) /\
   twin_id hass <> None) /\
  (forall dd twin,
     states_loop hass (entity_registry hass) [] = Ok dd ->
     twin_id hass = Some twin ->
     fst (_get_states C hass w) = Ok (dict_set "twin_id" (Twin twin) dd)) /\
  (forall dd,
     states_loop hass (entity_registry hass) [] = Ok dd ->
     twin_id hass = None ->
     fst (_get_states C hass w) = Raise (KeyError "TWIN_ID")) /\
  (forall err,
     states_loop hass (entity_registry hass) [] = Raise err ->
     fst (_get_states C hass w) = Raise err).
Proof.
  destruct (GetStatesSpec.dashboard_and_services_returns C hass w) as ([] & w1 & Hrun).
  unfold _get_states, bind. rewrite Hrun.
  destruct (states_loop hass (entity_registry hass) []) as [dd | err];
    destruct (twin_id hass) as [twin |]; cbn.
  - split; [split |].
    + intros _. split; [eauto | discriminate].
    + intros _. eauto.
    + split; [intros dd' twin' [= <-] [= <-]; reflexivity |].
      split; [intros dd' _ H; discriminate | intros err H; discriminate].
  - split; [split |].
    + intros (snapshot & w' & H). discriminate.
    + intros [_ H]. contradiction.
    + split; [intros dd' twin' _ H; discriminate |].
      split; [intros dd' _ _; reflexivity | intros err H; discriminate].
  - split; [split |].
    + intros (snapshot & w' & H). discriminate.
    + intros [[dd H] _]. discriminate.
    + split; [intros dd' twin' H; discriminate |].
      split; [intros dd' H; discriminate | intros err' [= <-]; reflexivity].
  - split; [split |].
    + intros (snapshot & w' & H). discriminate.
    + intros [[dd H] _]. discriminate.
    + split; [intros dd' twin' H; discriminate |].
      split; [intros dd' H; discriminate | intros err' [= <-]; reflexivity].
Qed.

Lemma snapshot_ignores_configuration_witness :
  fst (_get_states Samples.collaborators_no_account Samples.hass_no_dashboard
         Samples.world_corrupt) =
  fst (_get_states Samples.collaborators0 Samples.hass0 Samples.world_settled).
Proof.
  destruct (states_loop Samples.hass0 (entity_registry Samples.hass0) [])
    as [dd | err] eqn:Hloop; [| vm_compute in Hloop; discriminate].
  destruct (snapshot_ignores_configuration Samples.collaborators0 Samples.hass0
              Samples.world_settled) as (_ & Hsnap & _).
  destruct (snapshot_ignores_configuration Samples.collaborators_no_account
              Samples.hass_no_dashboard Samples.world_corrupt) as (_ & Hsnap' & _).
  rewrite (Hsnap dd "7" Hloop eq_refl).
  exact (Hsnap' dd "7" Hloop eq_refl).
Defined.

End GetStatesMore.
